(** * Unreal bridge examples: SteamAIBridge and DataVisualizationBridge

    A shallow embedding of the two bridge components found in
    [packages/ai/examples/unreal/Bridge.cpp] and
    [packages/data-visualization/examples/unreal/Bridge.cpp], together with
    the properties of their marshalling, callback dispatch, batching and
    housekeeping code.

    Conventions of the embedding:
    - [FString] is [string]; [TMap<FString, V>] is [gmap string V] unless the
      iteration order of the map is observed, in which case it is an
      association list in insertion order;
    - [float] and [double] values are exact rationals ([Q]); every finite
      floating-point value is one, and no result below depends on rounding of
      arithmetic (only on the rounding that [Printf] performs on purpose);
    - a member function of a component is a computation in a state-and-output
      monad: it receives the component, returns its result and the updated
      component, and emits the log lines, broadcasts and script submissions
      it performs, in order;
    - operations of the engine itself (JSON reader, [FString::Contains],
      [Printf], the file helper, the V8 context) are either modelled in the
      module [UE] or taken as variables of the section that uses them. *)

From Stdlib Require Import ZArith QArith Qround Qabs Lqa Lia String Ascii List Bool.
From stdpp Require Import base option gmap strings.
Import ListNotations.

Local Open Scope string_scope.
Local Open Scope Z_scope.

(* ===================================================================== *)
(** ** Engine primitives *)
(* ===================================================================== *)

Module UE.

(** [FChar::ToLower] on the ASCII range. *)
Definition ToLower (c : ascii) : ascii :=
  let n := N_of_ascii c in
  if ((65 <=? n) && (n <=? 90))%N then ascii_of_N (n + 32) else c.

(** Does [s] start with [sub], ignoring case? *)
Fixpoint StartsWith (s sub : string) : bool :=
  match sub, s with
  | EmptyString, _ => true
  | String _ _, EmptyString => false
  | String c sub', String d s' =>
      if Ascii.eqb (ToLower c) (ToLower d) then StartsWith s' sub' else false
  end.

Fixpoint FindFrom (s sub : string) : bool :=
  match s with
  | EmptyString => StartsWith EmptyString sub
  | String _ s' => StartsWith s sub || FindFrom s' sub
  end.

(** [FString::Contains(SubStr)]: the engine's default search is
    [ESearchCase::IgnoreCase], and an empty needle is never found. *)
Definition Contains (s sub : string) : bool :=
  match sub with
  | EmptyString => false
  | _ => FindFrom s sub
  end.

(** Occurrence of a text in another, case and all: used to say what a
    script text consists of. *)
Fixpoint StartsWithExact (s sub : string) : bool :=
  match sub, s with
  | EmptyString, _ => true
  | String _ _, EmptyString => false
  | String c sub', String d s' =>
      if Ascii.eqb c d then StartsWithExact s' sub' else false
  end.

Fixpoint Occurs (s sub : string) : bool :=
  match s with
  | EmptyString => StartsWithExact EmptyString sub
  | String _ s' => StartsWithExact s sub || Occurs s' sub
  end.

(** *** Decimal output of [Printf] *)

Definition DigitChar (d : Z) : ascii := ascii_of_N (Z.to_N (48 + d)).

(** The [k] low decimal digits of [n], most significant first. *)
Fixpoint FixedDigits (k : nat) (n : Z) : string :=
  match k with
  | O => EmptyString
  | S k' => FixedDigits k' (n / 10) +:+ String (DigitChar (n mod 10)) EmptyString
  end.

Fixpoint DigitCount (fuel : nat) (n : Z) : nat :=
  match fuel with
  | O => 1%nat
  | S f => if n <? 10 then 1%nat else S (DigitCount f (n / 10))
  end.

(** A non-negative integer without leading zeros. *)
Definition Decimal (n : Z) : string :=
  FixedDigits (DigitCount (Z.to_nat (Z.log2 n)) n) n.

(** [%d] and [%lld]. *)
Definition PrintfInt (n : Z) : string :=
  if n <? 0 then String "-" (Decimal (- n)) else Decimal n.

(** Rounding to the nearest integer, ties to even: what the C runtime does
    with the exact value of the argument of a [%f] conversion. *)
Definition RoundHalfEven (q : Q) : Z :=
  let f := Qfloor q in
  match ((q - inject_Z f) ?= (1 # 2))%Q with
  | Lt => f
  | Gt => f + 1
  | Eq => if Z.even f then f else f + 1
  end.

(** [%.<prec>f] for [prec > 0]; [%f] is [%.6f]. *)
Definition PrintfFloat (prec : nat) (x : Q) : string :=
  let scale := 10 ^ Z.of_nat prec in
  let r := RoundHalfEven (Qabs x * inject_Z scale)%Q in
  (if Qlt_le_dec x 0 then "-" else "")
    +:+ Decimal (r / scale) +:+ "." +:+ FixedDigits prec (r mod scale).

(** The value a [%.<prec>f] conversion denotes: [x] rounded to [prec]
    decimals. *)
Definition RoundTo (prec : nat) (x : Q) : Q :=
  let scale := 10 ^ Z.of_nat prec in
  let r := RoundHalfEven (Qabs x * inject_Z scale)%Q in
  Qmake ((if Qlt_le_dec x 0 then -1 else 1) * r) (Z.to_pos scale).

(** The double quote, and a string between double quotes. *)
Definition DQ : ascii := ascii_of_N 34.
Definition Quoted (s : string) : string := String DQ (s +:+ String DQ EmptyString).

(** *** The engine's JSON reader

    [FJsonSerializer::Deserialize] into an [FJsonObject], on the texts this
    bridge exchanges: one object whose members have plain string keys and
    numeric values in decimal notation, with optional white space between
    tokens.  A later member overrides an earlier one of the same name, as
    in the engine's [TMap] of values. *)

Abbreviation FJsonObject := (gmap string Q).

Definition IsWhitespace (c : ascii) : bool :=
  let n := N_of_ascii c in
  ((n =? 32) || (n =? 9) || (n =? 10) || (n =? 13))%N.

Fixpoint SkipWhitespace (s : string) : string :=
  match s with
  | String c s' => if IsWhitespace c then SkipWhitespace s' else s
  | EmptyString => s
  end.

Definition IsDigit (c : ascii) : bool :=
  let n := N_of_ascii c in ((48 <=? n) && (n <=? 57))%N.

Definition DigitValue (c : ascii) : Z := Z.of_N (N_of_ascii c) - 48.

(** Reads the longest run of digits: its value on top of [acc], how many
    digits were read on top of [count], and the rest of the text. *)
Fixpoint ReadDigits (acc : Z) (count : nat) (s : string) : Z * nat * string :=
  match s with
  | String c s' =>
      if IsDigit c then ReadDigits (acc * 10 + DigitValue c) (S count) s'
      else (acc, count, s)
  | EmptyString => (acc, count, s)
  end.

Definition ReadSign (s : string) : Z * string :=
  match s with
  | String c s' => if Ascii.eqb c "-" then (-1, s') else (1, s)
  | EmptyString => (1, s)
  end.

Definition ReadFraction (sign int : Z) (s : string) : option (Q * string) :=
  match s with
  | String c s' =>
      if Ascii.eqb c "." then
        match ReadDigits 0 0 s' with
        | (_, O, _) => None
        | (frac, n, rest) =>
            let scale := 10 ^ Z.of_nat n in
            Some (Qmake (sign * (int * scale + frac)) (Z.to_pos scale), rest)
        end
      else Some (inject_Z (sign * int), s)
  | EmptyString => Some (inject_Z (sign * int), s)
  end.

Definition ReadNumber (s : string) : option (Q * string) :=
  let '(sign, s1) := ReadSign s in
  match ReadDigits 0 0 s1 with
  | (_, O, _) => None
  | (int, _, s2) => ReadFraction sign int s2
  end.

(** The characters of a key up to its closing quote. *)
Fixpoint ReadStringBody (s : string) : option (string * string) :=
  match s with
  | EmptyString => None
  | String c s' =>
      if Ascii.eqb c DQ then Some (EmptyString, s')
      else if Ascii.eqb c "\" then None
      else match ReadStringBody s' with
           | Some (key, rest) => Some (String c key, rest)
           | None => None
           end
  end.

Definition Expect (c : ascii) (s : string) : option string :=
  match SkipWhitespace s with
  | String d s' => if Ascii.eqb c d then Some s' else None
  | EmptyString => None
  end.

Fixpoint ReadMembers (fuel : nat) (obj : FJsonObject) (s : string)
  : option (FJsonObject * string) :=
  match fuel with
  | O => None
  | S fuel' =>
      s1 ← Expect DQ s;
      '(key, s2) ← ReadStringBody s1;
      s3 ← Expect ":" s2;
      '(value, s4) ← ReadNumber (SkipWhitespace s3);
      match Expect "," s4 with
      | Some s5 => ReadMembers fuel' (<[key := value]> obj) s5
      | None =>
          s5 ← Expect "}" s4;
          Some (<[key := value]> obj, s5)
      end
  end.

Definition AtEnd (s : string) : bool :=
  match SkipWhitespace s with
  | EmptyString => true
  | _ => false
  end.

Definition Deserialize (s : string) : option FJsonObject :=
  s1 ← Expect "{" s;
  match Expect "}" s1 with
  | Some s2 => if AtEnd s2 then Some ∅ else None
  | None =>
      '(obj, s2) ← ReadMembers (String.length s1) ∅ s1;
      if AtEnd s2 then Some obj else None
  end.

(** [FJsonObject::GetNumberField]: a missing member reads as zero. *)
Definition GetNumberField (obj : FJsonObject) (name : string) : Q :=
  default 0%Q (obj !! name).

(** *** [FString] comparison and [TMap<FString, V>]

    [FString::operator==], and with it the key comparison of a [TMap] keyed
    by [FString], ignores case.  Such a map is a [gmap] over the keys folded
    to lower case. *)

Fixpoint ToLowerString (s : string) : string :=
  match s with
  | EmptyString => EmptyString
  | String c s' => String (ToLower c) (ToLowerString s')
  end.

Definition FStringEq (a b : string) : bool :=
  String.eqb (ToLowerString a) (ToLowerString b).

Definition Key (k : string) : string := ToLowerString k.

Definition TMapFind {V} (m : gmap string V) (k : string) : option V := m !! Key k.

Definition TMapContains {V} (m : gmap string V) (k : string) : bool :=
  match TMapFind m k with Some _ => true | None => false end.

Definition TMapAdd {V} (k : string) (v : V) (m : gmap string V) : gmap string V :=
  <[Key k := v]> m.

Definition TMapRemove {V} (k : string) (m : gmap string V) : gmap string V :=
  delete (Key k) m.

(** [Map[k]] used as an l-value: the value stored under [k] is replaced by
    its image under [f]. *)
Definition TMapUpdate {V} (f : V -> V) (k : string) (m : gmap string V) : gmap string V :=
  alter f (Key k) m.

(** *** Paths and logging *)

(** [FString::operator/]: joins with exactly one separator. *)
Definition EndsWithSeparator (s : string) : bool :=
  match String.rev s with
  | String c _ => Ascii.eqb c "/" || Ascii.eqb c "\"
  | EmptyString => false
  end.

Definition PathAppend (a b : string) : string :=
  match a with
  | EmptyString => b
  | _ => if EndsWithSeparator a then a +:+ b else a +:+ "/" +:+ b
  end.

Inductive ELogVerbosity := Fatal | Error | Warning | Display | Log.

End UE.

(* ===================================================================== *)
(** ** Member functions as computations *)
(* ===================================================================== *)

Module Eff.
Section Eff.
Context {St Ev : Type}.

(** What one call did: the value returned, the number of clock readings
    taken so far, the component afterwards, and the output emitted. *)
Record Run (A : Type) := MkRun {
  Returned : A;
  Reads : nat;
  Final : St;
  Emitted : list Ev
}.

Record M (A : Type) := MkM { run : nat -> St -> Run A }.

Definition ret {A} (a : A) : M A := MkM _ (fun n s => MkRun _ a n s []).

Definition bind {A B} (k : A -> M B) (c : M A) : M B :=
  MkM _ (fun n s =>
    let r := run _ c n s in
    let r' := run _ (k (Returned _ r)) (Reads _ r) (Final _ r) in
    MkRun _ (Returned _ r') (Reads _ r') (Final _ r')
            (Emitted _ r ++ Emitted _ r')).

Definition get : M St := MkM _ (fun n s => MkRun _ s n s []).
Definition put (s : St) : M unit := MkM _ (fun n _ => MkRun _ tt n s []).
Definition modify (f : St -> St) : M unit := MkM _ (fun n s => MkRun _ tt n (f s) []).
Definition emit (e : Ev) : M unit := MkM _ (fun n s => MkRun _ tt n s [e]).

(** Takes the next clock reading: returns its index in the stream. *)
Definition readClock : M nat := MkM _ (fun n s => MkRun _ n (S n) s []).

(** A range-based [for] over [l]. *)
Definition ForEach {A} (l : list A) (body : A -> M unit) : M unit :=
  fold_right (fun x rest => bind (fun _ => rest) (body x)) (ret tt) l.
End Eff.

Arguments Run : clear implicits.
Arguments M : clear implicits.
Arguments MkRun {St Ev A}.
Arguments MkM {St Ev A}.
Arguments Returned {St Ev A}.
Arguments Reads {St Ev A}.
Arguments Final {St Ev A}.
Arguments Emitted {St Ev A}.
Arguments run {St Ev A}.

#[global] Instance M_mret {St Ev} : MRet (M St Ev) := fun A => ret.
#[global] Instance M_mbind {St Ev} : MBind (M St Ev) := fun A B => bind.

End Eff.

(* ===================================================================== *)
(** ** SteamAIBridge ([packages/ai/examples/unreal/Bridge.cpp]) *)
(* ===================================================================== *)

(** [FVector], in a module of its own because its third component is
    named [Z]. *)
Module FVec.

Record FVector := MkFVector { X : Q; Y : Q; Z : Q }.

Definition ZeroVector : FVector := MkFVector 0 0 0.

(** [FVector::operator==]: component-wise comparison of the values. *)
Definition Equals (a b : FVector) : Prop :=
  (X a == X b)%Q /\ (Y a == Y b)%Q /\ (Z a == Z b)%Q.

(** Every component of [a] is within [eps] of that of [b]. *)
Definition Within (eps : Q) (a b : FVector) : Prop :=
  (Qabs (X a - X b) <= eps)%Q /\ (Qabs (Y a - Y b) <= eps)%Q
  /\ (Qabs (Z a - Z b) <= eps)%Q.

(** Every component is a whole number of hundredths. *)
Definition TwoDecimals (a : FVector) : Prop :=
  (exists n, X a == n # 100)%Q /\ (exists n, Y a == n # 100)%Q
  /\ (exists n, Z a == n # 100)%Q.

End FVec.

Abbreviation FVector := FVec.FVector.
Abbreviation MkFVector := FVec.MkFVector.

Module SteamAI.

(** *** Data *)

Record FSteamAIConfig := MkConfig {
  bEnableDebugLogging : bool;
  JavaScriptFilePath : string;
  bUseV8Engine : bool;
  GarbageCollectionInterval : Q;
  MaxMemoryUsageMB : Z;
  bEnablePerformanceMonitoring : bool
}.

Record FSteamAIPerformanceStats := MkStats {
  ScriptExecutionTimeMs : Q;
  TreeExecutionTimeMs : Q;
  ActiveAgents : Z;
  ActiveTrees : Z;
  MemoryUsageMB : Q;
  ScriptCallsPerSecond : Z
}.

(** A dynamic delegate ([FActionDelegate], [FConditionDelegate]): unbound,
    or bound to a function of some object, named here by [Target]. *)
Inductive FDelegate := Unbound | BoundTo (Target : string).

Definition IsBound (d : FDelegate) : bool :=
  match d with Unbound => false | BoundTo _ => true end.

Record USteamAIBridge := MkBridge {
  Config : FSteamAIConfig;
  bIsInitialized : bool;
  bInitializationInProgress : bool;
  V8ContextIsValid : bool;
  RegisteredActions : gmap string (gmap string FDelegate);
  RegisteredConditions : gmap string (gmap string FDelegate);
  PerformanceStats : FSteamAIPerformanceStats;
  LastGCTime : Q;
  LastStatsUpdateTime : Q;
  ScriptCallsThisSecond : Z
}.

(** Assignments to single members. *)
Definition set_bIsInitialized (v : bool) (b : USteamAIBridge) :=
  MkBridge (Config b) v (bInitializationInProgress b) (V8ContextIsValid b)
    (RegisteredActions b) (RegisteredConditions b) (PerformanceStats b)
    (LastGCTime b) (LastStatsUpdateTime b) (ScriptCallsThisSecond b).
Definition set_bInitializationInProgress (v : bool) (b : USteamAIBridge) :=
  MkBridge (Config b) (bIsInitialized b) v (V8ContextIsValid b)
    (RegisteredActions b) (RegisteredConditions b) (PerformanceStats b)
    (LastGCTime b) (LastStatsUpdateTime b) (ScriptCallsThisSecond b).
Definition set_RegisteredActions (v : gmap string (gmap string FDelegate))
    (b : USteamAIBridge) :=
  MkBridge (Config b) (bIsInitialized b) (bInitializationInProgress b)
    (V8ContextIsValid b) v (RegisteredConditions b) (PerformanceStats b)
    (LastGCTime b) (LastStatsUpdateTime b) (ScriptCallsThisSecond b).
Definition set_RegisteredConditions (v : gmap string (gmap string FDelegate))
    (b : USteamAIBridge) :=
  MkBridge (Config b) (bIsInitialized b) (bInitializationInProgress b)
    (V8ContextIsValid b) (RegisteredActions b) v (PerformanceStats b)
    (LastGCTime b) (LastStatsUpdateTime b) (ScriptCallsThisSecond b).
Definition set_PerformanceStats (v : FSteamAIPerformanceStats) (b : USteamAIBridge) :=
  MkBridge (Config b) (bIsInitialized b) (bInitializationInProgress b)
    (V8ContextIsValid b) (RegisteredActions b) (RegisteredConditions b) v
    (LastGCTime b) (LastStatsUpdateTime b) (ScriptCallsThisSecond b).
Definition set_LastGCTime (v : Q) (b : USteamAIBridge) :=
  MkBridge (Config b) (bIsInitialized b) (bInitializationInProgress b)
    (V8ContextIsValid b) (RegisteredActions b) (RegisteredConditions b)
    (PerformanceStats b) v (LastStatsUpdateTime b) (ScriptCallsThisSecond b).
Definition set_LastStatsUpdateTime (v : Q) (b : USteamAIBridge) :=
  MkBridge (Config b) (bIsInitialized b) (bInitializationInProgress b)
    (V8ContextIsValid b) (RegisteredActions b) (RegisteredConditions b)
    (PerformanceStats b) (LastGCTime b) v (ScriptCallsThisSecond b).
Definition set_ScriptCallsThisSecond (v : Z) (b : USteamAIBridge) :=
  MkBridge (Config b) (bIsInitialized b) (bInitializationInProgress b)
    (V8ContextIsValid b) (RegisteredActions b) (RegisteredConditions b)
    (PerformanceStats b) (LastGCTime b) (LastStatsUpdateTime b) v.

Definition set_ScriptExecutionTimeMs (v : Q) (p : FSteamAIPerformanceStats) :=
  MkStats v (TreeExecutionTimeMs p) (ActiveAgents p) (ActiveTrees p)
    (MemoryUsageMB p) (ScriptCallsPerSecond p).
Definition set_periodic_stats (calls agents trees : Z) (p : FSteamAIPerformanceStats) :=
  MkStats (ScriptExecutionTimeMs p) (TreeExecutionTimeMs p) agents trees
    (MemoryUsageMB p) calls.

(** What the component emits: lines of the [LogSteamAI] category, broadcasts
    of its multicast delegates, and executions of registered delegates. *)
Inductive Event :=
| LogLine (Verbosity : UE.ELogVerbosity) (Message : string)
| OnAIInitialized (bSuccess : bool)
| OnAIError (ErrorMessage : string)
| DelegateExecuted (Target AgentData BlackboardData : string).

Definition STEAM_AI_LOG (Message : string) : Eff.M USteamAIBridge Event unit :=
  Eff.emit (LogLine UE.Log Message).
Definition STEAM_AI_WARN (Message : string) : Eff.M USteamAIBridge Event unit :=
  Eff.emit (LogLine UE.Warning Message).
Definition STEAM_AI_ERROR (Message : string) : Eff.M USteamAIBridge Event unit :=
  Eff.emit (LogLine UE.Error Message).

(** *** Script texts *)

(** The two halves of the module shim of [LoadSteamAIPackage], around the
    [%s] of its format. *)
Definition ShimPrefix : string :=
  "
        (function() {
            // Module system
            var module = { exports: {} };
            var exports = module.exports;
            var global = this;
            var window = global;

            // Steam AI Package Code
            ".

Definition ShimSuffix : string :=
  "

            // Export to global scope
            if (typeof module !== 'undefined' && module.exports) {
                window.SteamAI = module.exports;
            }

            console.log('Steam AI package loaded successfully');
        }).call(this);
    ".

Definition BindingScript : string :=
  "
        // Unreal Engine specific bindings
        window.Unreal = {
            log: function(message) {
                window.UnrealCallbacks.Log(String(message));
            },
            warn: function(message) {
                window.UnrealCallbacks.Warn(String(message));
            },
            error: function(message) {
                window.UnrealCallbacks.Error(String(message));
            },
            getTime: function() {
                return window.UnrealCallbacks.GetTime();
            },
            getDeltaTime: function() {
                return window.UnrealCallbacks.GetDeltaTime();
            },
            createVector3: function(x, y, z) {
                return JSON.parse(window.UnrealCallbacks.CreateVector3(x || 0, y || 0, z || 0));
            },
            calculateDistance: function(a, b) {
                return window.UnrealCallbacks.CalculateDistance(JSON.stringify(a), JSON.stringify(b));
            }
        };

        // Console compatibility
        if (typeof console === 'undefined') {
            window.console = {
                log: window.Unreal.log,
                warn: window.Unreal.warn,
                error: window.Unreal.error
            };
        }

        // Callback system for actions and conditions
        window.UnrealCallAction = function(agentId, actionName, agent, blackboard) {
            try {
                return window.UnrealCallbacks.CallAction(agentId, actionName, JSON.stringify(agent), JSON.stringify(blackboard));
            } catch (e) {
                console.error('Action callback error:', e.message);
                return false;
            }
        };

        window.UnrealCallCondition = function(agentId, conditionName, agent, blackboard) {
            try {
                return window.UnrealCallbacks.CallCondition(agentId, conditionName, JSON.stringify(agent), JSON.stringify(blackboard));
            } catch (e) {
                console.error('Condition callback error:', e.message);
                return false;
            }
        };

        // Initialize Steam AI components
        if (typeof window.SteamAI !== 'undefined') {
            const { AgentManager, BehaviorTreeEngine, StateMachineEngine } = window.SteamAI;

            window.agentManager = new AgentManager();
            window.behaviorTreeEngine = new BehaviorTreeEngine();
            window.stateMachineEngine = new StateMachineEngine();

            // Global storage
            window.agents = {};
            window.behaviorTrees = {};
            window.stateMachines = {};

            console.log('Steam AI components initialized');
        } else {
            console.error('Steam AI package not found');
        }
    ".

Definition CreateAgentScript (AgentId AgentConfig : string) : string :=
  "
        if (window.agentManager) {
            try {
                const config = "
  +:+ AgentConfig
  +:+ ";
                const agent = window.agentManager.createAgent('"
  +:+ AgentId
  +:+ "', config);
                window.agents['"
  +:+ AgentId
  +:+ "'] = agent;
                true;
            } catch (e) {
                console.error('Failed to create agent:', e.message);
                false;
            }
        } else {
            console.error('Agent manager not initialized');
            false;
        }
    ".

Definition CreateBehaviorTreeScript (TreeId TreeConfig : string) : string :=
  "
        if (window.behaviorTreeEngine) {
            try {
                const config = "
  +:+ TreeConfig
  +:+ ";
                window.behaviorTreeEngine.createTree('"
  +:+ TreeId
  +:+ "', config);
                window.behaviorTrees['"
  +:+ TreeId
  +:+ "'] = config;
                true;
            } catch (e) {
                console.error('Failed to create behavior tree:', e.message);
                false;
            }
        } else {
            console.error('Behavior tree engine not initialized');
            false;
        }
    ".

Definition SetAgentMemoryScript (AgentId Key Value : string) : string :=
  "
        if (window.agentManager && window.agents['"
  +:+ AgentId
  +:+ "']) {
            try {
                window.agentManager.updateAgentMemory('"
  +:+ AgentId
  +:+ "', '"
  +:+ Key
  +:+ "', "
  +:+ Value
  +:+ ");
                true;
            } catch (e) {
                console.error('Failed to set agent memory:', e.message);
                false;
            }
        } else {
            false;
        }
    ".


(** [UWorld], as far as the component reads it. *)
Record UWorld := MkWorld { GetTimeSeconds : Q }.

(** *** Member functions *)

(** The build flag, and the engine services the component calls. *)
Class Engine := {
  WITH_V8 : bool;
  ProjectContentDir : string;
  ProjectDir : string;
  (** [FFileHelper::LoadFileToString]: the contents of the file, if it can
      be read. *)
  LoadFileToString : string -> option string;
  (** [FDateTime::Now().GetTicks()] at the successive readings of the clock. *)
  NowTicks : nat -> Z;
  (** What the function a delegate is bound to returns. *)
  ExecuteIfBound : string -> string -> string -> bool
}.

Section Bridge.
Context {E : Engine}.

#[local] Abbreviation M := (Eff.M USteamAIBridge Event).

Definition when (c : bool) (body : M unit) : M unit :=
  if c then body else mret tt.

Definition TicksPerMillisecond : Z := 10000.

Definition GetCurrentTimeMilliseconds : M Q :=
  n ← Eff.readClock;
  mret (inject_Z (NowTicks n / TicksPerMillisecond)).

(** The V8 entry points are placeholders in the source. *)
Definition InitializeV8Engine : M bool :=
  STEAM_AI_LOG "V8 engine initialization not fully implemented";;
  mret false.

Definition CleanupV8Engine : M unit := mret tt.

Definition ExecuteV8Script (Script : string) : M bool := mret false.

Definition ExecuteV8Function (FunctionName : string) (Parameters : list string)
  : M string := mret "".

Definition InitializeFallbackEngine : M bool :=
  STEAM_AI_LOG "Using fallback JavaScript engine (limited functionality)";;
  mret true.

Definition CleanupFallbackEngine : M unit := mret tt.

Definition ExecuteFallbackScript (Script : string) : M bool :=
  b ← Eff.get;
  when (bEnableDebugLogging (Config b))
    (STEAM_AI_LOG ("Fallback script execution: " +:+ String.substring 0 100 Script));;
  mret true.

Definition ExecuteFallbackFunction (FunctionName : string) (Parameters : list string)
  : M string :=
  b ← Eff.get;
  when (bEnableDebugLogging (Config b))
    (STEAM_AI_LOG ("Fallback function execution: " +:+ FunctionName));;
  mret "".

(** The block that follows every engine call in [ExecuteScript] and
    [ExecuteFunction]. *)
Definition RecordScriptCall (StartTime : Q) : M unit :=
  b ← Eff.get;
  when (bEnablePerformanceMonitoring (Config b))
    (Now ← GetCurrentTimeMilliseconds;
     Eff.modify (fun b =>
       set_ScriptCallsThisSecond (ScriptCallsThisSecond b + 1)
         (set_PerformanceStats
            (set_ScriptExecutionTimeMs (Now - StartTime) (PerformanceStats b)) b))).

Definition UsesV8 (b : USteamAIBridge) : bool :=
  WITH_V8 && bUseV8Engine (Config b) && V8ContextIsValid b.

Definition ExecuteScript (Script : string) : M bool :=
  b ← Eff.get;
  if negb (bIsInitialized b) then
    STEAM_AI_ERROR "Attempting to execute script on uninitialized bridge";;
    mret false
  else
    StartTime ← GetCurrentTimeMilliseconds;
    if UsesV8 b then
      bResult ← ExecuteV8Script Script;
      RecordScriptCall StartTime;;
      mret bResult
    else
      bResult ← ExecuteFallbackScript Script;
      RecordScriptCall StartTime;;
      mret bResult.

Definition ExecuteFunction (FunctionName : string) (Parameters : list string)
  : M string :=
  b ← Eff.get;
  if negb (bIsInitialized b) then
    STEAM_AI_ERROR "Attempting to execute function on uninitialized bridge";;
    mret ""
  else
    StartTime ← GetCurrentTimeMilliseconds;
    if UsesV8 b then
      Result ← ExecuteV8Function FunctionName Parameters;
      RecordScriptCall StartTime;;
      mret Result
    else
      Result ← ExecuteFallbackFunction FunctionName Parameters;
      RecordScriptCall StartTime;;
      mret Result.

Definition AsFunction (Script : string) : string :=
  "(function() { return " +:+ Script +:+ " })".

Definition CreateAgent (AgentId AgentConfig : string) : M bool :=
  Result ← ExecuteFunction (AsFunction (CreateAgentScript AgentId AgentConfig)) [];
  mret (UE.Contains Result "true").

Definition CreateBehaviorTree (TreeId TreeConfig : string) : M bool :=
  Result ← ExecuteFunction (AsFunction (CreateBehaviorTreeScript TreeId TreeConfig)) [];
  mret (UE.Contains Result "true").

Definition SetAgentMemory (AgentId Key Value : string) : M bool :=
  Result ← ExecuteFunction (AsFunction (SetAgentMemoryScript AgentId Key Value)) [];
  mret (UE.Contains Result "true").

Definition ForceGarbageCollection (World : UWorld) : M unit :=
  ExecuteScript "if (typeof gc !== 'undefined') { gc(); }";;
  Eff.modify (set_LastGCTime (GetTimeSeconds World)).

(** *** Callbacks *)

Definition NoActionCallback (AgentId ActionName : string) : M bool :=
  STEAM_AI_WARN ("No action callback found for agent " +:+ AgentId
                 +:+ ", action " +:+ ActionName);;
  mret false.

Definition HandleActionCallback (AgentId ActionName AgentData BlackboardData : string)
  : M bool :=
  b ← Eff.get;
  match UE.TMapFind (RegisteredActions b) AgentId with
  | Some AgentActions =>
      match UE.TMapFind AgentActions ActionName with
      | Some (BoundTo Target) =>
          Eff.emit (DelegateExecuted Target AgentData BlackboardData);;
          mret (ExecuteIfBound Target AgentData BlackboardData)
      | Some Unbound => NoActionCallback AgentId ActionName
      | None => NoActionCallback AgentId ActionName
      end
  | None => NoActionCallback AgentId ActionName
  end.

Definition NoConditionCallback (AgentId ConditionName : string) : M bool :=
  STEAM_AI_WARN ("No condition callback found for agent " +:+ AgentId
                 +:+ ", condition " +:+ ConditionName);;
  mret false.

Definition HandleConditionCallback
    (AgentId ConditionName AgentData BlackboardData : string) : M bool :=
  b ← Eff.get;
  match UE.TMapFind (RegisteredConditions b) AgentId with
  | Some AgentConditions =>
      match UE.TMapFind AgentConditions ConditionName with
      | Some (BoundTo Target) =>
          Eff.emit (DelegateExecuted Target AgentData BlackboardData);;
          mret (ExecuteIfBound Target AgentData BlackboardData)
      | Some Unbound => NoConditionCallback AgentId ConditionName
      | None => NoConditionCallback AgentId ConditionName
      end
  | None => NoConditionCallback AgentId ConditionName
  end.

(** [TMap::Add] replaces the value of a key that is already present. *)
Definition RegisterAction (AgentId ActionName : string) (Callback : FDelegate)
  : M unit :=
  b ← Eff.get;
  when (negb (UE.TMapContains (RegisteredActions b) AgentId))
    (Eff.modify (fun b =>
       set_RegisteredActions (UE.TMapAdd AgentId ∅ (RegisteredActions b)) b));;
  Eff.modify (fun b =>
    set_RegisteredActions
      (UE.TMapUpdate (UE.TMapAdd ActionName Callback) AgentId (RegisteredActions b)) b);;
  STEAM_AI_LOG ("Registered action " +:+ ActionName +:+ " for agent " +:+ AgentId).

Definition RegisterCondition (AgentId ConditionName : string) (Callback : FDelegate)
  : M unit :=
  b ← Eff.get;
  when (negb (UE.TMapContains (RegisteredConditions b) AgentId))
    (Eff.modify (fun b =>
       set_RegisteredConditions (UE.TMapAdd AgentId ∅ (RegisteredConditions b)) b));;
  Eff.modify (fun b =>
    set_RegisteredConditions
      (UE.TMapUpdate (UE.TMapAdd ConditionName Callback) AgentId
         (RegisteredConditions b)) b);;
  STEAM_AI_LOG ("Registered condition " +:+ ConditionName +:+ " for agent " +:+ AgentId).

(** *** Housekeeping on the frame loop *)

Definition StatsUpdateInterval : Q := 1.

Definition UpdatePerformanceStats (DeltaTime : Q) : M unit :=
  b ← Eff.get;
  if negb (bEnablePerformanceMonitoring (Config b)) then mret tt
  else
    Eff.modify (fun b => set_LastStatsUpdateTime (LastStatsUpdateTime b + DeltaTime) b);;
    b ← Eff.get;
    when (Qle_bool StatsUpdateInterval (LastStatsUpdateTime b))
      (Eff.modify (fun b =>
         set_LastStatsUpdateTime 0
           (set_ScriptCallsThisSecond 0
              (set_PerformanceStats
                 (set_periodic_stats (ScriptCallsThisSecond b)
                    (Z.of_nat (size (RegisteredActions b))) 0 (PerformanceStats b))
                 b)))).

Definition PerformPeriodicMaintenance (World : UWorld) (DeltaTime : Q) : M unit :=
  let CurrentTime := GetTimeSeconds World in
  b ← Eff.get;
  when (Qle_bool (GarbageCollectionInterval (Config b)) (CurrentTime - LastGCTime b))
    (ForceGarbageCollection World).

Definition TickComponent (World : UWorld) (DeltaTime : Q) : M unit :=
  b ← Eff.get;
  when (bIsInitialized b)
    (UpdatePerformanceStats DeltaTime;;
     PerformPeriodicMaintenance World DeltaTime).

Definition CleanupJavaScript : M unit :=
  b ← Eff.get;
  if negb (bIsInitialized b) then mret tt
  else
    STEAM_AI_LOG "Cleaning up Steam AI Bridge...";;
    Eff.modify (set_RegisteredActions ∅);;
    Eff.modify (set_RegisteredConditions ∅);;
    (if WITH_V8 && bUseV8Engine (Config b) then CleanupV8Engine
     else CleanupFallbackEngine);;
    Eff.modify (set_bIsInitialized false);;
    STEAM_AI_LOG "Steam AI Bridge cleanup complete".

(** *** Initialization *)

Definition SetupJavaScriptEnvironment : M unit :=
  b ← Eff.get;
  if WITH_V8 && bUseV8Engine (Config b) then
    ok ← InitializeV8Engine;
    when (negb ok)
      (STEAM_AI_WARN "V8 engine initialization failed, falling back to alternative";;
       InitializeFallbackEngine;; mret tt)
  else
    InitializeFallbackEngine;; mret tt.

Definition AlternativePaths : list string :=
  [ ProjectContentDir +:+ "JavaScript/steam-ai.js";
    ProjectContentDir +:+ "Scripts/steam-ai.js";
    ProjectDir +:+ "steam-ai.js" ].

(** The loop over the alternative paths: the contents of the first file
    that loads. *)
Fixpoint FirstLoadable (Paths : list string) : option string :=
  match Paths with
  | [] => None
  | AltPath :: Rest =>
      match LoadFileToString AltPath with
      | Some JavaScriptCode => Some JavaScriptCode
      | None => FirstLoadable Rest
      end
  end.

Definition WrappedCode (JavaScriptCode : string) : string :=
  ShimPrefix +:+ JavaScriptCode +:+ ShimSuffix.

Definition LoadSteamAIPackage : M bool :=
  b ← Eff.get;
  let FilePath := ProjectContentDir +:+ JavaScriptFilePath (Config b) in
  match LoadFileToString FilePath with
  | Some JavaScriptCode => ExecuteScript (WrappedCode JavaScriptCode)
  | None =>
      match FirstLoadable AlternativePaths with
      | Some JavaScriptCode => ExecuteScript (WrappedCode JavaScriptCode)
      | None =>
          STEAM_AI_ERROR ("Steam AI package file not found at: " +:+ FilePath);;
          mret false
      end
  end.

Definition SetupUnrealBindings : M unit :=
  ExecuteScript BindingScript;; mret tt.

(** No call made inside the [try] block throws, so its handler is not
    modelled. *)
Definition InitializeAI : M bool :=
  b ← Eff.get;
  if bIsInitialized b || bInitializationInProgress b then mret (bIsInitialized b)
  else
    Eff.modify (set_bInitializationInProgress true);;
    STEAM_AI_LOG "Initializing Steam AI Bridge...";;
    SetupJavaScriptEnvironment;;
    loaded ← LoadSteamAIPackage;
    if negb loaded then
      STEAM_AI_ERROR "Failed to load Steam AI package";;
      Eff.modify (set_bInitializationInProgress false);;
      Eff.emit (OnAIInitialized false);;
      mret false
    else
      SetupUnrealBindings;;
      Eff.modify (set_bIsInitialized true);;
      Eff.modify (set_bInitializationInProgress false);;
      STEAM_AI_LOG "Steam AI Bridge initialized successfully";;
      Eff.emit (OnAIInitialized true);;
      mret true.

Definition BeginPlay : M unit :=
  b ← Eff.get;
  when (negb (bInitializationInProgress b)) (InitializeAI;; mret tt).

Definition EndPlay : M unit := CleanupJavaScript.

End Bridge.

(** The component as its member initializers leave it. *)
Definition NewBridge : USteamAIBridge :=
  MkBridge (MkConfig false "/Game/JavaScript/steam-ai.js" true 30 128 false)
    false false false ∅ ∅ (MkStats 0 0 0 0 0 0) 0 0 0.

(** *** Observations used in the statements *)

(** The delegate stored for an agent and an action (or condition). *)
Definition FindAction (b : USteamAIBridge) (AgentId ActionName : string)
  : option FDelegate :=
  AgentActions ← UE.TMapFind (RegisteredActions b) AgentId;
  UE.TMapFind AgentActions ActionName.

Definition FindCondition (b : USteamAIBridge) (AgentId ConditionName : string)
  : option FDelegate :=
  AgentConditions ← UE.TMapFind (RegisteredConditions b) AgentId;
  UE.TMapFind AgentConditions ConditionName.

(** Whether a tick at world time [World] forces a garbage collection. *)
Definition GCDue (World : UWorld) (b : USteamAIBridge) : bool :=
  Qle_bool (GarbageCollectionInterval (Config b)) (GetTimeSeconds World - LastGCTime b).

(** The world times at which a run of ticks forces a garbage collection. *)
Fixpoint ForcedGCTimes {E : Engine} (Frames : list (UWorld * Q)) (n : nat)
    (b : USteamAIBridge) : list Q :=
  match Frames with
  | [] => []
  | (World, DeltaTime) :: Rest =>
      let r := Eff.run (TickComponent World DeltaTime) n b in
      (if bIsInitialized b && GCDue World b then [GetTimeSeconds World] else [])
        ++ ForcedGCTimes Rest (Eff.Reads r) (Eff.Final r)
  end.

(** Adjacent elements of [l] are at least [d] apart. *)
Fixpoint Spaced (d : Q) (l : list Q) : Prop :=
  match l with
  | t1 :: (t2 :: _) as rest => (d <= t2 - t1)%Q /\ Spaced d rest
  | _ => True
  end.

(** *** Marshalling of vectors *)

(** [USteamAIBridge::VectorToJSON]: one [Printf] whose format is an object
    with the members x, y and z, each written by a [%.2f] conversion. *)
Definition VectorToJSON (Vector : FVector) : string :=
  "{" +:+ UE.Quoted "x" +:+ ":" +:+ UE.PrintfFloat 2 (FVec.X Vector)
  +:+ "," +:+ UE.Quoted "y" +:+ ":" +:+ UE.PrintfFloat 2 (FVec.Y Vector)
  +:+ "," +:+ UE.Quoted "z" +:+ ":" +:+ UE.PrintfFloat 2 (FVec.Z Vector) +:+ "}".

(** [USteamAIBridge::JSONToVector], over any JSON reader. *)
Definition JSONToVectorWith (Reader : string -> option UE.FJsonObject)
    (JSONString : string) : FVector :=
  match Reader JSONString with
  | Some JsonObject =>
      MkFVector (UE.GetNumberField JsonObject "x")
                (UE.GetNumberField JsonObject "y")
                (UE.GetNumberField JsonObject "z")
  | None => FVec.ZeroVector
  end.

Definition JSONToVector : string -> FVector := JSONToVectorWith UE.Deserialize.

(** The vector whose components are those of [v] rounded to two decimals. *)
Definition RoundedVector (v : FVector) : FVector :=
  MkFVector (UE.RoundTo 2 (FVec.X v)) (UE.RoundTo 2 (FVec.Y v))
            (UE.RoundTo 2 (FVec.Z v)).

End SteamAI.

(* ===================================================================== *)
(** ** DataVisualizationBridge
       ([packages/data-visualization/examples/unreal/Bridge.cpp]) *)
(* ===================================================================== *)

Module DataViz.

(** *** Data *)

Record FBatchUpdateData := MkUpdate {
  ChartId : string;
  Method : string;
  Data : string;
  Timestamp : Q
}.

(** What [FV8Context::ExecuteScript] hands back: a value, or an exception. *)
Inductive FV8Value :=
| VString (Text : string)
| VUndefined
| VNull
| VOther (Text : string).

Inductive FV8Outcome := Returns (Value : FV8Value) | Throws (What : string).

(** The build flag, and the engine services the component calls. *)
Class Engine := {
  WITH_V8 : bool;
  (** JSON values of the engine and their serializer. *)
  FJsonObject : Type;
  FJsonValue : Type;
  Serialize : FJsonObject -> string;
  SerializeArray : list (option FJsonValue) -> string;
  (** The V8 wrapper: the state of a context, and what running a script in
      it returns and does to it. *)
  FV8Context : Type;
  V8ExecuteScript : FV8Context -> string -> FV8Outcome * FV8Context;
  V8SetGlobalObject : string -> FV8Context -> FV8Context;
  V8EngineInitialize : bool;
  V8CreateContext : option FV8Context;
  (** Files. *)
  ProjectContentDir : string;
  FileExists : string -> bool;
  LoadFileToString : string -> option string;
  (** [FPlatformTime::Seconds()] at the successive readings of the clock. *)
  Seconds : nat -> Q
}.

(** A [TSharedPtr<FJsonObject>]: null, or an object. *)
Abbreviation FJsonObjectPtr := (option FJsonObject).

Record UDataVisualizationBridge {E : Engine} := MkBridge {
  bEnableDebugMode : bool;
  PackagePath : string;
  MemoryLimit : Z;
  bAutoCleanup : bool;
  bEnableBatchUpdates : bool;
  BatchInterval : Q;
  MaxDataPointsPerChart : Z;
  JavaScriptEngine : bool;
  JavaScriptContext : option FV8Context;
  bIsInitialized : bool;
  Charts : gmap string FJsonObjectPtr;
  Dashboards : gmap string FJsonObjectPtr;
  PendingUpdates : list FBatchUpdateData;
  LastBatchTime : Q
}.

(** What the component emits: lines of the [LogDataVisualization] category,
    and every call of [ExecuteJavaScript] with the script it was given and
    the text it returned. *)
Inductive Event :=
| LogLine (Verbosity : UE.ELogVerbosity) (Message : string)
| JavaScript (Script Result : string).

Section Bridge.
Context {E : Engine}.

#[local] Abbreviation Bridge := (@UDataVisualizationBridge E).
#[local] Abbreviation M := (Eff.M Bridge Event).

(** Assignments to single members. *)
Definition set_JavaScriptEngine (v : bool) (b : Bridge) : Bridge :=
  MkBridge _ (bEnableDebugMode b) (PackagePath b) (MemoryLimit b) (bAutoCleanup b)
    (bEnableBatchUpdates b) (BatchInterval b) (MaxDataPointsPerChart b)
    v (JavaScriptContext b) (bIsInitialized b) (Charts b) (Dashboards b)
    (PendingUpdates b) (LastBatchTime b).
Definition set_JavaScriptContext (v : option FV8Context) (b : Bridge) : Bridge :=
  MkBridge _ (bEnableDebugMode b) (PackagePath b) (MemoryLimit b) (bAutoCleanup b)
    (bEnableBatchUpdates b) (BatchInterval b) (MaxDataPointsPerChart b)
    (JavaScriptEngine b) v (bIsInitialized b) (Charts b) (Dashboards b)
    (PendingUpdates b) (LastBatchTime b).
Definition set_bIsInitialized (v : bool) (b : Bridge) : Bridge :=
  MkBridge _ (bEnableDebugMode b) (PackagePath b) (MemoryLimit b) (bAutoCleanup b)
    (bEnableBatchUpdates b) (BatchInterval b) (MaxDataPointsPerChart b)
    (JavaScriptEngine b) (JavaScriptContext b) v (Charts b) (Dashboards b)
    (PendingUpdates b) (LastBatchTime b).
Definition set_Charts (v : gmap string FJsonObjectPtr) (b : Bridge) : Bridge :=
  MkBridge _ (bEnableDebugMode b) (PackagePath b) (MemoryLimit b) (bAutoCleanup b)
    (bEnableBatchUpdates b) (BatchInterval b) (MaxDataPointsPerChart b)
    (JavaScriptEngine b) (JavaScriptContext b) (bIsInitialized b) v (Dashboards b)
    (PendingUpdates b) (LastBatchTime b).
Definition set_Dashboards (v : gmap string FJsonObjectPtr) (b : Bridge) : Bridge :=
  MkBridge _ (bEnableDebugMode b) (PackagePath b) (MemoryLimit b) (bAutoCleanup b)
    (bEnableBatchUpdates b) (BatchInterval b) (MaxDataPointsPerChart b)
    (JavaScriptEngine b) (JavaScriptContext b) (bIsInitialized b) (Charts b) v
    (PendingUpdates b) (LastBatchTime b).
Definition set_PendingUpdates (v : list FBatchUpdateData) (b : Bridge) : Bridge :=
  MkBridge _ (bEnableDebugMode b) (PackagePath b) (MemoryLimit b) (bAutoCleanup b)
    (bEnableBatchUpdates b) (BatchInterval b) (MaxDataPointsPerChart b)
    (JavaScriptEngine b) (JavaScriptContext b) (bIsInitialized b) (Charts b)
    (Dashboards b) v (LastBatchTime b).
Definition set_LastBatchTime (v : Q) (b : Bridge) : Bridge :=
  MkBridge _ (bEnableDebugMode b) (PackagePath b) (MemoryLimit b) (bAutoCleanup b)
    (bEnableBatchUpdates b) (BatchInterval b) (MaxDataPointsPerChart b)
    (JavaScriptEngine b) (JavaScriptContext b) (bIsInitialized b) (Charts b)
    (Dashboards b) (PendingUpdates b) v.
Definition set_bEnableBatchUpdates (v : bool) (b : Bridge) : Bridge :=
  MkBridge _ (bEnableDebugMode b) (PackagePath b) (MemoryLimit b) (bAutoCleanup b)
    v (BatchInterval b) (MaxDataPointsPerChart b)
    (JavaScriptEngine b) (JavaScriptContext b) (bIsInitialized b) (Charts b)
    (Dashboards b) (PendingUpdates b) (LastBatchTime b).
Definition set_BatchInterval (v : Q) (b : Bridge) : Bridge :=
  MkBridge _ (bEnableDebugMode b) (PackagePath b) (MemoryLimit b) (bAutoCleanup b)
    (bEnableBatchUpdates b) v (MaxDataPointsPerChart b)
    (JavaScriptEngine b) (JavaScriptContext b) (bIsInitialized b) (Charts b)
    (Dashboards b) (PendingUpdates b) (LastBatchTime b).

Definition UE_LOG (Verbosity : UE.ELogVerbosity) (Message : string) : M unit :=
  Eff.emit (LogLine Verbosity Message).

Definition when (c : bool) (body : M unit) : M unit :=
  if c then body else mret tt.

Definition BoolText (v : bool) : string := if v then "true" else "false".

(** *** Script texts *)

Definition UtilityScript : string :=
"
            global.console = {
                log: function(msg) { Unreal.Log(msg); },
                warn: function(msg) { Unreal.LogWarning(msg); },
                error: function(msg) { Unreal.LogError(msg); }
            };

            global.setTimeout = function(callback, delay) {
                Unreal.SetTimeout(callback.toString(), delay);
            };

            global.setInterval = function(callback, interval) {
                return Unreal.SetInterval(callback.toString(), interval);
            };

            global.Date = {
                now: function() { return Unreal.GetUnixTimestamp(); }
            };
        ".

Definition InitScript (bEnableDebugMode bAutoCleanup : bool) (MemoryLimit MaxDataPointsPerChart : Z) : string :=
"
        if (typeof DataVisualizationManager === 'undefined') {
            throw new Error('DataVisualizationManager not found in package');
        }

        global.vizManager = new DataVisualizationManager({
            debug: "
+:+ BoolText bEnableDebugMode
+:+ ",
            autoCleanup: "
+:+ BoolText bAutoCleanup
+:+ ",
            memoryLimit: "
+:+ UE.PrintfInt MemoryLimit
+:+ ",
            maxDataPointsPerChart: "
+:+ UE.PrintfInt MaxDataPointsPerChart
+:+ ",
            platform: 'unreal'
        });

        // Set up event handlers
        global.vizManager.on('thresholdCrossed', function(data) {
            Unreal.OnThresholdCrossed(data.chartId, JSON.stringify(data));
        });

        global.vizManager.on('dataPointAdded', function(data) {
            Unreal.OnDataPointAdded(data.chartId, JSON.stringify(data));
        });

        global.vizManager.on('error', function(error) {
            Unreal.OnChartError(error.chartId, error.message);
        });

        console.log('Data Visualization Manager initialized for Unreal Engine');
    ".

(** *** The embedded runtime *)

Definition JsonObjectToString (JsonObject : FJsonObjectPtr) : string :=
  match JsonObject with
  | None => "{}"
  | Some Object => Serialize Object
  end.

Definition JsonValueArrayToString (JsonArray : list (option FJsonValue)) : string :=
  SerializeArray JsonArray.

Definition ResultText (Outcome : FV8Outcome) : string :=
  match Outcome with
  | Returns (VString Text) => Text
  | Returns VUndefined => "SUCCESS"
  | Returns VNull => "SUCCESS"
  | Returns (VOther Text) => "SUCCESS: " +:+ Text
  | Throws What => "ERROR: " +:+ What
  end.

Definition ExecuteJavaScript (Script : string) : M string :=
  b ← Eff.get;
  Result ←
    (if WITH_V8 then
       match JavaScriptContext b with
       | None => mret "ERROR: JavaScript context not available"
       | Some Context =>
           let '(Outcome, Context') := V8ExecuteScript Context Script in
           Eff.modify (set_JavaScriptContext (Some Context'));;
           mret (ResultText Outcome)
       end
     else mret "ERROR: V8 not available");
  Eff.emit (JavaScript Script Result);;
  mret Result.

(** *** Initialization *)

(** With V8.  [MakeShareable(new FV8Engine())] is never null, so the first
    validity test of the source cannot fail; an exception escapes only from
    running the utility script. *)
Definition InitializeJavaScriptEngine : M bool :=
if WITH_V8 then
  Eff.modify (set_JavaScriptEngine true);;
  if negb V8EngineInitialize then
    UE_LOG UE.Error "Failed to initialize V8 engine";; mret false
  else
    Eff.modify (set_JavaScriptContext V8CreateContext);;
    match V8CreateContext with
    | None => UE_LOG UE.Error "Failed to create V8 context";; mret false
    | Some Context =>
        let Context :=
          V8SetGlobalObject "Time"
            (V8SetGlobalObject "Debug" (V8SetGlobalObject "Unreal" Context)) in
        let '(Outcome, Context') := V8ExecuteScript Context UtilityScript in
        Eff.modify (set_JavaScriptContext (Some Context'));;
        match Outcome with
        | Throws What =>
            UE_LOG UE.Error ("Exception during V8 initialization: " +:+ What);;
            mret false
        | Returns _ =>
            UE_LOG UE.Log "V8 JavaScript engine initialized successfully";;
            mret true
        end
    end
else
  UE_LOG UE.Error "V8 JavaScript engine not available. Please enable V8 plugin.";;
  mret false.

Definition MainFile : string :=
UE.PathAppend
  (UE.PathAppend ProjectContentDir
     "JavaScript/node_modules/@steamproject/data-visualization")
  "dist/index.js".

Definition LoadDataVisualizationPackage : M bool :=
if negb (FileExists MainFile) then
  UE_LOG UE.Error ("Data visualization package not found at: " +:+ MainFile);;
  UE_LOG UE.Error
    "Please run 'npm install @steamproject/data-visualization' in Content/JavaScript/";;
  mret false
else
  match LoadFileToString MainFile with
  | None =>
      UE_LOG UE.Error ("Failed to load package file: " +:+ MainFile);; mret false
  | Some PackageCode =>
      Result ← ExecuteJavaScript PackageCode;
      if UE.Contains Result "ERROR" then
        UE_LOG UE.Error ("Error executing package code: " +:+ Result);; mret false
      else
        b ← Eff.get;
        Result ← ExecuteJavaScript
                   (InitScript (bEnableDebugMode b) (bAutoCleanup b)
                      (MemoryLimit b) (MaxDataPointsPerChart b));
        if UE.Contains Result "ERROR" then
          UE_LOG UE.Error ("Error initializing visualization manager: " +:+ Result);;
          mret false
        else
          UE_LOG UE.Log "Data visualization package loaded successfully";;
          mret true
  end.

Definition SetupEventHandlers : M unit := mret tt.

Definition Initialize : M bool :=
b ← Eff.get;
if bIsInitialized b then mret true
else
  UE_LOG UE.Log "Initializing Data Visualization Bridge...";;
  engine ← InitializeJavaScriptEngine;
  if negb engine then
    UE_LOG UE.Error "Failed to initialize JavaScript engine";; mret false
  else
    package ← LoadDataVisualizationPackage;
    if negb package then
      UE_LOG UE.Error "Failed to load data visualization package";; mret false
    else
      SetupEventHandlers;;
      Eff.modify (set_bIsInitialized true);;
      UE_LOG UE.Log "Data Visualization Bridge initialized successfully";;
      mret true.

(** *** Chart creation

    The five creation methods of the source differ only in the function of
    the manager they call and in the wording of their log lines. *)

Definition CreateChartScript (Function ChartId ConfigJson : string) : string :=
"global.vizManager." +:+ Function +:+ "('" +:+ ChartId +:+ "', " +:+ ConfigJson +:+ ");".

Definition CreateChartWith (Function Kind ChartId : string) (Config : FJsonObjectPtr)
  : M unit :=
b ← Eff.get;
if negb (bIsInitialized b) then mret tt
else
  let ConfigJson := JsonObjectToString Config in
  let Script := CreateChartScript Function ChartId ConfigJson in
  Result ← ExecuteJavaScript Script;
  if negb (UE.Contains Result "ERROR") then
    Eff.modify (fun b => set_Charts (UE.TMapAdd ChartId Config (Charts b)) b);;
    UE_LOG UE.Log ("Created " +:+ Kind +:+ ": " +:+ ChartId)
  else
    UE_LOG UE.Error ("Failed to create " +:+ Kind +:+ " '" +:+ ChartId +:+ "': " +:+ Result).

Definition CreateLineChart := CreateChartWith "createLineChart" "line chart".
Definition CreateBarChart := CreateChartWith "createBarChart" "bar chart".
Definition CreatePieChart := CreateChartWith "createPieChart" "pie chart".
Definition CreateHeatmap := CreateChartWith "createHeatmap" "heatmap".
Definition CreateGauge := CreateChartWith "createGauge" "gauge".

Definition CreateDashboard (DashboardId : string) (Config : FJsonObjectPtr) : M unit :=
b ← Eff.get;
if negb (bIsInitialized b) then mret tt
else
  let ConfigJson := JsonObjectToString Config in
  let Script := CreateChartScript "createDashboard" DashboardId ConfigJson in
  Result ← ExecuteJavaScript Script;
  if negb (UE.Contains Result "ERROR") then
    Eff.modify (fun b => set_Dashboards (UE.TMapAdd DashboardId Config (Dashboards b)) b);;
    UE_LOG UE.Log ("Created dashboard: " +:+ DashboardId)
  else
    UE_LOG UE.Error ("Failed to create dashboard '" +:+ DashboardId +:+ "': " +:+ Result).

(** *** Data updates *)

Definition ReportFailure (What ChartId Result : string) : M unit :=
when (UE.Contains Result "ERROR")
  (UE_LOG UE.Error ("Failed to " +:+ What +:+ " '" +:+ ChartId +:+ "': " +:+ Result)).

Definition UpdateChartImmediate (ChartId : string) (Timestamp : Z) (Value : Q) : M unit :=
let Script := "global.vizManager.updateChart('" +:+ ChartId +:+ "', "
              +:+ UE.PrintfInt Timestamp +:+ ", " +:+ UE.PrintfFloat 6 Value +:+ ");" in
Result ← ExecuteJavaScript Script;
ReportFailure "update chart" ChartId Result.

Definition UpdateChartMultiDataImmediate (ChartId : string) (Data : FJsonObjectPtr)
  : M unit :=
let DataJson := JsonObjectToString Data in
let Script := "global.vizManager.updateChartMultiData('" +:+ ChartId +:+ "', "
              +:+ DataJson +:+ ");" in
Result ← ExecuteJavaScript Script;
ReportFailure "update chart multi-data" ChartId Result.

Definition UpdateChartArrayDataImmediate (ChartId : string)
    (Data : list (option FJsonValue)) : M unit :=
let DataJson := JsonValueArrayToString Data in
let Script := "global.vizManager.updateChartArrayData('" +:+ ChartId +:+ "', "
              +:+ DataJson +:+ ");" in
Result ← ExecuteJavaScript Script;
ReportFailure "update chart array data" ChartId Result.

(** [PendingUpdates.Add(Update)] with the time stamp read from the clock. *)
Definition Enqueue (ChartId Method Data : string) : M unit :=
n ← Eff.readClock;
Eff.modify (fun b =>
  set_PendingUpdates
    (PendingUpdates b ++ [MkUpdate ChartId Method Data (Seconds n)])%list b).

Definition SingleData (Timestamp : Z) (Value : Q) : string :=
"{" +:+ UE.Quoted "timestamp" +:+ ": " +:+ UE.PrintfInt Timestamp +:+ ", "
+:+ UE.Quoted "value" +:+ ": " +:+ UE.PrintfFloat 6 Value +:+ "}".

Definition UpdateChart (ChartId : string) (Timestamp : Z) (Value : Q) : M unit :=
b ← Eff.get;
if negb (bIsInitialized b) then mret tt
else if bEnableBatchUpdates b then
  Enqueue ChartId "updateSingleData" (SingleData Timestamp Value)
else UpdateChartImmediate ChartId Timestamp Value.

Definition UpdateChartMultiData (ChartId : string) (Data : FJsonObjectPtr) : M unit :=
b ← Eff.get;
if negb (bIsInitialized b) then mret tt
else if bEnableBatchUpdates b then
  Enqueue ChartId "updateMultiData" (JsonObjectToString Data)
else UpdateChartMultiDataImmediate ChartId Data.

Definition UpdateChartArray (ChartId : string) (Data : list (option FJsonValue))
  : M unit :=
b ← Eff.get;
if negb (bIsInitialized b) then mret tt
else if bEnableBatchUpdates b then
  Enqueue ChartId "updateArrayData" (JsonValueArrayToString Data)
else UpdateChartArrayDataImmediate ChartId Data.

(** *** The batch update system *)

(** [GroupedUpdates]: a [TMap] that is only added to and then iterated, so
    it is kept in insertion order.  Keys are compared as [FString]s. *)
Definition FGroupedUpdates : Type := list (string * list FBatchUpdateData).

Fixpoint GroupedContains (Grouped : FGroupedUpdates) (Id : string) : bool :=
match Grouped with
| [] => false
| (Key, _) :: Rest => UE.FStringEq Key Id || GroupedContains Rest Id
end.

(** [GroupedUpdates[Id].Add(Update)]. *)
Fixpoint GroupedAppend (Grouped : FGroupedUpdates) (Id : string)
    (Update : FBatchUpdateData) : FGroupedUpdates :=
match Grouped with
| [] => []
| (Key, Updates) :: Rest =>
    if UE.FStringEq Key Id then (Key, (Updates ++ [Update])%list) :: Rest
    else (Key, Updates) :: GroupedAppend Rest Id Update
end.

Definition GroupStep (Grouped : FGroupedUpdates) (Update : FBatchUpdateData)
  : FGroupedUpdates :=
let Grouped :=
  if negb (GroupedContains Grouped (ChartId Update))
  then (Grouped ++ [(ChartId Update, [])])%list else Grouped in
GroupedAppend Grouped (ChartId Update) Update.

Definition GroupUpdates (Pending : list FBatchUpdateData) : FGroupedUpdates :=
fold_left GroupStep Pending [].

(** What one update adds to the script of its chart. *)
Definition BatchCall (ChartId : string) (Update : FBatchUpdateData) : string :=
if UE.FStringEq (Method Update) "updateSingleData" then
  "global.vizManager.batchUpdateSingle('" +:+ ChartId +:+ "', " +:+ Data Update +:+ ");"
else if UE.FStringEq (Method Update) "updateMultiData" then
  "global.vizManager.batchUpdateMulti('" +:+ ChartId +:+ "', " +:+ Data Update +:+ ");"
else if UE.FStringEq (Method Update) "updateArrayData" then
  "global.vizManager.batchUpdateArray('" +:+ ChartId +:+ "', " +:+ Data Update +:+ ");"
else "".

Definition StartBatch (ChartId : string) : string :=
"global.vizManager.startBatch('" +:+ ChartId +:+ "');".

Definition CommitBatch (ChartId : string) : string :=
"global.vizManager.commitBatch('" +:+ ChartId +:+ "');".

Definition BatchScript (ChartId : string) (Updates : list FBatchUpdateData) : string :=
fold_left (fun Script Update => Script +:+ BatchCall ChartId Update)
  Updates (StartBatch ChartId)
+:+ CommitBatch ChartId.

Definition ProcessChartUpdates (ChartUpdates : string * list FBatchUpdateData) : M unit :=
let '(ChartId, Updates) := ChartUpdates in
Result ← ExecuteJavaScript (BatchScript ChartId Updates);
ReportFailure "process batched updates for" ChartId Result.

Definition ProcessBatchedUpdates : M unit :=
b ← Eff.get;
match PendingUpdates b with
| [] => mret tt
| _ =>
    Eff.ForEach (GroupUpdates (PendingUpdates b)) ProcessChartUpdates;;
    Eff.modify (set_PendingUpdates [])
end.

Definition Tick (DeltaTime : Q) : M unit :=
b ← Eff.get;
if bEnableBatchUpdates b then
  n ← Eff.readClock;
  when (Qle_bool (BatchInterval b) (Seconds n - LastBatchTime b))
    (ProcessBatchedUpdates;;
     m ← Eff.readClock;
     Eff.modify (set_LastBatchTime (Seconds m)))
else mret tt.

Definition ProcessPendingUpdates : M unit := ProcessBatchedUpdates.

Definition ApplyBatchedUpdates (Updates : list FBatchUpdateData) : M unit :=
Eff.modify (fun b => set_PendingUpdates (PendingUpdates b ++ Updates)%list b);;
ProcessBatchedUpdates.

Definition EnableBatchUpdates (bEnabled : bool) : M unit :=
Eff.modify (set_bEnableBatchUpdates bEnabled).

Definition SetBatchInterval (Interval : Q) : M unit :=
Eff.modify (set_BatchInterval Interval).

(** *** Chart management, export and disposal *)

Definition RemoveChart (ChartId : string) : M unit :=
b ← Eff.get;
if negb (bIsInitialized b) then mret tt
else
  Result ← ExecuteJavaScript ("global.vizManager.removeChart('" +:+ ChartId +:+ "');");
  if negb (UE.Contains Result "ERROR") then
    Eff.modify (fun b => set_Charts (UE.TMapRemove ChartId (Charts b)) b);;
    UE_LOG UE.Log ("Removed chart: " +:+ ChartId)
  else
    UE_LOG UE.Error ("Failed to remove chart '" +:+ ChartId +:+ "': " +:+ Result).

Definition ClearAllCharts : M unit :=
b ← Eff.get;
if negb (bIsInitialized b) then mret tt
else
  Result ← ExecuteJavaScript "global.vizManager.clearAllCharts();";
  if negb (UE.Contains Result "ERROR") then
    Eff.modify (set_Charts ∅);;
    Eff.modify (set_Dashboards ∅);;
    UE_LOG UE.Log "Cleared all charts"
  else
    UE_LOG UE.Error ("Failed to clear all charts: " +:+ Result).

Definition ExportScript (Function ChartId Format : string) : string :=
"global.vizManager." +:+ Function +:+ "('" +:+ ChartId +:+ "', '" +:+ Format +:+ "');".

Definition ExportChartAsImage (ChartId Format : string) : M string :=
b ← Eff.get;
if negb (bIsInitialized b) then mret ""
else
  Result ← ExecuteJavaScript (ExportScript "exportAsImage" ChartId Format);
  mret (if UE.Contains Result "ERROR" then "" else Result).

Definition ExportChartAsData (ChartId Format : string) : M string :=
b ← Eff.get;
if negb (bIsInitialized b) then mret ""
else
  Result ← ExecuteJavaScript (ExportScript "exportAsData" ChartId Format);
  mret (if UE.Contains Result "ERROR" then "" else Result).

(** With V8 the context and the engine are released; without it neither
    member exists. *)
Definition Dispose : M unit :=
b ← Eff.get;
when (bIsInitialized b)
  (ClearAllCharts;;
   when WITH_V8
     (Eff.modify (set_JavaScriptContext None);;
      Eff.modify (set_JavaScriptEngine false));;
   Eff.modify (set_bIsInitialized false);;
   UE_LOG UE.Log "Data Visualization Bridge disposed");;
Eff.modify (set_Charts ∅);;
Eff.modify (set_Dashboards ∅);;
Eff.modify (set_PendingUpdates []).

(** [UDataVisualizationBridge::UDataVisualizationBridge()]. *)
Definition NewBridge : Bridge :=
MkBridge _ false "Content/JavaScript/node_modules/@steamproject/data-visualization"
  (50 * 1024 * 1024) true true (1 # 10) 1000 false None false ∅ ∅ [] 0.

(** *** Observations used in the statements *)

(** The scripts handed to [ExecuteJavaScript], in call order. *)
Fixpoint ScriptsOf (Output : list Event) : list string :=
match Output with
| [] => []
| JavaScript Script _ :: Rest => Script :: ScriptsOf Rest
| LogLine _ _ :: Rest => ScriptsOf Rest
end.

(** The chart ids of a queue, each once (as [FString]s), in the order of
    their first update. *)
Definition DistinctIds (Pending : list FBatchUpdateData) : list string :=
fold_left
  (fun Ids Update =>
     if existsb (fun Id => UE.FStringEq Id (ChartId Update)) Ids then Ids
     else (Ids ++ [ChartId Update])%list)
  Pending [].

(** The updates of a queue that are addressed to one chart, in queue order. *)
Definition UpdatesFor (Id : string) (Pending : list FBatchUpdateData)
  : list FBatchUpdateData :=
filter (fun Update => UE.FStringEq Id (ChartId Update) = true) Pending.

Definition KnownMethod (Update : FBatchUpdateData) : bool :=
UE.FStringEq (Method Update) "updateSingleData"
|| UE.FStringEq (Method Update) "updateMultiData"
|| UE.FStringEq (Method Update) "updateArrayData".

(** The batch call of an update with one of the three known methods. *)
Definition BatchFunction (Method : string) : string :=
if UE.FStringEq Method "updateSingleData" then "batchUpdateSingle"
else if UE.FStringEq Method "updateMultiData" then "batchUpdateMulti"
else "batchUpdateArray".

Definition KnownCall (ChartId : string) (Update : FBatchUpdateData) : string :=
"global.vizManager." +:+ BatchFunction (Method Update) +:+ "('" +:+ ChartId +:+ "', "
+:+ Data Update +:+ ");".

(** The text of a script made of [Calls] between the opening and the
    closing call of a batch. *)
Definition Bracketed (ChartId : string) (Calls : list string) : string :=
StartBatch ChartId +:+ String.concat "" Calls +:+ CommitBatch ChartId.

End Bridge.

End DataViz.

(* ===================================================================== *)
(** ** A sample engine

    One concrete engine for each component, on which the statements below
    are exercised: files that exist, a clock, and a script runtime that
    rejects the scripts mentioning [fail]. *)
(* ===================================================================== *)

Module Sample.

Definition AIEngine : SteamAI.Engine := {|
  SteamAI.WITH_V8 := false;
  SteamAI.ProjectContentDir := "/Project/Content/";
  SteamAI.ProjectDir := "/Project/";
  SteamAI.LoadFileToString := fun Path =>
    if String.eqb Path "/Project/Content/Scripts/steam-ai.js"
    then Some "module.exports = {};" else None;
  SteamAI.NowTicks := fun n => Z.of_nat n * 10000;
  SteamAI.ExecuteIfBound := fun Target AgentData BlackboardData =>
    String.eqb Target "Guard.Patrol"
|}.

(** No file anywhere. *)
Definition EmptyDiskEngine : SteamAI.Engine := {|
  SteamAI.WITH_V8 := false;
  SteamAI.ProjectContentDir := "/Project/Content/";
  SteamAI.ProjectDir := "/Project/";
  SteamAI.LoadFileToString := fun _ => None;
  SteamAI.NowTicks := fun n => Z.of_nat n * 10000;
  SteamAI.ExecuteIfBound := fun _ _ _ => false
|}.

Definition InitializedAI : SteamAI.USteamAIBridge :=
  SteamAI.set_bIsInitialized true SteamAI.NewBridge.

(** A component with one action and one condition registered. *)
Definition GuardAI : SteamAI.USteamAIBridge :=
  Eff.Final
    (Eff.run
       (SteamAI.RegisterAction "guard-1" "patrol" (SteamAI.BoundTo "Guard.Patrol");;
        SteamAI.RegisterCondition "guard-1" "hasTarget" (SteamAI.BoundTo "Guard.Patrol"))
       0 SteamAI.NewBridge).

Definition VizEngine : DataViz.Engine := {|
  DataViz.WITH_V8 := true;
  DataViz.FJsonObject := string;
  DataViz.FJsonValue := string;
  DataViz.Serialize := fun Text => Text;
  DataViz.SerializeArray := fun Values => "[]";
  DataViz.FV8Context := list string;
  DataViz.V8ExecuteScript := fun Context Script =>
    (if UE.Contains Script "fail" then DataViz.Throws "rejected"
     else DataViz.Returns DataViz.VUndefined,
     (Context ++ [Script])%list);
  DataViz.V8SetGlobalObject := fun _ Context => Context;
  DataViz.V8EngineInitialize := true;
  DataViz.V8CreateContext := Some [];
  DataViz.ProjectContentDir := "/Project/Content/";
  DataViz.FileExists := fun _ => true;
  DataViz.LoadFileToString := fun _ => Some "DataVisualizationManager = function() {};";
  DataViz.Seconds := fun n => (inject_Z (Z.of_nat n) / 20)%Q
|}.

(** No script runtime: the engine cannot be started. *)
Definition NoV8Engine : DataViz.Engine := {|
  DataViz.WITH_V8 := false;
  DataViz.FJsonObject := string;
  DataViz.FJsonValue := string;
  DataViz.Serialize := fun Text => Text;
  DataViz.SerializeArray := fun Values => "[]";
  DataViz.FV8Context := list string;
  DataViz.V8ExecuteScript := fun Context Script =>
    (DataViz.Returns DataViz.VUndefined, Context);
  DataViz.V8SetGlobalObject := fun _ Context => Context;
  DataViz.V8EngineInitialize := false;
  DataViz.V8CreateContext := None;
  DataViz.ProjectContentDir := "/Project/Content/";
  DataViz.FileExists := fun _ => false;
  DataViz.LoadFileToString := fun _ => None;
  DataViz.Seconds := fun n => (inject_Z (Z.of_nat n) / 20)%Q
|}.

(** A script runtime, but no package on disk. *)
Definition MissingPackageEngine : DataViz.Engine := {|
  DataViz.WITH_V8 := true;
  DataViz.FJsonObject := string;
  DataViz.FJsonValue := string;
  DataViz.Serialize := fun Text => Text;
  DataViz.SerializeArray := fun Values => "[]";
  DataViz.FV8Context := list string;
  DataViz.V8ExecuteScript := fun Context Script =>
    (DataViz.Returns DataViz.VUndefined, (Context ++ [Script])%list);
  DataViz.V8SetGlobalObject := fun _ Context => Context;
  DataViz.V8EngineInitialize := true;
  DataViz.V8CreateContext := Some [];
  DataViz.ProjectContentDir := "/Project/Content/";
  DataViz.FileExists := fun _ => false;
  DataViz.LoadFileToString := fun _ => None;
  DataViz.Seconds := fun n => (inject_Z (Z.of_nat n) / 20)%Q
|}.

(** The same runtime, except that it rejects the script of
    [ClearAllCharts]. *)
Definition ClearFailsEngine : DataViz.Engine := {|
  DataViz.WITH_V8 := true;
  DataViz.FJsonObject := string;
  DataViz.FJsonValue := string;
  DataViz.Serialize := fun Text => Text;
  DataViz.SerializeArray := fun Values => "[]";
  DataViz.FV8Context := list string;
  DataViz.V8ExecuteScript := fun Context Script =>
    (if UE.Contains Script "clearAllCharts" then DataViz.Throws "rejected"
     else DataViz.Returns DataViz.VUndefined,
     (Context ++ [Script])%list);
  DataViz.V8SetGlobalObject := fun _ Context => Context;
  DataViz.V8EngineInitialize := true;
  DataViz.V8CreateContext := Some [];
  DataViz.ProjectContentDir := "/Project/Content/";
  DataViz.FileExists := fun _ => true;
  DataViz.LoadFileToString := fun _ => Some "DataVisualizationManager = function() {};";
  DataViz.Seconds := fun n => (inject_Z (Z.of_nat n) / 20)%Q
|}.

(** The component after a successful [Initialize]. *)
Definition InitializedViz : @DataViz.UDataVisualizationBridge VizEngine :=
  Eff.Final (Eff.run (@DataViz.Initialize VizEngine) 0 DataViz.NewBridge).

(** ... and after [EnableBatchUpdates(false)]. *)
Definition ImmediateViz : @DataViz.UDataVisualizationBridge VizEngine :=
  Eff.Final (Eff.run (@DataViz.EnableBatchUpdates VizEngine false) 0 InitializedViz).

(** An initialized component after three updates of two charts. *)
Definition QueuedViz : @DataViz.UDataVisualizationBridge VizEngine :=
  Eff.Final
    (Eff.run
       (@DataViz.UpdateChart VizEngine "fps" 1 1;;
        @DataViz.UpdateChartMultiData VizEngine "memory" (Some "{}");;
        @DataViz.UpdateChartArray VizEngine "FPS" [])
       0 InitializedViz).

(** An update with a method name that the flush does not know, and the
    component as [ApplyBatchedUpdates] hands it to [ProcessBatchedUpdates]
    with that update. *)
Definition UnknownMethodUpdate : DataViz.FBatchUpdateData :=
  DataViz.MkUpdate "fps" "bogus" "42" 0.

Definition UnknownMethodViz : @DataViz.UDataVisualizationBridge VizEngine :=
  @DataViz.set_PendingUpdates VizEngine [UnknownMethodUpdate] InitializedViz.

(** An initialized component with one chart, on the engine that rejects the
    script of [ClearAllCharts]. *)
Definition OneChartViz : @DataViz.UDataVisualizationBridge ClearFailsEngine :=
  Eff.Final
    (Eff.run
       (@DataViz.Initialize ClearFailsEngine;;
        @DataViz.CreateGauge ClearFailsEngine "fps" None)
       0 DataViz.NewBridge).

End Sample.

(* ===================================================================== *)
(** ** SteamAIBridge: the rest of [Bridge.cpp]

    [ExecuteBehaviorTree], the calls that can be made on a component, the
    static callbacks of [USteamAIJSContext] with the static instance they
    go through, and [USteamAISubsystem]. *)
(* ===================================================================== *)

Module SteamAIMore.
Import SteamAI.

(** *** Data *)

(** Everything a component emits: what [SteamAI.Event] lists, and the
    broadcasts of [OnTreeExecuted]. *)
Inductive Event :=
| OfBridge (e : SteamAI.Event)
| OnTreeExecuted (TreeId Status : string).

Definition set_TreeExecutionTimeMs (v : Q) (p : FSteamAIPerformanceStats) :=
  MkStats (ScriptExecutionTimeMs p) v (ActiveAgents p) (ActiveTrees p)
    (MemoryUsageMB p) (ScriptCallsPerSecond p).

(** [Config] is a public, Blueprint-writable property. *)
Definition set_Config (v : FSteamAIConfig) (b : USteamAIBridge) :=
  MkBridge v (bIsInitialized b) (bInitializationInProgress b) (V8ContextIsValid b)
    (RegisteredActions b) (RegisteredConditions b) (PerformanceStats b)
    (LastGCTime b) (LastStatsUpdateTime b) (ScriptCallsThisSecond b).

Definition ExecuteBehaviorTreeScript (TreeId AgentId : string) : string :=
  "
        if (window.behaviorTreeEngine && window.agents['"
  +:+ AgentId
  +:+ "']) {
            try {
                const status = window.behaviorTreeEngine.executeTree('"
  +:+ TreeId
  +:+ "', window.agents['"
  +:+ AgentId
  +:+ "']);
                String(status);
            } catch (e) {
                console.error('Failed to execute behavior tree:', e.message);
                'FAILURE';
            }
        } else {
            'INVALID';
        }
    ".

(** The broadcasts of [OnTreeExecuted] in an output, in order. *)
Fixpoint TreeBroadcasts (Output : list Event) : list (string * string) :=
  match Output with
  | [] => []
  | OnTreeExecuted TreeId Status :: Rest => (TreeId, Status) :: TreeBroadcasts Rest
  | OfBridge _ :: Rest => TreeBroadcasts Rest
  end.

(** *** Member functions *)

Section Bridge.
Context {E : Engine}.

#[local] Abbreviation M := (Eff.M USteamAIBridge Event).

(** A member function of the first part, with its output among the events
    of this one. *)
Definition Lift {A} (c : Eff.M USteamAIBridge SteamAI.Event A) : M A :=
  Eff.MkM (fun n b =>
    let r := Eff.run c n b in
    Eff.MkRun (Eff.Returned r) (Eff.Reads r) (Eff.Final r) (map OfBridge (Eff.Emitted r))).

Definition when (c : bool) (body : M unit) : M unit :=
  if c then body else mret tt.

(** What [GetCurrentTimeMilliseconds] returns at the reading [n] of the
    clock. *)
Definition Milliseconds (n : nat) : Q := inject_Z (NowTicks n / TicksPerMillisecond).

Definition ExecuteBehaviorTree (TreeId AgentId : string) : M string :=
  StartTime ← Lift GetCurrentTimeMilliseconds;
  Result ← Lift (ExecuteFunction
                   (AsFunction (ExecuteBehaviorTreeScript TreeId AgentId)) []);
  b ← Eff.get;
  when (bEnablePerformanceMonitoring (Config b))
    (Now ← Lift GetCurrentTimeMilliseconds;
     Eff.modify (fun b =>
       set_PerformanceStats
         (set_TreeExecutionTimeMs (Now - StartTime) (PerformanceStats b)) b));;
  Eff.emit (OnTreeExecuted TreeId Result);;
  mret Result.

(** *** The calls that reach a component

    The engine's life-cycle calls, the Blueprint-callable functions that
    [Bridge.cpp] defines, the two callback entry points, and an assignment
    to the public property [Config]. *)
Inductive Call :=
| CallBeginPlay
| CallTickComponent (World : UWorld) (DeltaTime : Q)
| CallEndPlay
| CallInitializeAI
| CallExecuteScript (Script : string)
| CallExecuteFunction (FunctionName : string) (Parameters : list string)
| CallForceGarbageCollection (World : UWorld)
| CallCreateAgent (AgentId AgentConfig : string)
| CallCreateBehaviorTree (TreeId TreeConfig : string)
| CallExecuteBehaviorTree (TreeId AgentId : string)
| CallSetAgentMemory (AgentId Key Value : string)
| CallRegisterAction (AgentId ActionName : string) (Callback : FDelegate)
| CallRegisterCondition (AgentId ConditionName : string) (Callback : FDelegate)
| CallHandleActionCallback (AgentId ActionName AgentData BlackboardData : string)
| CallHandleConditionCallback (AgentId ConditionName AgentData BlackboardData : string)
| CallSetConfig (NewConfig : FSteamAIConfig).

Definition Perform (c : Call) : M unit :=
  match c with
  | CallBeginPlay => Lift BeginPlay
  | CallTickComponent World DeltaTime => Lift (TickComponent World DeltaTime)
  | CallEndPlay => Lift EndPlay
  | CallInitializeAI => Lift InitializeAI;; mret tt
  | CallExecuteScript Script => Lift (ExecuteScript Script);; mret tt
  | CallExecuteFunction FunctionName Parameters =>
      Lift (ExecuteFunction FunctionName Parameters);; mret tt
  | CallForceGarbageCollection World => Lift (ForceGarbageCollection World)
  | CallCreateAgent AgentId AgentConfig => Lift (CreateAgent AgentId AgentConfig);; mret tt
  | CallCreateBehaviorTree TreeId TreeConfig =>
      Lift (CreateBehaviorTree TreeId TreeConfig);; mret tt
  | CallExecuteBehaviorTree TreeId AgentId => ExecuteBehaviorTree TreeId AgentId;; mret tt
  | CallSetAgentMemory AgentId Key Value =>
      Lift (SetAgentMemory AgentId Key Value);; mret tt
  | CallRegisterAction AgentId ActionName Callback =>
      Lift (RegisterAction AgentId ActionName Callback)
  | CallRegisterCondition AgentId ConditionName Callback =>
      Lift (RegisterCondition AgentId ConditionName Callback)
  | CallHandleActionCallback AgentId ActionName AgentData BlackboardData =>
      Lift (HandleActionCallback AgentId ActionName AgentData BlackboardData);; mret tt
  | CallHandleConditionCallback AgentId ConditionName AgentData BlackboardData =>
      Lift (HandleConditionCallback AgentId ConditionName AgentData BlackboardData);;
      mret tt
  | CallSetConfig NewConfig => Eff.modify (set_Config NewConfig)
  end.

Definition PerformAll (Calls : list Call) : M unit := Eff.ForEach Calls Perform.

(** Script submissions, one after the other. *)
Definition ExecuteScripts (Scripts : list string)
  : Eff.M USteamAIBridge SteamAI.Event unit :=
  Eff.ForEach Scripts (fun Script => ExecuteScript Script;; mret tt).

End Bridge.

(** *** The static instance and the callbacks of [USteamAIJSContext]

    The components that exist, by address, and the static member
    [USteamAIBridge::StaticInstance] (null, or the address of one). *)
Record FObjects := MkObjects {
  Bridges : gmap nat USteamAIBridge;
  StaticInstance : option nat
}.

Definition set_StaticInstance (v : option nat) (w : FObjects) : FObjects :=
  MkObjects (Bridges w) v.

Section Statics.
Context {E : Engine}.

#[local] Abbreviation W := (Eff.M FObjects SteamAI.Event).

(** A member function called on the component at address [This].  The
    source gives no meaning to a call through an address at which no
    component lives; here such a call does nothing and yields [Default]. *)
Definition On {A} (This : nat) (Default : A)
    (c : Eff.M USteamAIBridge SteamAI.Event A) : W A :=
  Eff.MkM (fun n w =>
    match Bridges w !! This with
    | Some b =>
        let r := Eff.run c n b in
        Eff.MkRun (Eff.Returned r) (Eff.Reads r)
          (MkObjects (<[This := Eff.Final r]> (Bridges w)) (StaticInstance w))
          (Eff.Emitted r)
    | None => Eff.MkRun Default n w []
    end).

(** [USteamAIBridge::USteamAIBridge()] for a component placed at [This]. *)
Definition Construct (This : nat) : W unit :=
  Eff.modify (fun w => MkObjects (<[This := NewBridge]> (Bridges w)) (Some This)).

(** [USteamAIBridge::EndPlay], with the assignment to the static member. *)
Definition EndPlayOf (This : nat) : W unit :=
  On This tt CleanupJavaScript;;
  Eff.modify (set_StaticInstance None).

Definition GetBridgeInstance : W (option nat) :=
  w ← Eff.get; mret (StaticInstance w).

Definition JSCallAction (AgentId ActionName AgentData BlackboardData : string) : W bool :=
  Bridge ← GetBridgeInstance;
  match Bridge with
  | Some This =>
      On This false (HandleActionCallback AgentId ActionName AgentData BlackboardData)
  | None => mret false
  end.

Definition JSCallCondition (AgentId ConditionName AgentData BlackboardData : string)
  : W bool :=
  Bridge ← GetBridgeInstance;
  match Bridge with
  | Some This =>
      On This false
        (HandleConditionCallback AgentId ConditionName AgentData BlackboardData)
  | None => mret false
  end.

End Statics.

(** *** Vectors exchanged with scripts *)

(** [FMath::Sqrt]. *)
Class FMath := {
  Sqrt : Q -> Q
}.

Section Vectors.
Context {Math : FMath}.

Definition DistSquared (V1 V2 : FVector) : Q :=
  ((FVec.X V2 - FVec.X V1) * (FVec.X V2 - FVec.X V1)
   + (FVec.Y V2 - FVec.Y V1) * (FVec.Y V2 - FVec.Y V1)
   + (FVec.Z V2 - FVec.Z V1) * (FVec.Z V2 - FVec.Z V1))%Q.

(** [FVector::Dist]. *)
Definition Dist (V1 V2 : FVector) : Q := Sqrt (DistSquared V1 V2).

Definition VectorOf (JsonObject : UE.FJsonObject) : FVector :=
  MkFVector (UE.GetNumberField JsonObject "x")
            (UE.GetNumberField JsonObject "y")
            (UE.GetNumberField JsonObject "z").

(** [USteamAIJSContext::JSCalculateDistance], over any JSON reader.  The
    second text is read only when the first one parses. *)
Definition JSCalculateDistanceWith (Reader : string -> option UE.FJsonObject)
    (VectorA VectorB : string) : Q :=
  match Reader VectorA with
  | Some JsonObjectA =>
      match Reader VectorB with
      | Some JsonObjectB => Dist (VectorOf JsonObjectA) (VectorOf JsonObjectB)
      | None => 0%Q
      end
  | None => 0%Q
  end.

Definition JSCalculateDistance : string -> string -> Q :=
  JSCalculateDistanceWith UE.Deserialize.

End Vectors.

(** *** [USteamAISubsystem] *)

(** The members the functions of [Bridge.cpp] touch: two pointers' worth of
    addresses.  A [UObject] is allocated zeroed, so both start out empty. *)
Record USteamAISubsystem := MkSubsystem {
  GlobalAIBridge : option nat;
  RegisteredAgents : list nat
}.

(** The subsystem together with the components it may point to. *)
Record FGameInstance := MkGameInstance {
  Objects : FObjects;
  Subsystem : USteamAISubsystem
}.

Definition NewGameInstance : FGameInstance :=
  MkGameInstance (MkObjects ∅ None) (MkSubsystem None []).

Inductive SubsystemCall :=
| CallSubsystemInitialize
| CallDeinitialize
| CallGetAIBridge
| CallInitializeGlobalAI (Config : FSteamAIConfig).

Section SubsystemFunctions.
Context {E : Engine}.

#[local] Abbreviation G := (Eff.M FGameInstance SteamAI.Event).

(** A computation on the components, run inside the game instance. *)
Definition OnObjects {A} (c : Eff.M FObjects SteamAI.Event A) : G A :=
  Eff.MkM (fun n g =>
    let r := Eff.run c n (Objects g) in
    Eff.MkRun (Eff.Returned r) (Eff.Reads r)
      (MkGameInstance (Eff.Final r) (Subsystem g)) (Eff.Emitted r)).

Definition SubsystemInitialize : G unit :=
  Eff.emit (LogLine UE.Log "Steam AI Subsystem initialized").

Definition Deinitialize : G unit :=
  Eff.modify (fun g => MkGameInstance (Objects g) (MkSubsystem None [])).

Definition GetAIBridge : G (option nat) :=
  g ← Eff.get; mret (GlobalAIBridge (Subsystem g)).

Definition InitializeGlobalAI (Config : FSteamAIConfig) : G bool :=
  g ← Eff.get;
  match GlobalAIBridge (Subsystem g) with
  | None =>
      Eff.emit (LogLine UE.Log "Global AI configuration set");;
      mret true
  | Some This => OnObjects (On This false InitializeAI)
  end.

Definition PerformSubsystem (c : SubsystemCall) : G unit :=
  match c with
  | CallSubsystemInitialize => SubsystemInitialize
  | CallDeinitialize => Deinitialize
  | CallGetAIBridge => GetAIBridge;; mret tt
  | CallInitializeGlobalAI Config => InitializeGlobalAI Config;; mret tt
  end.

Definition PerformAllSubsystem (Calls : list SubsystemCall) : G unit :=
  Eff.ForEach Calls PerformSubsystem.

End SubsystemFunctions.

End SteamAIMore.

(* ===================================================================== *)
(** ** Sample components for the rest of the code *)
(* ===================================================================== *)

Module Scenario.

(** An initialized component with performance monitoring switched on. *)
Definition MonitoredAI : SteamAI.USteamAIBridge :=
  SteamAIMore.set_Config
    (SteamAI.MkConfig false "/Game/JavaScript/steam-ai.js" true 30 128 true)
    Sample.InitializedAI.

(** A component with one action registered, before and after it is marked
    initialized. *)
Definition PatrolAI : SteamAI.USteamAIBridge :=
  Eff.Final
    (Eff.run (SteamAI.RegisterAction "guard-1" "patrol" (SteamAI.BoundTo "Guard.Patrol"))
       0 SteamAI.NewBridge).

Definition InitializedPatrolAI : SteamAI.USteamAIBridge :=
  SteamAI.set_bIsInitialized true PatrolAI.

(** One component, constructed at address 1, with an action registered. *)
Definition OneBridge : SteamAIMore.FObjects :=
  Eff.Final
    (Eff.run
       (@SteamAIMore.Construct 1;;
        @SteamAIMore.On unit 1 tt
          (SteamAI.RegisterAction "guard-1" "patrol" (SteamAI.BoundTo "Guard.Patrol")))
       0 (SteamAIMore.MkObjects ∅ None)).

(** A square root that answers in whole numbers. *)
Definition WholeMath : SteamAIMore.FMath := {|
  SteamAIMore.Sqrt := fun x => inject_Z (Z.sqrt (Qfloor x))
|}.

End Scenario.

(* ===================================================================== *)
(** ** DataVisualizationBridge: the rest of [Bridge.cpp]

    The configuration functions, [UpdateDashboard], sequences of update
    requests, and the timers of [UUnrealBridgeObject]. *)
(* ===================================================================== *)

Module DataVizMore.
Import DataViz.

Section Bridge.
Context {E : Engine}.

#[local] Abbreviation Bridge := (@UDataVisualizationBridge E).
#[local] Abbreviation M := (Eff.M Bridge Event).

(** Assignments to the configuration members. *)
Definition set_bEnableDebugMode (v : bool) (b : Bridge) : Bridge :=
MkBridge _ v (PackagePath b) (MemoryLimit b) (bAutoCleanup b)
  (bEnableBatchUpdates b) (BatchInterval b) (MaxDataPointsPerChart b)
  (JavaScriptEngine b) (JavaScriptContext b) (bIsInitialized b) (Charts b)
  (Dashboards b) (PendingUpdates b) (LastBatchTime b).
Definition set_MemoryLimit (v : Z) (b : Bridge) : Bridge :=
MkBridge _ (bEnableDebugMode b) (PackagePath b) v (bAutoCleanup b)
  (bEnableBatchUpdates b) (BatchInterval b) (MaxDataPointsPerChart b)
  (JavaScriptEngine b) (JavaScriptContext b) (bIsInitialized b) (Charts b)
  (Dashboards b) (PendingUpdates b) (LastBatchTime b).
Definition set_bAutoCleanup (v : bool) (b : Bridge) : Bridge :=
MkBridge _ (bEnableDebugMode b) (PackagePath b) (MemoryLimit b) v
  (bEnableBatchUpdates b) (BatchInterval b) (MaxDataPointsPerChart b)
  (JavaScriptEngine b) (JavaScriptContext b) (bIsInitialized b) (Charts b)
  (Dashboards b) (PendingUpdates b) (LastBatchTime b).
Definition set_MaxDataPointsPerChart (v : Z) (b : Bridge) : Bridge :=
MkBridge _ (bEnableDebugMode b) (PackagePath b) (MemoryLimit b) (bAutoCleanup b)
  (bEnableBatchUpdates b) (BatchInterval b) v
  (JavaScriptEngine b) (JavaScriptContext b) (bIsInitialized b) (Charts b)
  (Dashboards b) (PendingUpdates b) (LastBatchTime b).

(** *** Configuration *)

Definition SetThemeScript (ThemeJson : string) : string :=
"global.vizManager.setTheme(" +:+ ThemeJson +:+ ");".

Definition SetTheme (Theme : FJsonObjectPtr) : M unit :=
b ← Eff.get;
if negb (bIsInitialized b) then mret tt
else
  let ThemeJson := JsonObjectToString Theme in
  Result ← ExecuteJavaScript (SetThemeScript ThemeJson);
  if negb (UE.Contains Result "ERROR") then
    UE_LOG UE.Log "Theme applied successfully"
  else
    UE_LOG UE.Error ("Failed to set theme: " +:+ Result).

Definition SetDebugModeScript (bEnabled : bool) : string :=
"global.vizManager.setDebugMode(" +:+ BoolText bEnabled +:+ ");".

Definition SetDebugMode (bEnabled : bool) : M unit :=
Eff.modify (set_bEnableDebugMode bEnabled);;
b ← Eff.get;
when (bIsInitialized b) (ExecuteJavaScript (SetDebugModeScript bEnabled);; mret tt).

Definition SetLogLevel (Level : string) : M unit :=
b ← Eff.get;
if negb (bIsInitialized b) then mret tt
else ExecuteJavaScript ("global.vizManager.setLogLevel('" +:+ Level +:+ "');");; mret tt.

Definition ShowPerformanceStats (bShow : bool) : M unit :=
b ← Eff.get;
if negb (bIsInitialized b) then mret tt
else
  ExecuteJavaScript ("global.vizManager.showPerformanceStats(" +:+ BoolText bShow +:+ ");");;
  mret tt.

Definition SetMemoryLimitScript (LimitBytes : Z) : string :=
"global.vizManager.setMemoryLimit(" +:+ UE.PrintfInt LimitBytes +:+ ");".

Definition SetMemoryLimit (LimitBytes : Z) : M unit :=
Eff.modify (set_MemoryLimit LimitBytes);;
b ← Eff.get;
when (bIsInitialized b) (ExecuteJavaScript (SetMemoryLimitScript LimitBytes);; mret tt).

Definition EnableAutoCleanupScript (bEnabled : bool) : string :=
"global.vizManager.enableAutoCleanup(" +:+ BoolText bEnabled +:+ ");".

Definition EnableAutoCleanup (bEnabled : bool) : M unit :=
Eff.modify (set_bAutoCleanup bEnabled);;
b ← Eff.get;
when (bIsInitialized b) (ExecuteJavaScript (EnableAutoCleanupScript bEnabled);; mret tt).

Definition SetMaxDataPointsPerChart (MaxPoints : Z) : M unit :=
Eff.modify (set_MaxDataPointsPerChart MaxPoints).

(** The four settings that the manager is created with, assigned one after
    the other. *)
Definition Configure (bDebug bCleanup : bool) (LimitBytes MaxPoints : Z) : M unit :=
SetDebugMode bDebug;;
EnableAutoCleanup bCleanup;;
SetMemoryLimit LimitBytes;;
SetMaxDataPointsPerChart MaxPoints.

(** *** Dashboards *)

Definition UpdateDashboardScript (DashboardId DataJson : string) : string :=
"global.vizManager.updateDashboard('" +:+ DashboardId +:+ "', " +:+ DataJson +:+ ");".

Definition UpdateDashboard (DashboardId : string) (Data : FJsonObjectPtr) : M unit :=
b ← Eff.get;
if negb (bIsInitialized b) then mret tt
else
  let DataJson := JsonObjectToString Data in
  Result ← ExecuteJavaScript (UpdateDashboardScript DashboardId DataJson);
  ReportFailure "update dashboard" DashboardId Result.

(** *** Sequences of update requests *)

Inductive FUpdateRequest :=
| RequestSingle (ChartId : string) (Timestamp : Z) (Value : Q)
| RequestMulti (ChartId : string) (Data : FJsonObjectPtr)
| RequestArray (ChartId : string) (Data : list (option FJsonValue)).

Definition Request (r : FUpdateRequest) : M unit :=
match r with
| RequestSingle ChartId Timestamp Value => UpdateChart ChartId Timestamp Value
| RequestMulti ChartId Data => UpdateChartMultiData ChartId Data
| RequestArray ChartId Data => UpdateChartArray ChartId Data
end.

Definition Requests (l : list FUpdateRequest) : M unit := Eff.ForEach l Request.

(** The entry that a request adds to the queue when it is made at the
    reading [n] of the clock. *)
Definition RequestedUpdate (n : nat) (r : FUpdateRequest) : FBatchUpdateData :=
match r with
| RequestSingle ChartId Timestamp Value =>
    MkUpdate ChartId "updateSingleData" (SingleData Timestamp Value) (Seconds n)
| RequestMulti ChartId Data =>
    MkUpdate ChartId "updateMultiData" (JsonObjectToString Data) (Seconds n)
| RequestArray ChartId Data =>
    MkUpdate ChartId "updateArrayData" (JsonValueArrayToString Data) (Seconds n)
end.

Fixpoint RequestedUpdates (n : nat) (l : list FUpdateRequest) : list FBatchUpdateData :=
match l with
| [] => []
| r :: l' => RequestedUpdate n r :: RequestedUpdates (S n) l'
end.

(** *** Observations used in the statements *)

(** What [ExecuteJavaScript] returns when there is nothing to run the
    script. *)
Definition NoContextResult : string :=
if WITH_V8 then "ERROR: JavaScript context not available" else "ERROR: V8 not available".

(** What a flush emits for one chart when its script fails with [Result]. *)
Definition FailedFlush (Result : string) (ChartUpdates : string * list FBatchUpdateData)
  : list Event :=
[ JavaScript (BatchScript (fst ChartUpdates) (snd ChartUpdates)) Result;
  LogLine UE.Error ("Failed to process batched updates for '" +:+ fst ChartUpdates
                    +:+ "': " +:+ Result) ].

(** The component with other tables of charts and dashboards. *)
Definition WithTables (NewCharts NewDashboards : gmap string FJsonObjectPtr)
    (b : Bridge) : Bridge :=
set_Dashboards NewDashboards (set_Charts NewCharts b).

(** A run whose final component is seen through [f]. *)
Definition MapFinal {A} (f : Bridge -> Bridge) (r : Eff.Run Bridge Event A)
  : Eff.Run Bridge Event A :=
Eff.MkRun (Eff.Returned r) (Eff.Reads r) (f (Eff.Final r)) (Eff.Emitted r).

End Bridge.

End DataVizMore.

(* ===================================================================== *)
(** ** The example actor's performance gauge (Example.cpp) *)
(* ===================================================================== *)

Module DataVizExample.

Local Open Scope Q_scope.

(** The members of [FPerformanceMetrics] that the actor reads. *)
Record FPerformanceMetrics := MkMetrics {
  FPS : Q;
  MemoryUsageMB : Q;
  CPUUsagePercent : Q
}.

(** [FMath::Clamp]: [X < Min ? Min : X < Max ? X : Max]. *)
Definition Clamp (X Min Max : Q) : Q :=
  if Qlt_le_dec X Min then Min else if Qlt_le_dec X Max then X else Max.

(** [ADataVisualizationExample::CalculatePerformanceScore]. *)
Definition CalculatePerformanceScore (Metrics : FPerformanceMetrics) : Q :=
  let FPSScore := Clamp (FPS Metrics / 60) 0 1 * 40 in
  let MemoryScore := Clamp (1 - MemoryUsageMB Metrics / 2048) 0 1 * 30 in
  let CPUScore := Clamp (1 - CPUUsagePercent Metrics / 100) 0 1 * 30 in
  FPSScore + MemoryScore + CPUScore.

End DataVizExample.

(* ===================================================================== *)
(** ** Sample requests *)
(* ===================================================================== *)

Module VizScenario.

(** Three updates of two charts, one of them spelled in two ways. *)
Definition ThreeRequests : list (@DataVizMore.FUpdateRequest Sample.VizEngine) :=
  [ @DataVizMore.RequestSingle Sample.VizEngine "fps" 1 1;
    @DataVizMore.RequestMulti Sample.VizEngine "memory" (Some "{}");
    @DataVizMore.RequestArray Sample.VizEngine "FPS" [] ].

(** An update handed to [ApplyBatchedUpdates]. *)
Definition OneUpdate : DataViz.FBatchUpdateData :=
  DataViz.MkUpdate "fps" "updateSingleData" "{}" 0.

End VizScenario.

(* ===================================================================== *)
(** ** Facts about the engine primitives *)
(* ===================================================================== *)

Module UEFacts.
Import UE.
#[local] Arguments String.append !s1 s2 : simpl nomatch.

Lemma append_assoc (a b c : string) : (a +:+ b) +:+ c = a +:+ (b +:+ c).
Proof. induction a as [|x a IH]; simpl; [reflexivity | now rewrite IH]. Qed.

Lemma append_nil_r (a : string) : a +:+ "" = a.
Proof. induction a as [|x a IH]; simpl; [reflexivity | now rewrite IH]. Qed.

Lemma concat_cons (x : string) (xs : list string) :
  String.concat "" (x :: xs) = x +:+ String.concat "" xs.
Proof. destruct xs; simpl; [now rewrite append_nil_r | reflexivity]. Qed.

Lemma digit_cases (d : Z) : 0 <= d < 10 ->
  d = 0 \/ d = 1 \/ d = 2 \/ d = 3 \/ d = 4 \/ d = 5 \/ d = 6 \/ d = 7 \/ d = 8 \/ d = 9.
Proof. lia. Qed.

Lemma IsDigit_DigitChar (d : Z) : 0 <= d < 10 -> IsDigit (DigitChar d) = true.
Proof.
  intros H. destruct (digit_cases d H) as [-> | [-> | [-> | [-> | [-> | [-> | [-> | [-> | [-> | ->]]]]]]]]];
    reflexivity.
Qed.

Lemma DigitValue_DigitChar (d : Z) : 0 <= d < 10 -> DigitValue (DigitChar d) = d.
Proof.
  intros H. destruct (digit_cases d H) as [-> | [-> | [-> | [-> | [-> | [-> | [-> | [-> | [-> | ->]]]]]]]]];
    reflexivity.
Qed.

Lemma ReadDigits_FixedDigits (k : nat) : forall (m acc : Z) (count : nat) (rest : string),
  0 <= m ->
  ReadDigits acc count (FixedDigits k m +:+ rest)
  = ReadDigits (acc * 10 ^ Z.of_nat k + m mod 10 ^ Z.of_nat k) (count + k) rest.
Proof.
  induction k as [|k IH]; intros m acc count rest Hm.
  - cbn [FixedDigits String.append]. rewrite Z.pow_0_r, Z.mod_1_r, Nat.add_0_r.
    f_equal. lia.
  - cbn [FixedDigits]. rewrite append_assoc.
    rewrite IH by (apply Z.div_pos; lia).
    assert (Hd : 0 <= m mod 10 < 10) by (apply Z.mod_pos_bound; lia).
    cbn [String.append ReadDigits].
    rewrite (IsDigit_DigitChar _ Hd), (DigitValue_DigitChar _ Hd).
    replace (S count + k)%nat with (count + S k)%nat by lia.
    replace (count + k)%nat with (count + k)%nat by lia.
    f_equal; [| lia].
    rewrite Nat2Z.inj_succ, Z.pow_succ_r by lia.
    rewrite (Z.rem_mul_r m 10 (10 ^ Z.of_nat k)) by lia.
    ring.
Qed.

Lemma DigitCount_bound (fuel : nat) : forall n : Z,
  0 <= n < 10 * 2 ^ Z.of_nat fuel -> n < 10 ^ Z.of_nat (DigitCount fuel n).
Proof.
  induction fuel as [|fuel IH]; intros n Hn.
  - cbn in *. lia.
  - cbn [DigitCount]. destruct (Z.ltb_spec n 10) as [Hlt | Hge]; [cbn; lia |].
    rewrite Nat2Z.inj_succ, Z.pow_succ_r in Hn by lia.
    assert (Hq : n / 10 < 10 ^ Z.of_nat (DigitCount fuel (n / 10))).
    { apply IH. split; [apply Z.div_pos; lia |].
      apply Z.div_lt_upper_bound; lia. }
    rewrite Nat2Z.inj_succ, Z.pow_succ_r by lia.
    pose proof (Z.div_mod n 10 ltac:(lia)) as Hdm.
    pose proof (Z.mod_pos_bound n 10 ltac:(lia)). lia.
Qed.

Lemma Decimal_bound (n : Z) :
  0 <= n -> n < 10 ^ Z.of_nat (DigitCount (Z.to_nat (Z.log2 n)) n).
Proof.
  intros Hn. apply DigitCount_bound. split; [exact Hn |].
  rewrite Z2Nat.id by apply Z.log2_nonneg.
  destruct (Z.eq_dec n 0) as [-> | Hne]; [cbn; lia |].
  pose proof (Z.log2_spec n ltac:(lia)) as [_ Hup].
  rewrite Z.pow_succ_r in Hup by apply Z.log2_nonneg.
  pose proof (Z.pow_pos_nonneg 2 (Z.log2 n) ltac:(lia) (Z.log2_nonneg n)). lia.
Qed.

Lemma DigitCount_pos (fuel : nat) (n : Z) : (0 < DigitCount fuel n)%nat.
Proof. destruct fuel; cbn; [lia |]. destruct (n <? 10); lia. Qed.

Lemma ReadDigits_Decimal (n : Z) (rest : string) :
  0 <= n ->
  ReadDigits 0 0 (Decimal n +:+ rest)
  = ReadDigits n (DigitCount (Z.to_nat (Z.log2 n)) n) rest.
Proof.
  intros Hn. unfold Decimal. rewrite ReadDigits_FixedDigits by exact Hn.
  rewrite Z.mod_small by (split; [exact Hn | apply Decimal_bound; exact Hn]).
  reflexivity.
Qed.

Lemma ReadDigits_stop (acc : Z) (count : nat) (c : ascii) (rest : string) :
  IsDigit c = false -> ReadDigits acc count (String c rest) = (acc, count, String c rest).
Proof. intros H. cbn. now rewrite H. Qed.

Lemma RoundHalfEven_nonneg (q : Q) : (0 <= q)%Q -> 0 <= RoundHalfEven q.
Proof.
  intros Hq. unfold RoundHalfEven.
  assert (0 <= Qfloor q) by (rewrite <- (Qfloor_Z 0); apply Qfloor_resp_le; exact Hq).
  destruct (_ ?= _)%Q; [destruct (Z.even _) | |]; lia.
Qed.

Lemma FixedDigits_head (k : nat) : forall m : Z,
  exists d ds, FixedDigits (S k) m = String d ds /\ IsDigit d = true.
Proof.
  induction k as [|k IH]; intros m.
  - exists (DigitChar (m mod 10)), EmptyString. split; [reflexivity |].
    apply IsDigit_DigitChar, Z.mod_pos_bound; lia.
  - destruct (IH (m / 10)) as (d & ds & E & Hd).
    exists d, (ds +:+ String (DigitChar (m mod 10)) EmptyString).
    split; [| exact Hd].
    change (FixedDigits (S (S k)) m)
      with (FixedDigits (S k) (m / 10) +:+ String (DigitChar (m mod 10)) EmptyString).
    now rewrite E.
Qed.

Lemma Decimal_head (n : Z) :
  exists d ds, Decimal n = String d ds /\ IsDigit d = true.
Proof.
  unfold Decimal.
  pose proof (DigitCount_pos (Z.to_nat (Z.log2 n)) n) as Hpos.
  destruct (DigitCount _ _) as [|k]; [lia |]. apply FixedDigits_head.
Qed.

Lemma digit_not_minus (d : ascii) : IsDigit d = true -> Ascii.eqb d "-" = false.
Proof.
  intros Hd. destruct (Ascii.eqb_spec d "-") as [-> | _]; [discriminate Hd | reflexivity].
Qed.

Lemma ReadUnsigned_fixed (prec : nat) (sign r : Z) (c : ascii) (rest : string) :
  (0 < prec)%nat -> 0 <= r -> IsDigit c = false ->
  let scale := 10 ^ Z.of_nat prec in
  match ReadDigits 0 0
          (Decimal (r / scale)
             +:+ String "." (FixedDigits prec (r mod scale) +:+ String c rest)) with
  | (_, O, _) => None
  | (int, _, s2) => ReadFraction sign int s2
  end = Some (Qmake (sign * r) (Z.to_pos scale), String c rest).
Proof.
  intros Hprec Hr Hc scale.
  assert (Hscale : 0 < scale) by (apply Z.pow_pos_nonneg; lia).
  assert (Hint : 0 <= r / scale) by (apply Z.div_pos; lia).
  assert (Hfrac : 0 <= r mod scale < scale) by (apply Z.mod_pos_bound; lia).
  rewrite ReadDigits_Decimal by exact Hint.
  rewrite ReadDigits_stop by reflexivity.
  pose proof (DigitCount_pos (Z.to_nat (Z.log2 (r / scale))) (r / scale)) as Hpos.
  destruct (DigitCount _ _) as [|dc]; [lia |].
  unfold ReadFraction. cbn [Ascii.eqb Bool.eqb].
  rewrite ReadDigits_FixedDigits by lia.
  rewrite ReadDigits_stop by exact Hc.
  cbn [Nat.add]. destruct prec as [|p]; [lia |].
  fold scale. rewrite Z.mul_0_l, Z.add_0_l, Z.mod_mod by lia.
  do 3 f_equal.
  rewrite (Z.div_mod r scale) at 3 by lia. ring.
Qed.

(** Reading back what a [%.<prec>f] conversion wrote. *)
Lemma ReadNumber_PrintfFloat (prec : nat) (x : Q) (c : ascii) (rest : string) :
  (0 < prec)%nat -> IsDigit c = false ->
  ReadNumber (PrintfFloat prec x +:+ String c rest)
  = Some (RoundTo prec x, String c rest).
Proof.
  intros Hprec Hc. unfold PrintfFloat, RoundTo.
  set (scale := 10 ^ Z.of_nat prec).
  set (r := RoundHalfEven (Qabs x * inject_Z scale)).
  assert (Hr : 0 <= r).
  { apply RoundHalfEven_nonneg. apply Qmult_le_0_compat; [apply Qabs_nonneg |].
    assert (0 < scale) by (apply Z.pow_pos_nonneg; lia).
    unfold Qle; cbn; lia. }
  unfold ReadNumber.
  destruct (Qlt_le_dec x 0) as [Hneg | Hpos];
    rewrite ?append_assoc; cbn [String.append ReadSign Ascii.eqb Bool.eqb].
  - apply (ReadUnsigned_fixed prec (-1) r c rest Hprec Hr Hc).
  - pose proof (ReadUnsigned_fixed prec 1 r c rest Hprec Hr Hc) as Hbody.
    cbn zeta in Hbody. fold scale in Hbody.
    destruct (Decimal_head (r / scale)) as (d & ds & Ed & Hd).
    rewrite Ed in Hbody |- *. cbn [String.append ReadSign].
    rewrite (digit_not_minus d Hd).
    replace (if Qlt_le_dec x 0 then -1 else 1) with 1
      by (destruct (Qlt_le_dec x 0) as [Hlt | _]; [exfalso; lra | reflexivity]).
    exact Hbody.
Qed.

Lemma RoundHalfEven_error (q : Q) :
  (Qabs (inject_Z (RoundHalfEven q) - q) <= 1 # 2)%Q.
Proof.
  unfold RoundHalfEven.
  pose proof (Qfloor_le q) as Hlo. pose proof (Qlt_floor q) as Hhi.
  rewrite inject_Z_plus in Hhi. change (inject_Z 1) with 1%Q in Hhi.
  apply Qabs_Qle_condition.
  destruct (Qcompare_spec (q - inject_Z (Qfloor q)) (1 # 2)) as [He | Hl | Hg];
    [destruct (Z.even (Qfloor q)) | |];
    rewrite ?inject_Z_plus; change (inject_Z 1) with 1%Q;
    set (f := inject_Z (Qfloor q)) in *; lra.
Qed.

Lemma RoundHalfEven_inject_Z (z : Z) : RoundHalfEven (inject_Z z) = z.
Proof.
  unfold RoundHalfEven. rewrite Qfloor_Z.
  destruct (Qcompare_spec (inject_Z z - inject_Z z) (1 # 2)) as [He | Hl | Hg];
    [exfalso; lra | reflexivity | exfalso; lra].
Qed.

Lemma RoundHalfEven_comp (p q : Q) : (p == q)%Q -> RoundHalfEven p = RoundHalfEven q.
Proof.
  intros E. unfold RoundHalfEven. rewrite (Qfloor_comp p q E).
  assert (E2 : (p - inject_Z (Qfloor q) == q - inject_Z (Qfloor q))%Q) by (rewrite E; reflexivity).
  now rewrite (Qcompare_comp _ _ E2 (1#2) (1#2) (Qeq_refl _)).
Qed.

End UEFacts.

(* ===================================================================== *)
(** ** Marshalling of vectors *)
(* ===================================================================== *)

Module VectorFacts.
Import UE SteamAI UEFacts.
#[local] Arguments String.append !s1 s2 : simpl nomatch.

Lemma RoundTo_2_value (x : Q) :
  (RoundTo 2 x ==
   inject_Z ((if Qlt_le_dec x 0 then -1 else 1) * RoundHalfEven (Qabs x * inject_Z 100)) * (1 # 100))%Q.
Proof.
  unfold RoundTo. change (10 ^ Z.of_nat 2) with 100. change (Z.to_pos 100) with 100%positive.
  set (n := _ * RoundHalfEven _). unfold Qeq, inject_Z, Qmult; cbn. lia.
Qed.

Lemma RoundTo_2_error (x : Q) : (Qabs (RoundTo 2 x - x) <= 1 # 200)%Q.
Proof.
  rewrite RoundTo_2_value.
  pose proof (RoundHalfEven_error (Qabs x * inject_Z 100)) as He.
  apply Qabs_Qle_condition in He. apply Qabs_Qle_condition.
  set (r := RoundHalfEven _) in *. change (inject_Z 100) with 100%Q in He.
  destruct (Qlt_le_dec x 0) as [Hneg | Hpos].
  - rewrite (Qabs_neg x) in He by lra.
    rewrite inject_Z_mult. change (inject_Z (-1)) with (-1)%Q.
    set (ir := inject_Z r) in *. lra.
  - rewrite (Qabs_pos x) in He by lra.
    rewrite inject_Z_mult. change (inject_Z 1) with 1%Q.
    set (ir := inject_Z r) in *. lra.
Qed.

Lemma RoundTo_2_exact (x : Q) (n : Z) : (x == n # 100)%Q -> (RoundTo 2 x == x)%Q.
Proof.
  intros E. rewrite RoundTo_2_value.
  assert (En : (n # 100 == inject_Z n * (1 # 100))%Q) by (unfold Qeq, inject_Z, Qmult; cbn; lia).
  destruct (Qlt_le_dec x 0) as [Hneg | Hpos].
  - assert (Ea : (Qabs x * inject_Z 100 == inject_Z (- n))%Q).
    { rewrite (Qabs_neg x) by lra. rewrite inject_Z_opp, E, En.
      change (inject_Z 100) with 100%Q. set (i := inject_Z n). field. }
    rewrite (RoundHalfEven_comp _ _ Ea), RoundHalfEven_inject_Z.
    rewrite E, En. rewrite inject_Z_mult, inject_Z_opp. change (inject_Z (-1)) with (-1)%Q.
    set (i := inject_Z n). field.
  - assert (Ea : (Qabs x * inject_Z 100 == inject_Z n)%Q).
    { rewrite (Qabs_pos x) by lra. rewrite E, En.
      change (inject_Z 100) with 100%Q. set (i := inject_Z n). field. }
    rewrite (RoundHalfEven_comp _ _ Ea), RoundHalfEven_inject_Z.
    rewrite E, En. rewrite inject_Z_mult. change (inject_Z 1) with 1%Q.
    set (i := inject_Z n). field.
Qed.

Lemma digit_not_whitespace (d : ascii) : IsDigit d = true -> IsWhitespace d = false.
Proof.
  unfold IsDigit, IsWhitespace. intros Hd.
  apply andb_prop in Hd as [H1 H2]. apply N.leb_le in H1.
  repeat (apply orb_false_intro); apply N.eqb_neq; lia.
Qed.

Lemma SkipWhitespace_PrintfFloat (prec : nat) (x : Q) (rest : string) :
  SkipWhitespace (PrintfFloat prec x +:+ rest) = PrintfFloat prec x +:+ rest.
Proof.
  unfold PrintfFloat.
  destruct (Qlt_le_dec x 0); [reflexivity |].
  destruct (Decimal_head (RoundHalfEven (Qabs x * inject_Z (10 ^ Z.of_nat prec))
                          / 10 ^ Z.of_nat prec)) as (d & ds & E & Hd).
  cbn zeta. rewrite E. cbn [String.append SkipWhitespace].
  now rewrite (digit_not_whitespace d Hd).
Qed.

Lemma Expect_hit (c : ascii) (rest : string) :
  IsWhitespace c = false -> Expect c (String c rest) = Some rest.
Proof.
  intros Hw. unfold Expect. cbn [SkipWhitespace]. rewrite Hw.
  now rewrite Ascii.eqb_refl.
Qed.

Lemma Expect_miss (c d : ascii) (rest : string) :
  IsWhitespace d = false -> Ascii.eqb c d = false -> Expect c (String d rest) = None.
Proof. intros Hw Hne. unfold Expect. cbn [SkipWhitespace]. now rewrite Hw, Hne. Qed.

Lemma ReadMembers_unfold (fuel : nat) (obj : FJsonObject) (s s1 key s2 s3 s4 : string) (value : Q) :
  Expect DQ s = Some s1 -> ReadStringBody s1 = Some (key, s2) ->
  Expect ":" s2 = Some s3 -> ReadNumber (SkipWhitespace s3) = Some (value, s4) ->
  ReadMembers (S fuel) obj s
  = match Expect "," s4 with
    | Some s5 => ReadMembers fuel (<[key := value]> obj) s5
    | None => s5 ← Expect "}" s4; Some (<[key := value]> obj, s5)
    end.
Proof.
  intros H1 H2 H3 H4. cbn [ReadMembers].
  rewrite H1. cbn [mbind option_bind]. rewrite H2. cbn [mbind option_bind].
  rewrite H3. cbn [mbind option_bind]. rewrite H4. reflexivity.
Qed.

(** One member written by [VectorToJSON], up to the separator [c]. *)
Lemma ReadMembers_member (fuel : nat) (obj : FJsonObject) (k c : ascii) (x : Q) (rest : string) :
  Ascii.eqb k DQ = false -> Ascii.eqb k "\" = false -> IsDigit c = false ->
  ReadMembers (S fuel) obj
    (String DQ (String k (String DQ (String ":" (PrintfFloat 2 x +:+ String c rest)))))
  = match Expect "," (String c rest) with
    | Some s5 => ReadMembers fuel (<[String k EmptyString := RoundTo 2 x]> obj) s5
    | None => s5 ← Expect "}" (String c rest);
              Some (<[String k EmptyString := RoundTo 2 x]> obj, s5)
    end.
Proof.
  intros Hq Hb Hc.
  eapply ReadMembers_unfold.
  - apply Expect_hit. reflexivity.
  - cbn [ReadStringBody]. rewrite Hq, Hb. cbn [ReadStringBody].
    rewrite Ascii.eqb_refl. reflexivity.
  - apply Expect_hit. reflexivity.
  - rewrite SkipWhitespace_PrintfFloat. apply ReadNumber_PrintfFloat; [lia | exact Hc].
Qed.

Lemma Deserialize_VectorToJSON (v : FVector) :
  Deserialize (VectorToJSON v)
  = Some (<["z" := RoundTo 2 (FVec.Z v)]> (<["y" := RoundTo 2 (FVec.Y v)]> (<["x" := RoundTo 2 (FVec.X v)]> ∅))).
Proof.
  unfold VectorToJSON, Quoted, Deserialize.
  cbn [String.append].
  rewrite Expect_hit by reflexivity. cbn [mbind option_bind].
  rewrite Expect_miss by reflexivity.
  cbn [String.length].
  rewrite ReadMembers_member by reflexivity.
  rewrite Expect_hit by reflexivity.
  rewrite ReadMembers_member by reflexivity.
  rewrite Expect_hit by reflexivity.
  rewrite ReadMembers_member by reflexivity.
  rewrite Expect_miss by reflexivity.
  rewrite Expect_hit by reflexivity.
  reflexivity.
Qed.

Lemma JSONToVector_VectorToJSON_rounds (v : FVector) :
  JSONToVector (VectorToJSON v) = RoundedVector v.
Proof.
  unfold JSONToVector, JSONToVectorWith. rewrite Deserialize_VectorToJSON.
  reflexivity.
Qed.




End VectorFacts.

(* ===================================================================== *)
(** ** Running computations *)
(* ===================================================================== *)

Module EffFacts.
Import Eff.
Section Facts.
Context {St Ev : Type}.

Lemma run_bind {A B} (c : M St Ev A) (k : A -> M St Ev B) (n : nat) (s : St) :
  run (c ≫= k) n s
  = MkRun (Returned (run (k (Returned (run c n s))) (Reads (run c n s)) (Final (run c n s))))
          (Reads (run (k (Returned (run c n s))) (Reads (run c n s)) (Final (run c n s))))
          (Final (run (k (Returned (run c n s))) (Reads (run c n s)) (Final (run c n s))))
          (Emitted (run c n s)
           ++ Emitted (run (k (Returned (run c n s))) (Reads (run c n s)) (Final (run c n s)))).
Proof. reflexivity. Qed.

Lemma run_eta {A} (r : Run St Ev A) :
  MkRun (Returned r) (Reads r) (Final r) (Emitted r) = r.
Proof. now destruct r. Qed.

End Facts.
End EffFacts.

(* ===================================================================== *)
(** ** SteamAIBridge: facts *)
(* ===================================================================== *)

Module SteamAIFacts.
Import Eff EffFacts SteamAI.
Section Facts.
Context {E : Engine}.

(** **** Registration and dispatch of callbacks *)

Lemma FindAction_RegisterAction (AgentId ActionName : string) (Callback : FDelegate)
    (n : nat) (b : USteamAIBridge) :
  FindAction (Final (run (RegisterAction AgentId ActionName Callback) n b))
    AgentId ActionName = Some Callback.
Proof.
  unfold RegisterAction, FindAction, UE.TMapContains, UE.TMapFind, UE.TMapUpdate, UE.TMapAdd.
  cbn. destruct (RegisteredActions b !! UE.Key AgentId) as [m|] eqn:Em; cbn.
  - rewrite lookup_alter_eq, Em. cbn. apply lookup_insert_eq.
  - rewrite lookup_alter_eq, lookup_insert_eq. cbn. apply lookup_insert_eq.
Qed.

Lemma FindAction_RegisterAction_other (AgentId ActionName A' N' : string)
    (Callback : FDelegate) (n : nat) (b : USteamAIBridge) :
  (UE.Key A', UE.Key N') <> (UE.Key AgentId, UE.Key ActionName) ->
  FindAction (Final (run (RegisterAction A' N' Callback) n b)) AgentId ActionName
  = FindAction b AgentId ActionName.
Proof.
  intros Hne.
  unfold RegisterAction, FindAction, UE.TMapContains, UE.TMapFind, UE.TMapUpdate, UE.TMapAdd.
  cbn. destruct (decide (UE.Key A' = UE.Key AgentId)) as [Ea | Na].
  - assert (Nn : UE.Key N' <> UE.Key ActionName) by congruence.
    rewrite Ea.
    destruct (RegisteredActions b !! UE.Key AgentId) as [m|] eqn:Em; cbn.
    + rewrite lookup_alter_eq, Em. cbn. now rewrite lookup_insert_ne.
    + rewrite lookup_alter_eq, lookup_insert_eq. cbn.
      now rewrite lookup_insert_ne by exact Nn.
  - destruct (RegisteredActions b !! UE.Key A') as [m|] eqn:Em; cbn.
    + now rewrite lookup_alter_ne.
    + rewrite lookup_alter_ne by exact Na. now rewrite lookup_insert_ne.
Qed.

Lemma HandleActionCallback_bound (AgentId ActionName AgentData BlackboardData Target : string)
    (n : nat) (b : USteamAIBridge) :
  FindAction b AgentId ActionName = Some (BoundTo Target) ->
  run (HandleActionCallback AgentId ActionName AgentData BlackboardData) n b
  = MkRun (ExecuteIfBound Target AgentData BlackboardData) n b
      [DelegateExecuted Target AgentData BlackboardData].
Proof.
  unfold FindAction, HandleActionCallback. cbn.
  destruct (UE.TMapFind (RegisteredActions b) AgentId) as [m|]; cbn; [| discriminate].
  intros ->. reflexivity.
Qed.

Lemma HandleActionCallback_missing (AgentId ActionName AgentData BlackboardData : string)
    (n : nat) (b : USteamAIBridge) :
  (forall Target, FindAction b AgentId ActionName <> Some (BoundTo Target)) ->
  run (HandleActionCallback AgentId ActionName AgentData BlackboardData) n b
  = MkRun false n b
      [LogLine UE.Warning ("No action callback found for agent " +:+ AgentId
                           +:+ ", action " +:+ ActionName)].
Proof.
  unfold FindAction, HandleActionCallback. cbn.
  destruct (UE.TMapFind (RegisteredActions b) AgentId) as [m|]; cbn; [| reflexivity].
  destruct (UE.TMapFind m ActionName) as [[|T]|]; intros H; try reflexivity.
  now destruct (H T).
Qed.

Lemma FindCondition_RegisterCondition (AgentId ConditionName : string) (Callback : FDelegate)
    (n : nat) (b : USteamAIBridge) :
  FindCondition (Final (run (RegisterCondition AgentId ConditionName Callback) n b))
    AgentId ConditionName = Some Callback.
Proof.
  unfold RegisterCondition, FindCondition, UE.TMapContains, UE.TMapFind, UE.TMapUpdate, UE.TMapAdd.
  cbn. destruct (RegisteredConditions b !! UE.Key AgentId) as [m|] eqn:Em; cbn.
  - rewrite lookup_alter_eq, Em. cbn. apply lookup_insert_eq.
  - rewrite lookup_alter_eq, lookup_insert_eq. cbn. apply lookup_insert_eq.
Qed.

Lemma FindCondition_RegisterCondition_other (AgentId ConditionName A' N' : string)
    (Callback : FDelegate) (n : nat) (b : USteamAIBridge) :
  (UE.Key A', UE.Key N') <> (UE.Key AgentId, UE.Key ConditionName) ->
  FindCondition (Final (run (RegisterCondition A' N' Callback) n b)) AgentId ConditionName
  = FindCondition b AgentId ConditionName.
Proof.
  intros Hne.
  unfold RegisterCondition, FindCondition, UE.TMapContains, UE.TMapFind, UE.TMapUpdate, UE.TMapAdd.
  cbn. destruct (decide (UE.Key A' = UE.Key AgentId)) as [Ea | Na].
  - assert (Nn : UE.Key N' <> UE.Key ConditionName) by congruence.
    rewrite Ea.
    destruct (RegisteredConditions b !! UE.Key AgentId) as [m|] eqn:Em; cbn.
    + rewrite lookup_alter_eq, Em. cbn. now rewrite lookup_insert_ne.
    + rewrite lookup_alter_eq, lookup_insert_eq. cbn.
      now rewrite lookup_insert_ne by exact Nn.
  - destruct (RegisteredConditions b !! UE.Key A') as [m|] eqn:Em; cbn.
    + now rewrite lookup_alter_ne.
    + rewrite lookup_alter_ne by exact Na. now rewrite lookup_insert_ne.
Qed.

Lemma HandleConditionCallback_bound (AgentId ConditionName AgentData BlackboardData Target : string)
    (n : nat) (b : USteamAIBridge) :
  FindCondition b AgentId ConditionName = Some (BoundTo Target) ->
  run (HandleConditionCallback AgentId ConditionName AgentData BlackboardData) n b
  = MkRun (ExecuteIfBound Target AgentData BlackboardData) n b
      [DelegateExecuted Target AgentData BlackboardData].
Proof.
  unfold FindCondition, HandleConditionCallback. cbn.
  destruct (UE.TMapFind (RegisteredConditions b) AgentId) as [m|]; cbn; [| discriminate].
  intros ->. reflexivity.
Qed.

Lemma HandleConditionCallback_missing (AgentId ConditionName AgentData BlackboardData : string)
    (n : nat) (b : USteamAIBridge) :
  (forall Target, FindCondition b AgentId ConditionName <> Some (BoundTo Target)) ->
  run (HandleConditionCallback AgentId ConditionName AgentData BlackboardData) n b
  = MkRun false n b
      [LogLine UE.Warning ("No condition callback found for agent " +:+ AgentId
                           +:+ ", condition " +:+ ConditionName)].
Proof.
  unfold FindCondition, HandleConditionCallback. cbn.
  destruct (UE.TMapFind (RegisteredConditions b) AgentId) as [m|]; cbn; [| reflexivity].
  destruct (UE.TMapFind m ConditionName) as [[|T]|]; intros H; try reflexivity.
  now destruct (H T).
Qed.


(** **** Execution on an uninitialized component, and the fallback engine *)

Lemma ExecuteScript_uninitialized (Script : string) (n : nat) (b : USteamAIBridge) :
  bIsInitialized b = false ->
  run (ExecuteScript Script) n b
  = MkRun false n b
      [LogLine UE.Error "Attempting to execute script on uninitialized bridge"].
Proof. intros H. unfold ExecuteScript. cbn. rewrite H. reflexivity. Qed.

Lemma ExecuteFunction_uninitialized (FunctionName : string) (Parameters : list string)
    (n : nat) (b : USteamAIBridge) :
  bIsInitialized b = false ->
  run (ExecuteFunction FunctionName Parameters) n b
  = MkRun "" n b
      [LogLine UE.Error "Attempting to execute function on uninitialized bridge"].
Proof. intros H. unfold ExecuteFunction. cbn. rewrite H. reflexivity. Qed.

Lemma ExecuteFallbackScript_true (Script : string) (n : nat) (b : USteamAIBridge) :
  Returned (run (ExecuteFallbackScript Script) n b) = true.
Proof. unfold ExecuteFallbackScript. cbn. now destruct (bEnableDebugLogging _). Qed.

Lemma ExecuteFallbackFunction_empty (FunctionName : string) (Parameters : list string)
    (n : nat) (b : USteamAIBridge) :
  Returned (run (ExecuteFallbackFunction FunctionName Parameters) n b) = "".
Proof. unfold ExecuteFallbackFunction. cbn. now destruct (bEnableDebugLogging _). Qed.

Lemma ExecuteFunction_fallback (FunctionName : string) (Parameters : list string)
    (n : nat) (b : USteamAIBridge) :
  bIsInitialized b = true -> UsesV8 b = false ->
  Returned (run (ExecuteFunction FunctionName Parameters) n b) = "".
Proof.
  intros Hi Hv. unfold ExecuteFunction. cbn. rewrite Hi. cbn. rewrite Hv. cbn.
  now destruct (bEnableDebugLogging _).
Qed.

(** **** Loading the package *)

Lemma FirstLoadable_cons (p : string) (Paths : list string) :
  FirstLoadable (p :: Paths)
  = match LoadFileToString p with
    | Some JavaScriptCode => Some JavaScriptCode
    | None => FirstLoadable Paths
    end.
Proof. reflexivity. Qed.

Lemma LoadSteamAIPackage_found (JavaScriptCode : string) (n : nat) (b : USteamAIBridge) :
  FirstLoadable ((ProjectContentDir +:+ JavaScriptFilePath (Config b)) :: AlternativePaths)
  = Some JavaScriptCode ->
  run LoadSteamAIPackage n b = run (ExecuteScript (WrappedCode JavaScriptCode)) n b.
Proof.
  rewrite FirstLoadable_cons. intros H. unfold LoadSteamAIPackage.
  cbn -[FirstLoadable AlternativePaths].
  destruct (LoadFileToString (ProjectContentDir +:+ JavaScriptFilePath (Config b))).
  - now injection H as ->.
  - now rewrite H.
Qed.

Lemma FirstLoadable_none (Paths : list string) :
  (forall p, In p Paths -> LoadFileToString p = None) -> FirstLoadable Paths = None.
Proof.
  induction Paths as [|p Paths IH]; intros H; [reflexivity |].
  cbn. rewrite (H p (or_introl eq_refl)). apply IH. intros q Hq. apply H. now right.
Qed.

Lemma LoadSteamAIPackage_not_found (n : nat) (b : USteamAIBridge) :
  FirstLoadable ((ProjectContentDir +:+ JavaScriptFilePath (Config b)) :: AlternativePaths)
  = None ->
  run LoadSteamAIPackage n b
  = MkRun false n b
      [LogLine UE.Error ("Steam AI package file not found at: "
                         +:+ (ProjectContentDir +:+ JavaScriptFilePath (Config b)))].
Proof.
  rewrite FirstLoadable_cons. intros H. unfold LoadSteamAIPackage.
  cbn -[FirstLoadable AlternativePaths].
  destruct (LoadFileToString (ProjectContentDir +:+ JavaScriptFilePath (Config b)));
    [discriminate H |].
  now rewrite H.
Qed.

Lemma LoadSteamAIPackage_uninitialized (n : nat) (b : USteamAIBridge) :
  bIsInitialized b = false ->
  exists line,
    run LoadSteamAIPackage n b = MkRun false n b [LogLine UE.Error line].
Proof.
  intros Hi.
  destruct (FirstLoadable ((ProjectContentDir +:+ JavaScriptFilePath (Config b))
                             :: AlternativePaths)) as [code|] eqn:Ef.
  - rewrite (LoadSteamAIPackage_found code n b Ef), ExecuteScript_uninitialized by exact Hi.
    eauto.
  - rewrite (LoadSteamAIPackage_not_found n b Ef). eauto.
Qed.

(** **** Initialization *)

Lemma InitializeAI_initialized (n : nat) (b : USteamAIBridge) :
  bIsInitialized b = true -> run InitializeAI n b = MkRun true n b [].
Proof. intros H. unfold InitializeAI. cbn. rewrite H. reflexivity. Qed.

Lemma SetupJavaScriptEnvironment_run (n : nat) (b : USteamAIBridge) :
  exists lines, run SetupJavaScriptEnvironment n b = MkRun tt n b lines.
Proof.
  unfold SetupJavaScriptEnvironment. cbn.
  destruct (WITH_V8 && bUseV8Engine (Config b)); cbn; eauto.
Qed.

Lemma set_bInitializationInProgress_reset (b : USteamAIBridge) :
  bInitializationInProgress b = false ->
  set_bInitializationInProgress false (set_bInitializationInProgress true b) = b.
Proof. destruct b; cbn. now intros ->. Qed.

Lemma InitializeAI_fails (n : nat) (b : USteamAIBridge) :
  bIsInitialized b = false -> bInitializationInProgress b = false ->
  exists lines,
    run InitializeAI n b
    = MkRun false n b
        (lines ++ [LogLine UE.Error "Failed to load Steam AI package";
                   OnAIInitialized false]).
Proof.
  intros Hi Hp. unfold InitializeAI. rewrite run_bind. cbn [Eff.get run Returned Reads Final Emitted].
  rewrite Hi, Hp. cbn [orb].
  do 3 (rewrite run_bind; cbn [Eff.modify STEAM_AI_LOG Eff.emit run Returned Reads Final Emitted]).
  destruct (SetupJavaScriptEnvironment_run n (set_bInitializationInProgress true b))
    as [l1 ->].
  cbn [Returned Reads Final Emitted]. rewrite run_bind.
  destruct (LoadSteamAIPackage_uninitialized n (set_bInitializationInProgress true b) Hi)
    as [l2 ->].
  cbn. rewrite (set_bInitializationInProgress_reset b Hp).
  exists (LogLine UE.Log "Initializing Steam AI Bridge..." :: l1 ++ [LogLine UE.Error l2]).
  f_equal. cbn. f_equal. now rewrite <- app_assoc.
Qed.

(** **** Housekeeping *)

Lemma UpdatePerformanceStats_frame (DeltaTime : Q) (n : nat) (b : USteamAIBridge) :
  let r := run (UpdatePerformanceStats DeltaTime) n b in
  Reads r = n /\ Emitted r = []
  /\ Config (Final r) = Config b /\ bIsInitialized (Final r) = bIsInitialized b
  /\ LastGCTime (Final r) = LastGCTime b.
Proof.
  unfold UpdatePerformanceStats. cbn.
  destruct (bEnablePerformanceMonitoring (Config b)); cbn; [| easy].
  destruct (Qle_bool _ _); cbn; easy.
Qed.

Lemma ExecuteScript_frame (Script : string) (n : nat) (b : USteamAIBridge) :
  let r := run (ExecuteScript Script) n b in
  Config (Final r) = Config b /\ bIsInitialized (Final r) = bIsInitialized b
  /\ LastGCTime (Final r) = LastGCTime b.
Proof.
  unfold ExecuteScript, RecordScriptCall, ExecuteFallbackScript, ExecuteV8Script, when.
  cbn.
  repeat (match goal with
          | |- context [if ?c then _ else _] => destruct c eqn:?
          end; cbn).
  all: easy.
Qed.

Lemma ForceGarbageCollection_frame (World : UWorld) (n : nat) (b : USteamAIBridge) :
  let r := run (ForceGarbageCollection World) n b in
  Config (Final r) = Config b /\ bIsInitialized (Final r) = bIsInitialized b
  /\ LastGCTime (Final r) = GetTimeSeconds World.
Proof.
  unfold ForceGarbageCollection. rewrite run_bind.
  cbn [Eff.modify run Returned Reads Final Emitted].
  unfold set_LastGCTime. cbn [Config bIsInitialized LastGCTime].
  pose proof (ExecuteScript_frame "if (typeof gc !== 'undefined') { gc(); }" n b)
    as (Hc & Hi & _).
  easy.
Qed.

Lemma PerformPeriodicMaintenance_run (World : UWorld) (DeltaTime : Q) (n : nat)
    (b : USteamAIBridge) :
  run (PerformPeriodicMaintenance World DeltaTime) n b
  = if GCDue World b then run (ForceGarbageCollection World) n b else MkRun tt n b [].
Proof.
  unfold PerformPeriodicMaintenance, GCDue. rewrite run_bind.
  cbn [Eff.get run Returned Reads Final Emitted when].
  destruct (Qle_bool _ _); [| reflexivity].
  cbn [app]. apply run_eta.
Qed.

Lemma TickComponent_frame (World : UWorld) (DeltaTime : Q) (n : nat) (b : USteamAIBridge) :
  let r := run (TickComponent World DeltaTime) n b in
  Config (Final r) = Config b /\ bIsInitialized (Final r) = bIsInitialized b
  /\ LastGCTime (Final r)
     = if bIsInitialized b && GCDue World b then GetTimeSeconds World else LastGCTime b.
Proof.
  unfold TickComponent. rewrite run_bind.
  cbn [Eff.get run Returned Reads Final Emitted when].
  destruct (bIsInitialized b) eqn:Hi; [| cbn; now rewrite Hi].
  unfold when. rewrite run_bind. cbn [Returned Reads Final Emitted andb].
  pose proof (UpdatePerformanceStats_frame DeltaTime n b) as (Hn & _ & Hc & Hi' & Hg).
  cbn zeta in *.
  set (r1 := run (UpdatePerformanceStats DeltaTime) n b) in *. clearbody r1.
  rewrite PerformPeriodicMaintenance_run.
  assert (Hdue : GCDue World (Final r1) = GCDue World b)
    by (unfold GCDue; now rewrite Hc, Hg).
  rewrite Hdue. destruct (GCDue World b).
  - pose proof (ForceGarbageCollection_frame World (Reads r1) (Final r1)) as (Fc & Fi & Fg).
    cbn zeta in *. rewrite Fc, Fi, Fg, Hc, Hi'. easy.
  - cbn. rewrite Hc, Hi', Hg. easy.
Qed.

Lemma Spaced_cons (d t : Q) (l : list Q) :
  Spaced d l -> (forall t', head l = Some t' -> (d <= t' - t)%Q) -> Spaced d (t :: l).
Proof. destruct l as [|t' l]; cbn; [easy |]. intros Hs Hh. split; [now apply Hh | exact Hs]. Qed.

Lemma ForcedGCTimes_spaced (Frames : list (UWorld * Q)) :
  forall (n : nat) (b : USteamAIBridge),
    Spaced (GarbageCollectionInterval (Config b)) (ForcedGCTimes Frames n b)
    /\ (forall t, head (ForcedGCTimes Frames n b) = Some t ->
          (GarbageCollectionInterval (Config b) <= t - LastGCTime b)%Q).
Proof.
  induction Frames as [|[World DeltaTime] Frames IH]; intros n b; [cbn; easy |].
  cbn [ForcedGCTimes].
  pose proof (TickComponent_frame World DeltaTime n b) as (Hc & Hi & Hg). cbn zeta in *.
  set (r := run (TickComponent World DeltaTime) n b) in *. clearbody r.
  destruct (IH (Reads r) (Final r)) as [Hs Hh]. rewrite Hc in Hs, Hh.
  destruct (bIsInitialized b && GCDue World b) eqn:Hdue; cbn [app].
  - split.
    + apply Spaced_cons; [exact Hs |]. intros t' Ht'. specialize (Hh t' Ht').
      now rewrite Hg in Hh.
    + intros t [= <-]. apply andb_prop in Hdue as [_ Hdue].
      unfold GCDue in Hdue. now apply Qle_bool_iff in Hdue.
  - split; [exact Hs |]. intros t Ht. specialize (Hh t Ht). now rewrite Hg in Hh.
Qed.

Lemma TickComponent_run (World : UWorld) (DeltaTime : Q) (n : nat) (b : USteamAIBridge) :
  bIsInitialized b = true ->
  run (TickComponent World DeltaTime) n b
  = run (UpdatePerformanceStats DeltaTime;;
         if GCDue World b then ForceGarbageCollection World else mret tt) n b.
Proof.
  intros Hi. unfold TickComponent. rewrite run_bind.
  cbn [Eff.get run Returned Reads Final Emitted]. rewrite Hi. unfold when.
  rewrite !run_bind.
  pose proof (UpdatePerformanceStats_frame DeltaTime n b) as (_ & _ & Hc & _ & Hg).
  cbn zeta in Hc, Hg.
  set (r1 := run (UpdatePerformanceStats DeltaTime) n b) in *. clearbody r1.
  rewrite PerformPeriodicMaintenance_run.
  replace (GCDue World (Final r1)) with (GCDue World b)
    by (unfold GCDue; now rewrite Hc, Hg).
  destruct (GCDue World b); reflexivity.
Qed.

(** **** The claims about callbacks, loading and the fallback engine *)

(** C3.  [RegisterAction] stores the delegate for its agent and action and
    leaves the delegates of other pairs alone; [HandleActionCallback]
    executes the delegate stored for the pair with the two data strings and
    returns its result when that delegate is bound, and otherwise logs a
    warning and returns false.  The same holds for [RegisterCondition] and
    [HandleConditionCallback]. *)
Theorem callbacks_are_dispatched
    (AgentId Name AgentData BlackboardData : string) (n : nat) (b : USteamAIBridge) :
  ((forall Callback m,
      FindAction (Final (run (RegisterAction AgentId Name Callback) m b)) AgentId Name
      = Some Callback)
   /\ (forall A' N' Callback m,
         (UE.Key A', UE.Key N') <> (UE.Key AgentId, UE.Key Name) ->
         FindAction (Final (run (RegisterAction A' N' Callback) m b)) AgentId Name
         = FindAction b AgentId Name)
   /\ (forall Target,
         FindAction b AgentId Name = Some (BoundTo Target) ->
         run (HandleActionCallback AgentId Name AgentData BlackboardData) n b
         = MkRun (ExecuteIfBound Target AgentData BlackboardData) n b
             [DelegateExecuted Target AgentData BlackboardData])
   /\ ((forall Target, FindAction b AgentId Name <> Some (BoundTo Target)) ->
        run (HandleActionCallback AgentId Name AgentData BlackboardData) n b
        = MkRun false n b
            [LogLine UE.Warning ("No action callback found for agent " +:+ AgentId
                                 +:+ ", action " +:+ Name)]))
  /\ ((forall Callback m,
         FindCondition (Final (run (RegisterCondition AgentId Name Callback) m b))
           AgentId Name = Some Callback)
      /\ (forall A' N' Callback m,
            (UE.Key A', UE.Key N') <> (UE.Key AgentId, UE.Key Name) ->
            FindCondition (Final (run (RegisterCondition A' N' Callback) m b)) AgentId Name
            = FindCondition b AgentId Name)
      /\ (forall Target,
            FindCondition b AgentId Name = Some (BoundTo Target) ->
            run (HandleConditionCallback AgentId Name AgentData BlackboardData) n b
            = MkRun (ExecuteIfBound Target AgentData BlackboardData) n b
                [DelegateExecuted Target AgentData BlackboardData])
      /\ ((forall Target, FindCondition b AgentId Name <> Some (BoundTo Target)) ->
           run (HandleConditionCallback AgentId Name AgentData BlackboardData) n b
           = MkRun false n b
               [LogLine UE.Warning ("No condition callback found for agent " +:+ AgentId
                                    +:+ ", condition " +:+ Name)])).
Proof.
  split; repeat split.
  - intros. apply FindAction_RegisterAction.
  - intros. now apply FindAction_RegisterAction_other.
  - intros. now apply HandleActionCallback_bound.
  - intros. now apply HandleActionCallback_missing.
  - intros. apply FindCondition_RegisterCondition.
  - intros. now apply FindCondition_RegisterCondition_other.
  - intros. now apply HandleConditionCallback_bound.
  - intros. now apply HandleConditionCallback_missing.
Qed.


(** C9.  [ExecuteFallbackScript] returns true and [ExecuteFallbackFunction]
    returns the empty string, whatever they are given; hence on an
    initialized component that runs the fallback engine [CreateAgent],
    [CreateBehaviorTree] and [SetAgentMemory] return false. *)
Theorem fallback_engine_results
    (Script FunctionName : string) (Parameters : list string)
    (AgentId AgentConfig TreeId TreeConfig Key Value : string)
    (n : nat) (b : USteamAIBridge) :
  Returned (run (ExecuteFallbackScript Script) n b) = true
  /\ Returned (run (ExecuteFallbackFunction FunctionName Parameters) n b) = ""
  /\ (bIsInitialized b = true -> UsesV8 b = false ->
      Returned (run (ExecuteFunction FunctionName Parameters) n b)
      = Returned (run (ExecuteFallbackFunction FunctionName Parameters) (S n) b)
      /\ UE.Contains "" "true" = false
      /\ Returned (run (CreateAgent AgentId AgentConfig) n b) = false
      /\ Returned (run (CreateBehaviorTree TreeId TreeConfig) n b) = false
      /\ Returned (run (SetAgentMemory AgentId Key Value) n b) = false).
Proof.
  split; [apply ExecuteFallbackScript_true |].
  split; [apply ExecuteFallbackFunction_empty |].
  intros Hi Hv. split; [| split; [reflexivity |]].
  - now rewrite ExecuteFunction_fallback, ExecuteFallbackFunction_empty.
  - unfold CreateAgent, CreateBehaviorTree, SetAgentMemory. rewrite !run_bind.
    cbn [mret M_mret ret run Returned]. now rewrite !ExecuteFunction_fallback.
Qed.

End Facts.

#[local] Existing Instance Sample.AIEngine.

Lemma callbacks_are_dispatched_witness :
  Returned (run (HandleActionCallback "guard-1" "patrol" "{}" "{}") 0 Sample.GuardAI) = true
  /\ Returned (run (HandleActionCallback "guard-1" "attack" "{}" "{}") 0 Sample.GuardAI)
     = false
  /\ FindAction
       (Final (run (RegisterAction "guard-2" "patrol" Unbound) 0 Sample.GuardAI))
       "guard-1" "patrol"
     = Some (BoundTo "Guard.Patrol")
  /\ Returned (run (HandleConditionCallback "guard-1" "hasTarget" "{}" "{}") 0
                 Sample.GuardAI) = true
  /\ Returned (run (HandleConditionCallback "guard-1" "hasTarget" "{}" "{}") 0 NewBridge)
     = false.
Proof.
  pose proof (callbacks_are_dispatched "guard-1" "patrol" "{}" "{}" 0 Sample.GuardAI)
    as [(_ & Hother & Hbound & _) _].
  pose proof (callbacks_are_dispatched "guard-1" "attack" "{}" "{}" 0 Sample.GuardAI)
    as [(_ & _ & _ & Hmissing) _].
  pose proof (callbacks_are_dispatched "guard-1" "hasTarget" "{}" "{}" 0 Sample.GuardAI)
    as [_ (_ & _ & Cbound & _)].
  pose proof (callbacks_are_dispatched "guard-1" "hasTarget" "{}" "{}" 0 NewBridge)
    as [_ (_ & _ & _ & Cmissing)].
  split; [| split; [| split; [| split]]].
  - rewrite (Hbound "Guard.Patrol" eq_refl). reflexivity.
  - rewrite Hmissing; [reflexivity |]. intros Target. vm_compute. discriminate.
  - rewrite (Hother "guard-2" "patrol" Unbound 0%nat); [reflexivity |].
    vm_compute. discriminate.
  - rewrite (Cbound "Guard.Patrol" eq_refl). reflexivity.
  - rewrite Cmissing; [reflexivity |]. intros Target. vm_compute. discriminate.
Defined.


Lemma fallback_engine_results_witness :
  Returned (run (@CreateAgent Sample.AIEngine "guard-1" "{}") 0 Sample.InitializedAI)
  = false
  /\ Returned (run (@CreateBehaviorTree Sample.AIEngine "tree" "{}") 0 Sample.InitializedAI)
     = false
  /\ Returned (run (@SetAgentMemory Sample.AIEngine "guard-1" "hp" "3") 0
                 Sample.InitializedAI) = false.
Proof.
  pose proof (@fallback_engine_results Sample.AIEngine "" "" [] "guard-1" "{}" "tree" "{}"
                "hp" "3" 0 Sample.InitializedAI) as (_ & _ & H).
  destruct (H eq_refl eq_refl) as (_ & _ & H1 & H2 & H3).
  exact (conj H1 (conj H2 H3)).
Defined.

End SteamAIFacts.

(* ===================================================================== *)
(** ** DataVisualizationBridge: facts *)
(* ===================================================================== *)

Module DataVizFacts.
Import Eff EffFacts DataViz.
Section Facts.
Context {E : Engine}.
#[local] Arguments String.append !s1 s2 : simpl nomatch.

Lemma set_JavaScriptContext_id (b : UDataVisualizationBridge) :
  set_JavaScriptContext (JavaScriptContext b) b = b.
Proof. now destruct b. Qed.

Lemma set_JavaScriptContext_twice (c c' : option FV8Context) (b : UDataVisualizationBridge) :
  set_JavaScriptContext c' (set_JavaScriptContext c b) = set_JavaScriptContext c' b.
Proof. reflexivity. Qed.

(** What a call of [ExecuteJavaScript] does: it takes no clock reading,
    touches nothing but the context, and emits the call. *)
Lemma ExecuteJavaScript_run (Script : string) (n : nat) (b : UDataVisualizationBridge) :
  exists Result Context,
    run (ExecuteJavaScript Script) n b
    = MkRun Result n (set_JavaScriptContext Context b) [JavaScript Script Result].
Proof.
  unfold ExecuteJavaScript. cbn.
  destruct WITH_V8.
  - destruct (JavaScriptContext b) as [ctx|] eqn:Ec.
    + destruct (V8ExecuteScript ctx Script) as [Outcome ctx'] eqn:Ev. cbn.
      exists (ResultText Outcome), (Some ctx'). reflexivity.
    + cbn. exists "ERROR: JavaScript context not available", None.
      rewrite <- Ec, set_JavaScriptContext_id. reflexivity.
  - cbn. exists "ERROR: V8 not available", (JavaScriptContext b).
    now rewrite set_JavaScriptContext_id.
Qed.

Lemma ExecuteJavaScript_without_context (Script : string) (n : nat)
    (b : UDataVisualizationBridge) :
  WITH_V8 && bool_decide (is_Some (JavaScriptContext b)) = false ->
  UE.Contains (Returned (run (ExecuteJavaScript Script) n b)) "ERROR" = true.
Proof.
  unfold ExecuteJavaScript. cbn. destruct WITH_V8; [| reflexivity].
  destruct (JavaScriptContext b); [discriminate | reflexivity].
Qed.

Lemma ReportFailure_run (What ChartId Result : string) (n : nat)
    (b : UDataVisualizationBridge) :
  run (ReportFailure What ChartId Result) n b
  = MkRun tt n b
      (if UE.Contains Result "ERROR"
       then [LogLine UE.Error ("Failed to " +:+ What +:+ " '" +:+ ChartId +:+ "': " +:+ Result)]
       else []).
Proof. unfold ReportFailure, when. now destruct (UE.Contains Result "ERROR"). Qed.

(** **** Updates *)

Lemma Update_uninitialized (n : nat) (b : UDataVisualizationBridge)
    (ChartId : string) (Timestamp : Z) (Value : Q)
    (Data : FJsonObjectPtr) (Array : list (option FJsonValue)) :
  bIsInitialized b = false ->
  run (UpdateChart ChartId Timestamp Value) n b = MkRun tt n b []
  /\ run (UpdateChartMultiData ChartId Data) n b = MkRun tt n b []
  /\ run (UpdateChartArray ChartId Array) n b = MkRun tt n b [].
Proof.
  intros H. unfold UpdateChart, UpdateChartMultiData, UpdateChartArray.
  rewrite !run_bind. cbn [Eff.get run Returned Reads Final Emitted]. rewrite H. easy.
Qed.

Lemma Update_batched (n : nat) (b : UDataVisualizationBridge)
    (ChartId : string) (Timestamp : Z) (Value : Q)
    (Data : FJsonObjectPtr) (Array : list (option FJsonValue)) :
  bIsInitialized b = true -> bEnableBatchUpdates b = true ->
  let Queued Method Text :=
    MkRun tt (S n)
      (set_PendingUpdates
         (PendingUpdates b ++ [MkUpdate ChartId Method Text (Seconds n)])%list b)
      (@nil Event) in
  run (UpdateChart ChartId Timestamp Value) n b
  = Queued "updateSingleData" (SingleData Timestamp Value)
  /\ run (UpdateChartMultiData ChartId Data) n b
     = Queued "updateMultiData" (JsonObjectToString Data)
  /\ run (UpdateChartArray ChartId Array) n b
     = Queued "updateArrayData" (JsonValueArrayToString Array).
Proof.
  intros Hi Hb. unfold UpdateChart, UpdateChartMultiData, UpdateChartArray.
  rewrite !run_bind. cbn [Eff.get run Returned Reads Final Emitted]. rewrite Hi, Hb. easy.
Qed.

Lemma Immediate_run (Script What ChartId : string) (n : nat) (b : UDataVisualizationBridge) :
  exists Result Context,
    run (Result ← ExecuteJavaScript Script; ReportFailure What ChartId Result) n b
    = MkRun tt n (set_JavaScriptContext Context b)
        (JavaScript Script Result
           :: (if UE.Contains Result "ERROR"
               then [LogLine UE.Error ("Failed to " +:+ What +:+ " '" +:+ ChartId
                                       +:+ "': " +:+ Result)]
               else [])).
Proof.
  destruct (ExecuteJavaScript_run Script n b) as (Result & Context & Hr).
  exists Result, Context. rewrite run_bind, Hr. cbn [Returned Reads Final Emitted].
  now rewrite ReportFailure_run.
Qed.

(** **** Grouping of the queue *)

Lemma FStringEq_Key (a c : string) : UE.FStringEq a c = true <-> UE.Key a = UE.Key c.
Proof. unfold UE.FStringEq, UE.Key. apply String.eqb_eq. Qed.

Lemma FStringEq_false (a c : string) : UE.FStringEq a c = false <-> UE.Key a <> UE.Key c.
Proof. unfold UE.FStringEq, UE.Key. apply String.eqb_neq. Qed.

Lemma UpdatesFor_snoc (Id : string) (l : list FBatchUpdateData) (u : FBatchUpdateData) :
  UpdatesFor Id (l ++ [u])
  = (UpdatesFor Id l ++ if UE.FStringEq Id (ChartId u) then [u] else [])%list.
Proof.
  unfold UpdatesFor. rewrite filter_app. f_equal.
  rewrite filter_cons, filter_nil.
  destruct (UE.FStringEq Id (ChartId u)) eqn:Eq; case_decide; congruence.
Qed.

Lemma existsb_Key (Ids : list string) (Id : string) :
  existsb (fun c => UE.FStringEq c Id) Ids = true <-> In (UE.Key Id) (map UE.Key Ids).
Proof.
  rewrite existsb_exists, in_map_iff. split.
  - intros (c & Hc & Heq). exists c. split; [now apply FStringEq_Key | exact Hc].
  - intros (c & Heq & Hc). exists c. split; [exact Hc | now apply FStringEq_Key].
Qed.

Lemma GroupedContains_map (f : string -> list FBatchUpdateData) (Ids : list string)
    (Id : string) :
  GroupedContains (map (fun c => (c, f c)) Ids) Id
  = existsb (fun c => UE.FStringEq c Id) Ids.
Proof. induction Ids as [|c Ids IH]; [reflexivity |]. cbn. now rewrite IH. Qed.

Lemma GroupedAppend_map (Ids : list string) (l : list FBatchUpdateData)
    (u : FBatchUpdateData) :
  List.NoDup (map UE.Key Ids) ->
  GroupedAppend (map (fun c => (c, UpdatesFor c l)) Ids) (ChartId u) u
  = map (fun c => (c, UpdatesFor c (l ++ [u]))) Ids.
Proof.
  induction Ids as [|c Ids IH]; intros Hnd; [reflexivity |].
  cbn [map GroupedAppend]. inversion Hnd as [|? ? Hnotin Hnd']; subst.
  rewrite UpdatesFor_snoc.
  destruct (UE.FStringEq c (ChartId u)) eqn:Eq.
  - f_equal. apply map_ext_in. intros c' Hc'. rewrite UpdatesFor_snoc.
    destruct (UE.FStringEq c' (ChartId u)) eqn:Eq'; [| now rewrite app_nil_r].
    exfalso. apply Hnotin. apply FStringEq_Key in Eq, Eq'. rewrite Eq, <- Eq'.
    now apply in_map.
  - rewrite app_nil_r. f_equal. now apply IH.
Qed.

Lemma DistinctIds_snoc (l : list FBatchUpdateData) (u : FBatchUpdateData) :
  DistinctIds (l ++ [u])
  = if existsb (fun c => UE.FStringEq c (ChartId u)) (DistinctIds l) then DistinctIds l
    else (DistinctIds l ++ [ChartId u])%list.
Proof. unfold DistinctIds. now rewrite fold_left_app. Qed.

Lemma DistinctIds_keys (l : list FBatchUpdateData) :
  List.NoDup (map UE.Key (DistinctIds l))
  /\ (forall u, In u l -> In (UE.Key (ChartId u)) (map UE.Key (DistinctIds l))).
Proof.
  induction l as [|u l [IHn IHc]] using rev_ind; [split; [constructor | intros ? []] |].
  rewrite DistinctIds_snoc.
  destruct (existsb _ _) eqn:Ex.
  - split; [exact IHn |]. intros u' Hu'. apply in_app_or in Hu' as [Hu' | [<- | []]].
    + now apply IHc.
    + now apply existsb_Key.
  - assert (Hnot : ~ In (UE.Key (ChartId u)) (map UE.Key (DistinctIds l))).
    { intros Hin. apply existsb_Key in Hin. congruence. }
    rewrite map_app. cbn [map]. split.
    + apply NoDup_app_remove_l with (l := []). cbn.
      apply Permutation.Permutation_NoDup with (l := UE.Key (ChartId u) :: map UE.Key (DistinctIds l)).
      * apply Permutation.Permutation_cons_append.
      * now constructor.
    + intros u' Hu'. apply in_or_app. apply in_app_or in Hu' as [Hu' | [<- | []]].
      * left. now apply IHc.
      * right. now left.
Qed.

Lemma UpdatesFor_absent (Id : string) (l : list FBatchUpdateData) :
  ~ In (UE.Key Id) (map UE.Key (DistinctIds l)) -> UpdatesFor Id l = [].
Proof.
  intros Hnot. unfold UpdatesFor.
  induction l as [|u l IH] using rev_ind; [reflexivity |].
  pose proof (proj2 (DistinctIds_keys (l ++ [u]))) as Hc.
  rewrite filter_app, filter_cons, filter_nil.
  assert (Hu : UE.FStringEq Id (ChartId u) = false).
  { apply FStringEq_false. intros Heq. apply Hnot. rewrite Heq. apply Hc.
    apply in_or_app. right. now left. }
  case_decide; [congruence |]. rewrite app_nil_r.
  apply IH. intros Hin. apply Hnot. rewrite DistinctIds_snoc.
  destruct (existsb _ _); [exact Hin |]. rewrite map_app. apply in_or_app. now left.
Qed.

(** The grouping loop: one entry per chart, in order of first appearance,
    holding that chart's updates in queue order. *)
Lemma GroupUpdates_spec (l : list FBatchUpdateData) :
  GroupUpdates l = map (fun c => (c, UpdatesFor c l)) (DistinctIds l).
Proof.
  induction l as [|u l IH] using rev_ind; [reflexivity |].
  unfold GroupUpdates in *. rewrite fold_left_app. cbn [fold_left]. rewrite IH.
  unfold GroupStep. rewrite GroupedContains_map, DistinctIds_snoc.
  destruct (DistinctIds_keys l) as [Hnd Hcov].
  destruct (existsb _ _) eqn:Ex; cbn [negb].
  - now apply GroupedAppend_map.
  - assert (Hnot : ~ In (UE.Key (ChartId u)) (map UE.Key (DistinctIds l))).
    { intros Hin. apply existsb_Key in Hin. congruence. }
    replace [(ChartId u, @nil FBatchUpdateData)]
      with (map (fun c => (c, UpdatesFor c l)) [ChartId u])
      by (cbn; now rewrite (UpdatesFor_absent (ChartId u) l Hnot)).
    rewrite <- map_app. apply GroupedAppend_map.
    pose proof (proj1 (DistinctIds_keys (l ++ [u]))) as Hnd'.
    rewrite DistinctIds_snoc, Ex in Hnd'. exact Hnd'.
Qed.

(** **** Flushing the queue *)

Lemma fold_left_append (f : FBatchUpdateData -> string) (l : list FBatchUpdateData)
    (acc : string) :
  fold_left (fun Script Update => Script +:+ f Update) l acc
  = acc +:+ String.concat "" (map f l).
Proof.
  revert acc. induction l as [|u l IH]; intros acc; cbn [fold_left map].
  - cbn. now rewrite UEFacts.append_nil_r.
  - now rewrite IH, UEFacts.append_assoc, UEFacts.concat_cons.
Qed.

Lemma BatchScript_Bracketed (ChartId : string) (Updates : list FBatchUpdateData) :
  BatchScript ChartId Updates = Bracketed ChartId (map (BatchCall ChartId) Updates).
Proof.
  unfold BatchScript, Bracketed. now rewrite fold_left_append, UEFacts.append_assoc.
Qed.

Lemma ProcessChartUpdates_run (ChartUpdates : string * list FBatchUpdateData) (n : nat)
    (b : UDataVisualizationBridge) :
  exists Context Output,
    run (ProcessChartUpdates ChartUpdates) n b
    = MkRun tt n (set_JavaScriptContext Context b) Output
    /\ ScriptsOf Output = [BatchScript (fst ChartUpdates) (snd ChartUpdates)].
Proof.
  destruct ChartUpdates as [Id Updates]. unfold ProcessChartUpdates.
  destruct (Immediate_run (BatchScript Id Updates) "process batched updates for" Id n b)
    as (Result & Context & ->).
  exists Context. eexists. split; [reflexivity |].
  cbn [ScriptsOf fst snd]. destruct (UE.Contains Result "ERROR"); reflexivity.
Qed.

Lemma ScriptsOf_app (o1 o2 : list Event) :
  ScriptsOf (o1 ++ o2) = (ScriptsOf o1 ++ ScriptsOf o2)%list.
Proof.
  induction o1 as [|[v m | sc r] o1 IH]; cbn; [reflexivity | exact IH | now rewrite IH].
Qed.

Lemma ForEach_ProcessChartUpdates_run (Grouped : FGroupedUpdates) :
  forall (n : nat) (b : UDataVisualizationBridge),
  exists Context Output,
    run (ForEach Grouped ProcessChartUpdates) n b
    = MkRun tt n (set_JavaScriptContext Context b) Output
    /\ ScriptsOf Output = map (fun g => BatchScript (fst g) (snd g)) Grouped.
Proof.
  induction Grouped as [|g Grouped IH]; intros n b.
  - exists (JavaScriptContext b), []. cbn. now rewrite set_JavaScriptContext_id.
  - cbn [ForEach fold_right]. fold (ForEach Grouped ProcessChartUpdates).
    change (bind ?k ?c) with (c ≫= k). rewrite run_bind.
    destruct (ProcessChartUpdates_run g n b) as (c1 & o1 & -> & Hs1).
    cbn [Returned Reads Final Emitted].
    destruct (IH n (set_JavaScriptContext c1 b)) as (c2 & o2 & -> & Hs2).
    cbn [Returned Reads Final Emitted]. exists c2, (o1 ++ o2)%list.
    split; [reflexivity |]. now rewrite ScriptsOf_app, Hs1, Hs2.
Qed.

Lemma ProcessBatchedUpdates_empty (n : nat) (b : UDataVisualizationBridge) :
  PendingUpdates b = [] -> run ProcessBatchedUpdates n b = MkRun tt n b [].
Proof.
  intros H. unfold ProcessBatchedUpdates. rewrite run_bind.
  cbn [Eff.get run Returned Reads Final Emitted]. now rewrite H.
Qed.

Lemma ProcessBatchedUpdates_run (n : nat) (b : UDataVisualizationBridge) :
  PendingUpdates b <> [] ->
  exists Context Output,
    run ProcessBatchedUpdates n b
    = MkRun tt n (set_PendingUpdates [] (set_JavaScriptContext Context b)) Output
    /\ ScriptsOf Output
       = map (fun g => BatchScript (fst g) (snd g)) (GroupUpdates (PendingUpdates b)).
Proof.
  intros H. unfold ProcessBatchedUpdates. rewrite run_bind.
  cbn [Eff.get run Returned Reads Final Emitted].
  destruct (PendingUpdates b) as [|u l] eqn:Ep; [congruence |]. rewrite run_bind.
  destruct (ForEach_ProcessChartUpdates_run (GroupUpdates (u :: l)) n b)
    as (c & o & -> & Hs).
  cbn. exists c, o. now rewrite app_nil_r.
Qed.

(** Whatever is queued, a flush takes no clock reading and leaves
    everything but the context and the queue alone. *)
Lemma ProcessBatchedUpdates_frame (n : nat) (b : UDataVisualizationBridge) :
  exists Context Output,
    run ProcessBatchedUpdates n b
    = MkRun tt n (set_PendingUpdates [] (set_JavaScriptContext Context b)) Output.
Proof.
  destruct (PendingUpdates b) as [|u l] eqn:Ep.
  - rewrite ProcessBatchedUpdates_empty by exact Ep.
    exists (JavaScriptContext b), []. rewrite set_JavaScriptContext_id.
    f_equal. destruct b; cbn in *. now subst.
  - destruct (ProcessBatchedUpdates_run n b) as (c & o & -> & _); [congruence | eauto].
Qed.

(** **** The chart table *)

Lemma CreateChartWith_uninitialized (Function Kind ChartId : string)
    (Config : FJsonObjectPtr) (n : nat) (b : UDataVisualizationBridge) :
  bIsInitialized b = false ->
  run (CreateChartWith Function Kind ChartId Config) n b = MkRun tt n b [].
Proof.
  intros H. unfold CreateChartWith. rewrite run_bind.
  cbn [Eff.get run Returned Reads Final Emitted]. now rewrite H.
Qed.

Lemma CreateChartWith_initialized (Function Kind ChartId : string)
    (Config : FJsonObjectPtr) (n : nat) (b : UDataVisualizationBridge) :
  bIsInitialized b = true ->
  exists Result Context Line,
    run (CreateChartWith Function Kind ChartId Config) n b
    = MkRun tt n
        (set_Charts
           (if UE.Contains Result "ERROR" then Charts b
            else UE.TMapAdd ChartId Config (Charts b))
           (set_JavaScriptContext Context b))
        [JavaScript (CreateChartScript Function ChartId (JsonObjectToString Config)) Result;
         Line].
Proof.
  intros H. unfold CreateChartWith. rewrite run_bind.
  cbn [Eff.get run Returned Reads Final Emitted]. rewrite H. cbn [negb].
  rewrite run_bind.
  destruct (ExecuteJavaScript_run
              (CreateChartScript Function ChartId (JsonObjectToString Config)) n b)
    as (Result & Context & ->).
  cbn [Returned Reads Final Emitted]. exists Result, Context.
  destruct (UE.Contains Result "ERROR"); cbn; eexists; reflexivity.
Qed.

Lemma RemoveChart_uninitialized (ChartId : string) (n : nat) (b : UDataVisualizationBridge) :
  bIsInitialized b = false -> run (RemoveChart ChartId) n b = MkRun tt n b [].
Proof.
  intros H. unfold RemoveChart. rewrite run_bind.
  cbn [Eff.get run Returned Reads Final Emitted]. now rewrite H.
Qed.

Lemma RemoveChart_initialized (ChartId : string) (n : nat) (b : UDataVisualizationBridge) :
  bIsInitialized b = true ->
  exists Result Context Line,
    run (RemoveChart ChartId) n b
    = MkRun tt n
        (set_Charts
           (if UE.Contains Result "ERROR" then Charts b
            else UE.TMapRemove ChartId (Charts b))
           (set_JavaScriptContext Context b))
        [JavaScript ("global.vizManager.removeChart('" +:+ ChartId +:+ "');") Result; Line].
Proof.
  intros H. unfold RemoveChart. rewrite run_bind.
  cbn [Eff.get run Returned Reads Final Emitted]. rewrite H. cbn [negb].
  rewrite run_bind.
  destruct (ExecuteJavaScript_run
              ("global.vizManager.removeChart('" +:+ ChartId +:+ "');") n b)
    as (Result & Context & ->).
  cbn [Returned Reads Final Emitted]. exists Result, Context.
  destruct (UE.Contains Result "ERROR"); cbn; eexists; reflexivity.
Qed.

Lemma ClearAllCharts_uninitialized (n : nat) (b : UDataVisualizationBridge) :
  bIsInitialized b = false -> run ClearAllCharts n b = MkRun tt n b [].
Proof.
  intros H. unfold ClearAllCharts. rewrite run_bind.
  cbn [Eff.get run Returned Reads Final Emitted]. now rewrite H.
Qed.

Lemma ClearAllCharts_initialized (n : nat) (b : UDataVisualizationBridge) :
  bIsInitialized b = true ->
  exists Result Context Line,
    run ClearAllCharts n b
    = MkRun tt n
        (if UE.Contains Result "ERROR" then set_JavaScriptContext Context b
         else set_Dashboards ∅ (set_Charts ∅ (set_JavaScriptContext Context b)))
        [JavaScript "global.vizManager.clearAllCharts();" Result; Line].
Proof.
  intros H. unfold ClearAllCharts. rewrite run_bind.
  cbn [Eff.get run Returned Reads Final Emitted]. rewrite H. cbn [negb].
  rewrite run_bind.
  destruct (ExecuteJavaScript_run "global.vizManager.clearAllCharts();" n b)
    as (Result & Context & ->).
  cbn [Returned Reads Final Emitted]. exists Result, Context.
  destruct (UE.Contains Result "ERROR"); cbn; eexists; reflexivity.
Qed.

Lemma ClearAllCharts_PendingUpdates (n : nat) (b : UDataVisualizationBridge) :
  PendingUpdates (Final (run ClearAllCharts n b)) = PendingUpdates b.
Proof.
  destruct (bIsInitialized b) eqn:H.
  - destruct (ClearAllCharts_initialized n b H) as (Result & Context & Line & ->).
    cbn [Final]. destruct (UE.Contains Result "ERROR"); reflexivity.
  - now rewrite ClearAllCharts_uninitialized.
Qed.

Lemma Dispose_clears (n : nat) (b : UDataVisualizationBridge) :
  let b' := Final (run Dispose n b) in
  Charts b' = ∅ /\ Dashboards b' = ∅ /\ PendingUpdates b' = []
  /\ bIsInitialized b' = false.
Proof.
  unfold Dispose. rewrite run_bind.
  cbn [Eff.get run Returned Reads Final Emitted]. rewrite run_bind.
  destruct (bIsInitialized b) eqn:H; [| cbn; now rewrite H].
  unfold when at 1. cbn [Eff.modify run Returned Reads Final Emitted mbind M_mbind bind].
  repeat split.
Qed.

(** **** Export *)

Lemma Export_uninitialized (ChartId Format : string) (n : nat)
    (b : UDataVisualizationBridge) :
  bIsInitialized b = false ->
  run (ExportChartAsImage ChartId Format) n b = MkRun "" n b []
  /\ run (ExportChartAsData ChartId Format) n b = MkRun "" n b [].
Proof.
  intros H. unfold ExportChartAsImage, ExportChartAsData. rewrite !run_bind.
  cbn [Eff.get run Returned Reads Final Emitted]. now rewrite H.
Qed.

Lemma Export_initialized (Function ChartId Format : string) (n : nat)
    (b : UDataVisualizationBridge) :
  exists Result Context,
    run (Result ← ExecuteJavaScript (ExportScript Function ChartId Format);
         mret (if UE.Contains Result "ERROR" then "" else Result)) n b
    = MkRun (if UE.Contains Result "ERROR" then "" else Result) n
        (set_JavaScriptContext Context b)
        [JavaScript (ExportScript Function ChartId Format) Result].
Proof.
  rewrite run_bind.
  destruct (ExecuteJavaScript_run (ExportScript Function ChartId Format) n b)
    as (Result & Context & ->).
  exists Result, Context. reflexivity.
Qed.

(** **** Initialization *)

Lemma Initialize_initialized (n : nat) (b : UDataVisualizationBridge) :
  bIsInitialized b = true -> run Initialize n b = MkRun true n b [].
Proof.
  intros H. unfold Initialize. rewrite run_bind.
  cbn [Eff.get run Returned Reads Final Emitted]. now rewrite H.
Qed.

Lemma InitializeJavaScriptEngine_frame (n : nat) (b : UDataVisualizationBridge) :
  bIsInitialized (Final (run InitializeJavaScriptEngine n b)) = bIsInitialized b.
Proof.
  unfold InitializeJavaScriptEngine. destruct WITH_V8; [| reflexivity].
  rewrite run_bind. cbn [Eff.modify run Returned Reads Final Emitted].
  destruct V8EngineInitialize; [| reflexivity]. cbn [negb].
  rewrite run_bind. cbn [Eff.modify run Returned Reads Final Emitted].
  destruct V8CreateContext as [ctx|]; [| reflexivity].
  destruct (V8ExecuteScript _ UtilityScript) as [[v | what] ctx']; reflexivity.
Qed.

Lemma LoadDataVisualizationPackage_frame (n : nat) (b : UDataVisualizationBridge) :
  bIsInitialized (Final (run LoadDataVisualizationPackage n b)) = bIsInitialized b.
Proof.
  unfold LoadDataVisualizationPackage.
  destruct (FileExists MainFile); [| reflexivity]. cbn [negb].
  destruct (LoadFileToString MainFile) as [PackageCode|]; [| reflexivity].
  rewrite run_bind.
  destruct (ExecuteJavaScript_run PackageCode n b) as (R1 & c1 & ->).
  cbn [Returned Reads Final Emitted].
  destruct (UE.Contains R1 "ERROR"); [reflexivity |].
  rewrite run_bind. cbn [Eff.get run Returned Reads Final Emitted]. rewrite run_bind.
  destruct (ExecuteJavaScript_run
              (InitScript (bEnableDebugMode (set_JavaScriptContext c1 b))
                 (bAutoCleanup (set_JavaScriptContext c1 b))
                 (MemoryLimit (set_JavaScriptContext c1 b))
                 (MaxDataPointsPerChart (set_JavaScriptContext c1 b)))
              n (set_JavaScriptContext c1 b)) as (R2 & c2 & ->).
  cbn [Returned Reads Final Emitted].
  destruct (UE.Contains R2 "ERROR"); reflexivity.
Qed.

Lemma Initialize_fails (n : nat) (b : UDataVisualizationBridge) :
  bIsInitialized b = false ->
  let r1 := run InitializeJavaScriptEngine n b in
  Returned r1 = false
  \/ Returned (run LoadDataVisualizationPackage (Reads r1) (Final r1)) = false ->
  Returned (run Initialize n b) = false
  /\ bIsInitialized (Final (run Initialize n b)) = false.
Proof.
  intros H r1 Hfail. unfold Initialize. rewrite run_bind.
  cbn [Eff.get run Returned Reads Final Emitted]. rewrite H.
  do 2 (rewrite run_bind; cbn [UE_LOG Eff.emit run Returned Reads Final Emitted]).
  fold r1.
  pose proof (InitializeJavaScriptEngine_frame n b) as Hf1. fold r1 in Hf1.
  destruct (Returned r1) eqn:E1; cbn [negb].
  - destruct Hfail as [? | Hfail]; [discriminate |].
    rewrite run_bind.
    pose proof (LoadDataVisualizationPackage_frame (Reads r1) (Final r1)) as Hf2.
    destruct (run LoadDataVisualizationPackage (Reads r1) (Final r1)) as [ok n2 b2 o2].
    cbn in Hfail, Hf2 |- *. subst ok. cbn. split; [reflexivity | congruence].
  - cbn. split; [reflexivity | congruence].
Qed.

(** **** The frame loop *)

Lemma Tick_disabled (DeltaTime : Q) (n : nat) (b : UDataVisualizationBridge) :
  bEnableBatchUpdates b = false -> run (Tick DeltaTime) n b = MkRun tt n b [].
Proof.
  intros H. unfold Tick. rewrite run_bind.
  cbn [Eff.get run Returned Reads Final Emitted]. now rewrite H.
Qed.

Lemma Tick_early (DeltaTime : Q) (n : nat) (b : UDataVisualizationBridge) :
  bEnableBatchUpdates b = true ->
  Qle_bool (BatchInterval b) (Seconds n - LastBatchTime b) = false ->
  run (Tick DeltaTime) n b = MkRun tt (S n) b [].
Proof.
  intros H Hq. unfold Tick. rewrite run_bind.
  cbn [Eff.get run Returned Reads Final Emitted]. rewrite H. rewrite run_bind.
  cbn [Eff.readClock run Returned Reads Final Emitted]. now rewrite Hq.
Qed.

Lemma Tick_due (DeltaTime : Q) (n : nat) (b : UDataVisualizationBridge) :
  bEnableBatchUpdates b = true ->
  Qle_bool (BatchInterval b) (Seconds n - LastBatchTime b) = true ->
  run (Tick DeltaTime) n b
  = MkRun tt (S (S n))
      (set_LastBatchTime (Seconds (S n)) (Final (run ProcessBatchedUpdates (S n) b)))
      (Emitted (run ProcessBatchedUpdates (S n) b)).
Proof.
  intros H Hq. unfold Tick. rewrite run_bind.
  cbn [Eff.get run Returned Reads Final Emitted]. rewrite H. rewrite run_bind.
  cbn [Eff.readClock run Returned Reads Final Emitted]. rewrite Hq.
  unfold when. rewrite run_bind.
  destruct (ProcessBatchedUpdates_frame (S n) b) as (c & o & ->).
  cbn. now rewrite app_nil_r.
Qed.

(** **** The claims about updates, flushing and the chart table *)


Lemma UnknownMethodViz_scripts :
  ScriptsOf (Emitted (run (@ProcessBatchedUpdates Sample.VizEngine) 0
                        Sample.UnknownMethodViz))
  = [StartBatch "fps" +:+ CommitBatch "fps"].
Proof. vm_compute. reflexivity. Qed.

(** The queue of the sample is the one [ApplyBatchedUpdates] builds. *)
Lemma UnknownMethodViz_reached :
  run (@ApplyBatchedUpdates Sample.VizEngine [Sample.UnknownMethodUpdate]) 0
    Sample.InitializedViz
  = run (@ProcessBatchedUpdates Sample.VizEngine) 0 Sample.UnknownMethodViz.
Proof. vm_compute. reflexivity. Qed.


Lemma BatchCall_known (Id : string) (Update : FBatchUpdateData) :
  KnownMethod Update = true -> BatchCall Id Update = KnownCall Id Update.
Proof.
  unfold KnownMethod, BatchCall, KnownCall, BatchFunction.
  destruct (UE.FStringEq (Method Update) "updateSingleData"); [reflexivity |].
  destruct (UE.FStringEq (Method Update) "updateMultiData"); [reflexivity |].
  destruct (UE.FStringEq (Method Update) "updateArrayData"); [reflexivity | discriminate].
Qed.

Lemma UpdatesFor_In (Id : string) (l : list FBatchUpdateData) (u : FBatchUpdateData) :
  In u (UpdatesFor Id l) -> In u l.
Proof.
  unfold UpdatesFor. rewrite <- !list_elem_of_In, list_elem_of_filter. tauto.
Qed.


(** C10, as the spec states it, fails: [ClearAllCharts] leaves the chart
    table as it is when its script is rejected, and leaves the queued
    updates in place when its script succeeds. *)
Lemma ClearAllCharts_does_not_empty :
  Charts (Final (run (@ClearAllCharts Sample.ClearFailsEngine) 0 Sample.OneChartViz)) <> ∅
  /\ PendingUpdates (Final (run (@ClearAllCharts Sample.VizEngine) 0 Sample.QueuedViz))
     <> [].
Proof.
  split.
  - intros Heq.
    assert (Hin : UE.TMapContains
                    (Charts (Final (run (@ClearAllCharts Sample.ClearFailsEngine) 0
                                      Sample.OneChartViz))) "fps" = true)
      by (vm_compute; reflexivity).
    rewrite Heq in Hin. discriminate Hin.
  - intros Heq.
    assert (Hlen : length (PendingUpdates
                             (Final (run (@ClearAllCharts Sample.VizEngine) 0
                                       Sample.QueuedViz))) = 3%nat)
      by (vm_compute; reflexivity).
    rewrite Heq in Hlen. discriminate Hlen.
Qed.

(** C10, amended.  Each of the five chart creation methods adds [ChartId]
    to [Charts] when the component is initialized and the result of its
    script does not contain ERROR, and otherwise leaves [Charts] as it is;
    [RemoveChart] removes [ChartId] under the same two conditions and
    otherwise leaves [Charts] as it is.  [ClearAllCharts] empties [Charts]
    and [Dashboards] under the same two conditions and otherwise leaves
    them as they are.  [Dispose] leaves [Charts], [Dashboards] and
    [PendingUpdates] empty. *)
Theorem charts_mirror_creations
    (ChartId : string) (Config : FJsonObjectPtr) (n : nat) (b : UDataVisualizationBridge) :
  (forall Create,
      In Create [CreateLineChart; CreateBarChart; CreatePieChart; CreateHeatmap; CreateGauge] ->
      (bIsInitialized b = false -> run (Create ChartId Config) n b = MkRun tt n b [])
      /\ (bIsInitialized b = true ->
          exists Script Result Context Line,
            run (Create ChartId Config) n b
            = MkRun tt n
                (set_Charts
                   (if UE.Contains Result "ERROR" then Charts b
                    else UE.TMapAdd ChartId Config (Charts b))
                   (set_JavaScriptContext Context b))
                [JavaScript Script Result; Line]))
  /\ ((bIsInitialized b = false -> run (RemoveChart ChartId) n b = MkRun tt n b [])
      /\ (bIsInitialized b = true ->
          exists Script Result Context Line,
            run (RemoveChart ChartId) n b
            = MkRun tt n
                (set_Charts
                   (if UE.Contains Result "ERROR" then Charts b
                    else UE.TMapRemove ChartId (Charts b))
                   (set_JavaScriptContext Context b))
                [JavaScript Script Result; Line]))
  /\ ((bIsInitialized b = false ->
       Emitted (run ClearAllCharts n b) = []
       /\ Charts (Final (run ClearAllCharts n b)) = Charts b
       /\ Dashboards (Final (run ClearAllCharts n b)) = Dashboards b)
      /\ (bIsInitialized b = true ->
          exists Script Result Line,
            Emitted (run ClearAllCharts n b) = [JavaScript Script Result; Line]
            /\ Charts (Final (run ClearAllCharts n b))
               = (if UE.Contains Result "ERROR" then Charts b else ∅)
            /\ Dashboards (Final (run ClearAllCharts n b))
               = (if UE.Contains Result "ERROR" then Dashboards b else ∅)))
  /\ (Charts (Final (run Dispose n b)) = ∅
      /\ Dashboards (Final (run Dispose n b)) = ∅
      /\ PendingUpdates (Final (run Dispose n b)) = []).
Proof.
  split; [| split; [| split]].
  - intros Create HIn.
    assert (exists Function Kind, Create = CreateChartWith Function Kind)
      as (Function & Kind & ->).
    { cbn in HIn. destruct HIn as [<- | [<- | [<- | [<- | [<- | []]]]]]; eexists _, _;
        reflexivity. }
    split; [now apply CreateChartWith_uninitialized |].
    intros Hi.
    destruct (CreateChartWith_initialized Function Kind ChartId Config n b Hi)
      as (Result & Context & Line & ->).
    now eexists _, Result, Context, Line.
  - split; [now apply RemoveChart_uninitialized |]. intros Hi.
    destruct (RemoveChart_initialized ChartId n b Hi) as (Result & Context & Line & ->).
    now eexists _, Result, Context, Line.
  - split.
    + intros Hu. rewrite (ClearAllCharts_uninitialized n b Hu). now cbn.
    + intros Hi.
      destruct (ClearAllCharts_initialized n b Hi) as (Result & Context & Line & ->).
      eexists _, Result, Line. cbn [Emitted Final].
      destruct (UE.Contains Result "ERROR"); now cbn.
  - pose proof (Dispose_clears n b) as (H1 & H2 & H3 & _). cbn zeta in *. easy.
Qed.

End Facts.

#[local] Existing Instance Sample.VizEngine.

(** What the sample components are. *)
Lemma InitializedViz_flags :
  bIsInitialized Sample.InitializedViz = true
  /\ bEnableBatchUpdates Sample.InitializedViz = true
  /\ PendingUpdates Sample.InitializedViz = [].
Proof. vm_compute. repeat split. Qed.

Lemma ImmediateViz_flags :
  bIsInitialized Sample.ImmediateViz = true
  /\ bEnableBatchUpdates Sample.ImmediateViz = false.
Proof. vm_compute. repeat split. Qed.

Lemma QueuedViz_queue :
  bEnableBatchUpdates Sample.QueuedViz = true
  /\ PendingUpdates Sample.QueuedViz
     = [MkUpdate "fps" "updateSingleData" (SingleData 1 1) (Seconds 0);
        MkUpdate "memory" "updateMultiData" "{}" (Seconds 1);
        MkUpdate "FPS" "updateArrayData" "[]" (Seconds 2)].
Proof. vm_compute. repeat split. Qed.

Lemma QueuedViz_scripts :
  ScriptsOf (Emitted (run ProcessBatchedUpdates 0 Sample.QueuedViz))
  = [Bracketed "fps"
       ["global.vizManager.batchUpdateSingle('fps', " +:+ SingleData 1 1 +:+ ");";
        "global.vizManager.batchUpdateArray('fps', []);"];
     Bracketed "memory" ["global.vizManager.batchUpdateMulti('memory', {});"]].
Proof. vm_compute. reflexivity. Qed.



Lemma charts_mirror_creations_witness :
  run (CreateGauge "fps" None) 0 (@NewBridge Sample.VizEngine) = MkRun tt 0%nat NewBridge []
  /\ run (RemoveChart "fps") 0 (@NewBridge Sample.VizEngine) = MkRun tt 0%nat NewBridge []
  /\ Charts (Final (run ClearAllCharts 0 (@NewBridge Sample.VizEngine)))
     = Charts (@NewBridge Sample.VizEngine)
  /\ (exists Script Result, In (JavaScript Script Result)
                              (Emitted (run (CreateGauge "fps" None) 0
                                          Sample.InitializedViz)))
  /\ (exists Script Result, In (JavaScript Script Result)
                              (Emitted (run (RemoveChart "fps") 0 Sample.InitializedViz)))
  /\ (exists Script Result, In (JavaScript Script Result)
                              (Emitted (run ClearAllCharts 0 Sample.InitializedViz))).
Proof.
  pose proof (charts_mirror_creations "fps" None 0 (@NewBridge Sample.VizEngine))
    as (Hc & (Hr & _) & (Hx & _) & _).
  pose proof (charts_mirror_creations "fps" None 0 Sample.InitializedViz)
    as (Hc' & (_ & Hr') & (_ & Hx') & _).
  pose proof (proj1 InitializedViz_flags) as Hi.
  assert (HIn : In CreateGauge
                  [CreateLineChart; CreateBarChart; CreatePieChart; CreateHeatmap;
                   CreateGauge])
    by (do 4 right; left; reflexivity).
  split; [| split; [| split; [| split; [| split]]]].
  - exact (proj1 (Hc CreateGauge HIn) eq_refl).
  - exact (Hr eq_refl).
  - exact (proj1 (proj2 (Hx eq_refl))).
  - destruct (proj2 (Hc' CreateGauge HIn) Hi) as (Script & Result & Context & Line & ->).
    exists Script, Result. now left.
  - destruct (Hr' Hi) as (Script & Result & Context & Line & ->).
    exists Script, Result. now left.
  - destruct (Hx' Hi) as (Script & Result & Line & -> & _).
    exists Script, Result. now left.
Defined.

End DataVizFacts.

(* ===================================================================== *)
(** ** Claims that span both components *)
(* ===================================================================== *)

Module BridgeFacts.
Import Eff EffFacts.
Section Facts.
Context {EA : SteamAI.Engine} {ED : DataViz.Engine}.

(** C2.  On an uninitialized component [ExecuteScript] logs an error and
    returns false, and [ExecuteFunction] logs an error and returns the
    empty string, changing nothing.  [ExportChartAsImage] and
    [ExportChartAsData] return the empty string on an uninitialized
    component, and on an initialized one they return the empty string when
    the result of their script contains ERROR (and that result otherwise). *)
Theorem failing_operations_return_false_or_empty
    (Script FunctionName : string) (Parameters : list string) (ChartId Format : string)
    (n : nat) (a : SteamAI.USteamAIBridge) (d : DataViz.UDataVisualizationBridge) :
  (SteamAI.bIsInitialized a = false ->
     run (SteamAI.ExecuteScript Script) n a
     = MkRun false n a
         [SteamAI.LogLine UE.Error "Attempting to execute script on uninitialized bridge"]
     /\ run (SteamAI.ExecuteFunction FunctionName Parameters) n a
        = MkRun "" n a
            [SteamAI.LogLine UE.Error
               "Attempting to execute function on uninitialized bridge"])
  /\ (DataViz.bIsInitialized d = false ->
      run (DataViz.ExportChartAsImage ChartId Format) n d = MkRun "" n d []
      /\ run (DataViz.ExportChartAsData ChartId Format) n d = MkRun "" n d [])
  /\ (DataViz.bIsInitialized d = true ->
      (exists Result Context,
          run (DataViz.ExportChartAsImage ChartId Format) n d
          = MkRun (if UE.Contains Result "ERROR" then "" else Result) n
              (DataViz.set_JavaScriptContext Context d)
              [DataViz.JavaScript (DataViz.ExportScript "exportAsImage" ChartId Format)
                 Result])
      /\ (exists Result Context,
             run (DataViz.ExportChartAsData ChartId Format) n d
             = MkRun (if UE.Contains Result "ERROR" then "" else Result) n
                 (DataViz.set_JavaScriptContext Context d)
                 [DataViz.JavaScript (DataViz.ExportScript "exportAsData" ChartId Format)
                    Result])).
Proof.
  split; [| split].
  - intros H. split.
    + now apply SteamAIFacts.ExecuteScript_uninitialized.
    + now apply SteamAIFacts.ExecuteFunction_uninitialized.
  - now apply DataVizFacts.Export_uninitialized.
  - intros H. unfold DataViz.ExportChartAsImage, DataViz.ExportChartAsData.
    rewrite !run_bind. cbn [Eff.get run Returned Reads Final Emitted]. rewrite H.
    cbn [negb app]. rewrite !run_eta. split; apply DataVizFacts.Export_initialized.
Qed.


(** C8.  [InitializeAI] on an initialized component returns true and changes
    nothing.  On a component that is neither initialized nor initializing,
    loading the package fails (it always does there, because [ExecuteScript]
    refuses every script while [bIsInitialized] is false), and [InitializeAI]
    returns false and leaves the component as it was, with [bIsInitialized]
    and [bInitializationInProgress] false, after broadcasting
    [OnAIInitialized] with false.  [UDataVisualizationBridge::Initialize]
    returns true and changes nothing on an initialized component, and
    returns false with [bIsInitialized] still false when starting the script
    engine or loading the package fails. *)
Theorem initialization_is_idempotent_and_fails_cleanly
    (n : nat) (a : SteamAI.USteamAIBridge) (d : DataViz.UDataVisualizationBridge) :
  (SteamAI.bIsInitialized a = true -> run SteamAI.InitializeAI n a = MkRun true n a [])
  /\ (SteamAI.bIsInitialized a = false ->
      Returned (run SteamAI.LoadSteamAIPackage n a) = false)
  /\ (SteamAI.bIsInitialized a = false -> SteamAI.bInitializationInProgress a = false ->
      exists Lines,
        run SteamAI.InitializeAI n a
        = MkRun false n a
            (Lines ++ [SteamAI.LogLine UE.Error "Failed to load Steam AI package";
                       SteamAI.OnAIInitialized false]))
  /\ (DataViz.bIsInitialized d = true -> run DataViz.Initialize n d = MkRun true n d [])
  /\ (DataViz.bIsInitialized d = false ->
      let r1 := run DataViz.InitializeJavaScriptEngine n d in
      Returned r1 = false
      \/ Returned (run DataViz.LoadDataVisualizationPackage (Reads r1) (Final r1)) = false ->
      Returned (run DataViz.Initialize n d) = false
      /\ DataViz.bIsInitialized (Final (run DataViz.Initialize n d)) = false).
Proof.
  split; [now apply SteamAIFacts.InitializeAI_initialized |].
  split.
  { intros H. destruct (SteamAIFacts.LoadSteamAIPackage_uninitialized n a H) as [l ->].
    reflexivity. }
  split; [now apply SteamAIFacts.InitializeAI_fails |].
  split; [now apply DataVizFacts.Initialize_initialized |].
  now apply DataVizFacts.Initialize_fails.
Qed.

End Facts.

Lemma failing_operations_return_false_or_empty_witness :
  (run (@SteamAI.ExecuteScript Sample.AIEngine "1 + 1") 0 SteamAI.NewBridge
   = MkRun false 0%nat SteamAI.NewBridge
       [SteamAI.LogLine UE.Error "Attempting to execute script on uninitialized bridge"]
   /\ run (@SteamAI.ExecuteFunction Sample.AIEngine "f" []) 0 SteamAI.NewBridge
      = MkRun "" 0%nat SteamAI.NewBridge
          [SteamAI.LogLine UE.Error
             "Attempting to execute function on uninitialized bridge"])
  /\ (run (@DataViz.ExportChartAsImage Sample.VizEngine "fps" "png") 0 DataViz.NewBridge
      = MkRun "" 0%nat DataViz.NewBridge []
      /\ run (@DataViz.ExportChartAsData Sample.VizEngine "fps" "png") 0 DataViz.NewBridge
         = MkRun "" 0%nat DataViz.NewBridge [])
  /\ (exists Result Context,
        run (@DataViz.ExportChartAsImage Sample.VizEngine "fps" "png") 0
          Sample.InitializedViz
        = MkRun (if UE.Contains Result "ERROR" then "" else Result) 0%nat
            (DataViz.set_JavaScriptContext Context Sample.InitializedViz)
            [DataViz.JavaScript (DataViz.ExportScript "exportAsImage" "fps" "png") Result]).
Proof.
  pose proof (@failing_operations_return_false_or_empty Sample.AIEngine Sample.VizEngine
                "1 + 1" "f" [] "fps" "png" 0 SteamAI.NewBridge DataViz.NewBridge)
    as (Ha & Hd & _).
  pose proof (@failing_operations_return_false_or_empty Sample.AIEngine Sample.VizEngine
                "1 + 1" "f" [] "fps" "png" 0 SteamAI.NewBridge Sample.InitializedViz)
    as (_ & _ & Hi).
  split; [exact (Ha eq_refl) | split; [exact (Hd eq_refl) |]].
  exact (proj1 (Hi (proj1 DataVizFacts.InitializedViz_flags))).
Defined.


Lemma initialization_is_idempotent_and_fails_cleanly_witness :
  run (@SteamAI.InitializeAI Sample.AIEngine) 0 Sample.InitializedAI
  = MkRun true 0%nat Sample.InitializedAI []
  /\ Returned (run (@SteamAI.LoadSteamAIPackage Sample.AIEngine) 0 SteamAI.NewBridge)
     = false
  /\ (exists Lines,
        run (@SteamAI.InitializeAI Sample.AIEngine) 0 SteamAI.NewBridge
        = MkRun false 0%nat SteamAI.NewBridge
            (Lines ++ [SteamAI.LogLine UE.Error "Failed to load Steam AI package";
                       SteamAI.OnAIInitialized false]))
  /\ run (@DataViz.Initialize Sample.VizEngine) 0 Sample.InitializedViz
     = MkRun true 0%nat Sample.InitializedViz []
  /\ (Returned (run (@DataViz.Initialize Sample.NoV8Engine) 0 DataViz.NewBridge) = false
      /\ DataViz.bIsInitialized
           (Final (run (@DataViz.Initialize Sample.NoV8Engine) 0 DataViz.NewBridge))
         = false)
  /\ (Returned (run (@DataViz.Initialize Sample.MissingPackageEngine) 0 DataViz.NewBridge)
      = false
      /\ DataViz.bIsInitialized
           (Final (run (@DataViz.Initialize Sample.MissingPackageEngine) 0
                     DataViz.NewBridge))
         = false).
Proof.
  pose proof (@initialization_is_idempotent_and_fails_cleanly Sample.AIEngine
                Sample.VizEngine 0 Sample.InitializedAI Sample.InitializedViz)
    as (H1 & _ & _ & H3 & _).
  pose proof (@initialization_is_idempotent_and_fails_cleanly Sample.AIEngine
                Sample.NoV8Engine 0 SteamAI.NewBridge DataViz.NewBridge)
    as (_ & Hl & H2 & _ & H4).
  pose proof (@initialization_is_idempotent_and_fails_cleanly Sample.AIEngine
                Sample.MissingPackageEngine 0 SteamAI.NewBridge DataViz.NewBridge)
    as (_ & _ & _ & _ & H5).
  split; [exact (H1 eq_refl) |].
  split; [exact (Hl eq_refl) |].
  split; [exact (H2 eq_refl eq_refl) |].
  split; [exact (H3 (proj1 DataVizFacts.InitializedViz_flags)) |].
  split.
  - apply (H4 eq_refl). left. vm_compute. reflexivity.
  - apply (H5 eq_refl). right. vm_compute. reflexivity.
Defined.

End BridgeFacts.

(* ===================================================================== *)
(** ** SteamAIBridge: facts about the rest of [Bridge.cpp] *)
(* ===================================================================== *)

Module SteamAIMoreFacts.
Import Eff EffFacts SteamAI SteamAIFacts SteamAIMore.

Section Facts.
Context {E : Engine}.

(** **** Function calls into the script engine *)

Lemma ExecuteFunction_run (FunctionName : string) (Parameters : list string)
    (n : nat) (b : USteamAIBridge) :
  Returned (run (ExecuteFunction FunctionName Parameters) n b) = ""
  /\ bIsInitialized (Final (run (ExecuteFunction FunctionName Parameters) n b))
     = bIsInitialized b.
Proof.
  unfold ExecuteFunction, RecordScriptCall, ExecuteFallbackFunction, ExecuteV8Function,
    SteamAI.when.
  cbn.
  repeat (match goal with
          | |- context [if ?c then _ else _] => destruct c eqn:?
          end; cbn).
  all: easy.
Qed.

Lemma Contains_empty (sub : string) : UE.Contains "" sub = false.
Proof. destruct sub as [| c sub]; reflexivity. Qed.

(** X1.  Whatever the engine and whatever the state of the component,
    [ExecuteFunction] returns the empty string: the V8 entry point and the
    fallback both return it, and so does the guard for an uninitialized
    component.  [CreateAgent], [CreateBehaviorTree] and [SetAgentMemory],
    which look for [true] in that result, therefore always return
    [false]. *)
Theorem ExecuteFunction_returns_no_value
    (FunctionName : string) (Parameters : list string)
    (AgentId AgentConfig TreeId TreeConfig Key Value : string)
    (n : nat) (b : USteamAIBridge) :
  Returned (run (ExecuteFunction FunctionName Parameters) n b) = ""
  /\ Returned (run (CreateAgent AgentId AgentConfig) n b) = false
  /\ Returned (run (CreateBehaviorTree TreeId TreeConfig) n b) = false
  /\ Returned (run (SetAgentMemory AgentId Key Value) n b) = false.
Proof.
  split; [apply ExecuteFunction_run |].
  unfold CreateAgent, CreateBehaviorTree, SetAgentMemory.
  rewrite !run_bind. cbn [mret M_mret ret run Returned].
  rewrite !(proj1 (ExecuteFunction_run _ _ _ _)). now rewrite Contains_empty.
Qed.

(** **** [ExecuteBehaviorTree] *)

Lemma run_Lift {A} (c : Eff.M USteamAIBridge SteamAI.Event A) (n : nat)
    (b : USteamAIBridge) :
  run (Lift c) n b
  = MkRun (Returned (run c n b)) (Reads (run c n b)) (Final (run c n b))
      (map OfBridge (Emitted (run c n b))).
Proof. reflexivity. Qed.

Lemma TreeBroadcasts_app (o1 o2 : list SteamAIMore.Event) :
  TreeBroadcasts (o1 ++ o2) = (TreeBroadcasts o1 ++ TreeBroadcasts o2)%list.
Proof.
  induction o1 as [| [e | t s] o1 IH]; cbn; [reflexivity | exact IH | now rewrite IH].
Qed.

Lemma TreeBroadcasts_OfBridge (o : list SteamAI.Event) :
  TreeBroadcasts (map OfBridge o) = [].
Proof. induction o as [| e o IH]; [reflexivity | exact IH]. Qed.

Lemma ExecuteFunction_shape (FunctionName : string) (Parameters : list string)
    (n : nat) (b : USteamAIBridge) :
  exists m b' Output,
    run (ExecuteFunction FunctionName Parameters) n b = MkRun "" m b' Output
    /\ bIsInitialized b' = bIsInitialized b /\ Config b' = Config b.
Proof.
  destruct (run (ExecuteFunction FunctionName Parameters) n b) as [r m b' o] eqn:Er.
  exists m, b', o.
  pose proof (ExecuteFunction_run FunctionName Parameters n b) as [Hr Hi].
  rewrite Er in Hr, Hi. cbn in Hr, Hi. subst r. split; [reflexivity | split; [exact Hi |]].
  revert Er.
  unfold ExecuteFunction, RecordScriptCall, ExecuteFallbackFunction, ExecuteV8Function,
    SteamAI.when.
  cbn.
  repeat (match goal with
          | |- context [if ?c then _ else _] => destruct c eqn:?
          end; cbn).
  all: intros [= <- <- <-]; reflexivity.
Qed.

Lemma ExecuteBehaviorTree_keeps (TreeId AgentId : string) (n : nat) (b : USteamAIBridge) :
  bIsInitialized (Final (run (ExecuteBehaviorTree TreeId AgentId) n b)) = bIsInitialized b.
Proof.
  unfold ExecuteBehaviorTree.
  rewrite run_bind. rewrite run_Lift.
  change (run GetCurrentTimeMilliseconds n b)
    with (@MkRun USteamAIBridge SteamAI.Event Q (Milliseconds n) (S n) b []).
  cbn [Returned Reads Final Emitted map app].
  rewrite run_bind. rewrite run_Lift.
  destruct (ExecuteFunction_shape
              (AsFunction (ExecuteBehaviorTreeScript TreeId AgentId)) [] (S n) b)
    as (m & b' & o & -> & Hi & Hc).
  cbn [Returned Reads Final Emitted].
  rewrite run_bind; cbn [Eff.get run Returned Reads Final Emitted app].
  destruct (bEnablePerformanceMonitoring (Config b')); cbn; exact Hi.
Qed.

(** X2.  [ExecuteBehaviorTree] has no guard of its own.  On every component
    it returns the empty status and broadcasts [OnTreeExecuted] exactly
    once, with that empty status, and it never changes whether the
    component is initialized.  On an uninitialized component it logs the
    error of [ExecuteFunction] and still broadcasts; with performance
    monitoring enabled it also records a tree execution time, the distance
    between two readings of the clock, although no tree ran. *)
Theorem ExecuteBehaviorTree_reports_an_empty_status
    (TreeId AgentId : string) (n : nat) (b : USteamAIBridge) :
  let r := run (ExecuteBehaviorTree TreeId AgentId) n b in
  Returned r = ""
  /\ TreeBroadcasts (Emitted r) = [(TreeId, "")]
  /\ bIsInitialized (Final r) = bIsInitialized b
  /\ (bIsInitialized b = false ->
      r = MkRun ""
            (if bEnablePerformanceMonitoring (Config b) then S (S n) else S n)
            (if bEnablePerformanceMonitoring (Config b)
             then set_PerformanceStats
                    (set_TreeExecutionTimeMs (Milliseconds (S n) - Milliseconds n)
                       (PerformanceStats b)) b
             else b)
            [OfBridge (LogLine UE.Error
                         "Attempting to execute function on uninitialized bridge");
             OnTreeExecuted TreeId ""]).
Proof.
  cbn zeta. split; [| split; [| split; [apply ExecuteBehaviorTree_keeps |]]].
  all: unfold ExecuteBehaviorTree; rewrite run_bind, run_Lift.
  all: change (run GetCurrentTimeMilliseconds n b)
         with (@MkRun USteamAIBridge SteamAI.Event Q (Milliseconds n) (S n) b []).
  all: cbn [Returned Reads Final Emitted map app].
  all: rewrite run_bind, run_Lift.
  3: {
    intros Hi. rewrite ExecuteFunction_uninitialized by exact Hi.
    cbn [Returned Reads Final Emitted map app].
    rewrite run_bind. cbn [Eff.get run Returned Reads Final Emitted app].
    destruct (bEnablePerformanceMonitoring (Config b)); reflexivity. }
  all: destruct (ExecuteFunction_shape
                   (AsFunction (ExecuteBehaviorTreeScript TreeId AgentId)) [] (S n) b)
         as (m & b' & o & -> & Hi & Hc).
  all: cbn [Returned Reads Final Emitted].
  all: rewrite run_bind; cbn [Eff.get run Returned Reads Final Emitted app].
  all: destruct (bEnablePerformanceMonitoring (Config b')); cbn.
  all: rewrite ?app_nil_r, ?TreeBroadcasts_app, ?TreeBroadcasts_OfBridge; reflexivity.
Qed.

(** **** The component never becomes initialized *)

(** A computation that leaves an uninitialized component uninitialized. *)
Lemma keeps_bind {Ev A B} (c : Eff.M USteamAIBridge Ev A)
    (k : A -> Eff.M USteamAIBridge Ev B) (n : nat) (b : USteamAIBridge) :
  bIsInitialized (Final (run c n b)) = false ->
  (forall a m b', bIsInitialized b' = false ->
                  bIsInitialized (Final (run (k a) m b')) = false) ->
  bIsInitialized (Final (run (c ≫= k) n b)) = false.
Proof. intros Hc Hk. rewrite run_bind. cbn [Final]. now apply Hk. Qed.

Lemma CleanupJavaScript_uninitialized (n : nat) (b : USteamAIBridge) :
  bIsInitialized b = false -> run CleanupJavaScript n b = MkRun tt n b [].
Proof.
  intros H. unfold CleanupJavaScript. rewrite run_bind.
  cbn [Eff.get run Returned Reads Final Emitted]. now rewrite H.
Qed.

Lemma InitializeAI_keeps (n : nat) (b : USteamAIBridge) :
  bIsInitialized b = false ->
  Returned (run InitializeAI n b) = false /\ Final (run InitializeAI n b) = b.
Proof.
  intros Hi. destruct (bInitializationInProgress b) eqn:Hp.
  - unfold InitializeAI. rewrite run_bind.
    cbn [Eff.get run Returned Reads Final Emitted]. rewrite Hi, Hp. now cbn.
  - destruct (InitializeAI_fails n b Hi Hp) as [lines ->]. now cbn.
Qed.

Lemma Register_keeps (AgentId Name : string) (Callback : FDelegate) (n : nat)
    (b : USteamAIBridge) :
  bIsInitialized (Final (run (RegisterAction AgentId Name Callback) n b))
  = bIsInitialized b
  /\ bIsInitialized (Final (run (RegisterCondition AgentId Name Callback) n b))
     = bIsInitialized b.
Proof.
  unfold RegisterAction, RegisterCondition, SteamAI.when. cbn.
  destruct (negb _), (negb _); easy.
Qed.

Lemma Handle_keeps (AgentId Name AgentData BlackboardData : string) (n : nat)
    (b : USteamAIBridge) :
  Final (run (HandleActionCallback AgentId Name AgentData BlackboardData) n b) = b
  /\ Final (run (HandleConditionCallback AgentId Name AgentData BlackboardData) n b) = b.
Proof.
  unfold HandleActionCallback, HandleConditionCallback. cbn.
  split.
  - destruct (UE.TMapFind (RegisteredActions b) AgentId) as [m |]; [| reflexivity].
    destruct (UE.TMapFind m Name) as [[| t] |]; reflexivity.
  - destruct (UE.TMapFind (RegisteredConditions b) AgentId) as [m |]; [| reflexivity].
    destruct (UE.TMapFind m Name) as [[| t] |]; reflexivity.
Qed.

Lemma Perform_keeps (c : Call) (n : nat) (b : USteamAIBridge) :
  bIsInitialized b = false -> bIsInitialized (Final (run (Perform c) n b)) = false.
Proof.
  intros Hi.
  destruct c; unfold Perform; rewrite ?run_bind, ?run_Lift; cbn [Final].
  - unfold BeginPlay, SteamAI.when. rewrite run_bind.
    cbn [Eff.get run Returned Reads Final Emitted].
    destruct (negb _); [| exact Hi]. rewrite run_bind. cbn [Final mret M_mret ret run].
    now rewrite (proj2 (InitializeAI_keeps n b Hi)).
  - pose proof (TickComponent_frame World DeltaTime n b) as (_ & H & _). cbn zeta in H.
    now rewrite H.
  - unfold EndPlay. now rewrite CleanupJavaScript_uninitialized.
  - cbn [mret M_mret ret run Final]. now rewrite (proj2 (InitializeAI_keeps n b Hi)).
  - cbn [mret M_mret ret run Final].
    pose proof (ExecuteScript_frame Script n b) as (_ & H & _). cbn zeta in H. now rewrite H.
  - cbn [mret M_mret ret run Final].
    now rewrite (proj2 (ExecuteFunction_run FunctionName Parameters n b)).
  - pose proof (ForceGarbageCollection_frame World n b) as (_ & H & _). cbn zeta in H.
    now rewrite H.
  - cbn [mret M_mret ret run Final]. unfold CreateAgent. rewrite run_bind.
    cbn [mret M_mret ret run Final]. now rewrite (proj2 (ExecuteFunction_run _ _ n b)).
  - cbn [mret M_mret ret run Final]. unfold CreateBehaviorTree. rewrite run_bind.
    cbn [mret M_mret ret run Final]. now rewrite (proj2 (ExecuteFunction_run _ _ n b)).
  - cbn [mret M_mret ret run Final].
    now rewrite ExecuteBehaviorTree_keeps.
  - cbn [mret M_mret ret run Final]. unfold SetAgentMemory. rewrite run_bind.
    cbn [mret M_mret ret run Final]. now rewrite (proj2 (ExecuteFunction_run _ _ n b)).
  - now rewrite (proj1 (Register_keeps AgentId ActionName Callback n b)).
  - now rewrite (proj2 (Register_keeps AgentId ConditionName Callback n b)).
  - cbn [mret M_mret ret run Final].
    now rewrite (proj1 (Handle_keeps AgentId ActionName AgentData BlackboardData n b)).
  - cbn [mret M_mret ret run Final].
    now rewrite (proj2 (Handle_keeps AgentId ConditionName AgentData BlackboardData n b)).
  - exact Hi.
Qed.

(** X3.  No call sets [bIsInitialized].  [InitializeAI] is the only function
    that assigns [true] to it, after [LoadSteamAIPackage] has succeeded; but
    [LoadSteamAIPackage] submits the package through [ExecuteScript], which
    refuses every script while the component is not initialized.  So an
    uninitialized component stays uninitialized through every sequence of
    calls, and [InitializeAI] keeps returning [false]. *)
Theorem bIsInitialized_is_never_set (Calls : list Call) (n m : nat) (b : USteamAIBridge) :
  bIsInitialized b = false ->
  bIsInitialized (Final (run (PerformAll Calls) n b)) = false
  /\ Returned (run InitializeAI m (Final (run (PerformAll Calls) n b))) = false.
Proof.
  intros Hi.
  assert (H : bIsInitialized (Final (run (PerformAll Calls) n b)) = false).
  { revert n b Hi. induction Calls as [| c Calls IH]; intros n b Hi; [exact Hi |].
    change (PerformAll (c :: Calls)) with (Perform c ≫= fun _ => PerformAll Calls).
    rewrite run_bind. cbn [Final]. apply IH. now apply Perform_keeps. }
  split; [exact H |]. now apply InitializeAI_keeps.
Qed.

(** **** Performance statistics *)

Lemma ExecuteScript_monitored (Script : string) (n : nat) (b : USteamAIBridge) :
  bIsInitialized b = true -> bEnablePerformanceMonitoring (Config b) = true ->
  exists Output,
    run (ExecuteScript Script) n b
    = MkRun (negb (UsesV8 b)) (S (S n))
        (set_ScriptCallsThisSecond (ScriptCallsThisSecond b + 1)
           (set_PerformanceStats
              (set_ScriptExecutionTimeMs (Milliseconds (S n) - Milliseconds n)
                 (PerformanceStats b)) b))
        Output.
Proof.
  intros Hi Hm.
  unfold ExecuteScript, RecordScriptCall, ExecuteFallbackScript, ExecuteV8Script,
    SteamAI.when.
  cbn. rewrite Hi. cbn. destruct (UsesV8 b); cbn; rewrite ?Hm; cbn.
  - eexists; reflexivity.
  - destruct (bEnableDebugLogging (Config b)); cbn; rewrite Hm; cbn; eexists; reflexivity.
Qed.

Lemma ExecuteScripts_monitored (Scripts : list string) :
  forall (n : nat) (b : USteamAIBridge),
  bIsInitialized b = true -> bEnablePerformanceMonitoring (Config b) = true ->
  let r := run (ExecuteScripts Scripts) n b in
  Reads r = (n + 2 * length Scripts)%nat
  /\ ScriptCallsThisSecond (Final r) = ScriptCallsThisSecond b + Z.of_nat (length Scripts)
  /\ Config (Final r) = Config b
  /\ bIsInitialized (Final r) = true
  /\ RegisteredActions (Final r) = RegisteredActions b
  /\ LastStatsUpdateTime (Final r) = LastStatsUpdateTime b.
Proof.
  induction Scripts as [| Script Scripts IH]; intros n b Hi Hm; cbn zeta.
  - cbn. repeat split; try assumption; try reflexivity; lia.
  - change (ExecuteScripts (Script :: Scripts))
      with ((ExecuteScript Script;; mret tt) ≫= fun _ => ExecuteScripts Scripts).
    rewrite run_bind. rewrite run_bind.
    destruct (ExecuteScript_monitored Script n b Hi Hm) as [o ->].
    cbn [mret M_mret ret run Returned Reads Final Emitted].
    set (b1 := set_ScriptCallsThisSecond _ _).
    specialize (IH (S (S n)) b1 Hi Hm). cbn zeta in IH.
    destruct IH as (H1 & H2 & H3 & H4 & H5 & H6).
    rewrite H1, H2, H3, H4, H5, H6. subst b1. cbn.
    repeat split; try reflexivity; lia.
Qed.

Lemma UpdatePerformanceStats_publishes (DeltaTime : Q) (n : nat) (b : USteamAIBridge) :
  bEnablePerformanceMonitoring (Config b) = true ->
  (1 <= LastStatsUpdateTime b + DeltaTime)%Q ->
  run (UpdatePerformanceStats DeltaTime) n b
  = MkRun tt n
      (set_LastStatsUpdateTime 0
         (set_ScriptCallsThisSecond 0
            (set_PerformanceStats
               (set_periodic_stats (ScriptCallsThisSecond b)
                  (Z.of_nat (size (RegisteredActions b))) 0 (PerformanceStats b))
               (set_LastStatsUpdateTime (LastStatsUpdateTime b + DeltaTime) b))))
      [].
Proof.
  intros Hm Ht. unfold UpdatePerformanceStats, SteamAI.when. cbn. rewrite Hm. cbn.
  unfold StatsUpdateInterval.
  now rewrite (proj2 (Qle_bool_iff 1 (LastStatsUpdateTime b + DeltaTime)) Ht).
Qed.

Lemma UpdatePerformanceStats_accumulates (DeltaTime : Q) (n : nat) (b : USteamAIBridge) :
  bEnablePerformanceMonitoring (Config b) = true ->
  (LastStatsUpdateTime b + DeltaTime < 1)%Q ->
  run (UpdatePerformanceStats DeltaTime) n b
  = MkRun tt n (set_LastStatsUpdateTime (LastStatsUpdateTime b + DeltaTime) b) [].
Proof.
  intros Hm Ht. unfold UpdatePerformanceStats, SteamAI.when. cbn. rewrite Hm. cbn.
  unfold StatsUpdateInterval.
  destruct (Qle_bool 1 (LastStatsUpdateTime b + DeltaTime)) eqn:Hq; [| reflexivity].
  apply Qle_bool_iff in Hq. exfalso. apply (Qlt_not_le _ _ Ht Hq).
Qed.

(** X4.  With performance monitoring enabled, every [ExecuteScript] on an
    initialized component takes two readings of the clock and adds one to
    [ScriptCallsThisSecond].  The call of [UpdatePerformanceStats] that
    brings the accumulated time to one second publishes that count as
    [ScriptCallsPerSecond] and resets both the count and the accumulated
    time; an earlier call only accumulates the time.  (The count is an
    [int32]: the statement is about runs in which it stays in range.) *)
Theorem script_calls_are_counted_and_published
    (Scripts : list string) (DeltaTime : Q) (n : nat) (b : USteamAIBridge) :
  bIsInitialized b = true ->
  bEnablePerformanceMonitoring (Config b) = true ->
  ScriptCallsThisSecond b + Z.of_nat (length Scripts) < 2 ^ 31 ->
  let r := run (ExecuteScripts Scripts;; UpdatePerformanceStats DeltaTime) n b in
  Reads r = (n + 2 * length Scripts)%nat
  /\ ((1 <= LastStatsUpdateTime b + DeltaTime)%Q ->
      ScriptCallsPerSecond (PerformanceStats (Final r))
      = ScriptCallsThisSecond b + Z.of_nat (length Scripts)
      /\ ScriptCallsThisSecond (Final r) = 0
      /\ LastStatsUpdateTime (Final r) = 0%Q)
  /\ ((LastStatsUpdateTime b + DeltaTime < 1)%Q ->
      ScriptCallsPerSecond (PerformanceStats (Final r))
      = ScriptCallsPerSecond (PerformanceStats b)
      /\ ScriptCallsThisSecond (Final r)
         = ScriptCallsThisSecond b + Z.of_nat (length Scripts)
      /\ LastStatsUpdateTime (Final r) = (LastStatsUpdateTime b + DeltaTime)%Q).
Proof.
  intros Hi Hm _. cbn zeta. rewrite run_bind.
  pose proof (ExecuteScripts_monitored Scripts n b Hi Hm) as (H1 & H2 & H3 & H4 & H5 & H6).
  cbn zeta in *.
  set (r1 := run (ExecuteScripts Scripts) n b) in *.
  assert (Hm1 : bEnablePerformanceMonitoring (Config (Final r1)) = true)
    by now rewrite H3.
  cbn [Returned Reads Final Emitted].
  split; [| split].
  - pose proof (UpdatePerformanceStats_frame DeltaTime (Reads r1) (Final r1)) as (Hr & _).
    cbn zeta in Hr. now rewrite Hr.
  - intros Ht. rewrite UpdatePerformanceStats_publishes by (rewrite ?H6; assumption).
    cbn. now rewrite H2.
  - intros Ht. rewrite UpdatePerformanceStats_accumulates by (rewrite ?H6; assumption).
    cbn. rewrite H2, H6. split; [| easy].
    clear -Hi Hm. subst r1. revert n b Hi Hm.
    induction Scripts as [| Script Scripts IH]; intros n b Hi Hm; [reflexivity |].
    change (ExecuteScripts (Script :: Scripts))
      with ((ExecuteScript Script;; mret tt) ≫= fun _ => ExecuteScripts Scripts).
    rewrite run_bind. rewrite run_bind.
    destruct (ExecuteScript_monitored Script n b Hi Hm) as [o ->].
    cbn [mret M_mret ret run Returned Reads Final Emitted].
    now rewrite IH.
Qed.

Lemma size_alter {V} (f : V -> V) (k : string) (m : gmap string V) :
  size (alter f k m) = size m.
Proof. rewrite <- !size_dom. now rewrite dom_alter_L. Qed.

Lemma RegisterAction_size (AgentId ActionName : string) (Callback : FDelegate)
    (n : nat) (b : USteamAIBridge) :
  let r := run (RegisterAction AgentId ActionName Callback) n b in
  size (RegisteredActions (Final r))
  = (size (RegisteredActions b)
     + if UE.TMapContains (RegisteredActions b) AgentId then 0 else 1)%nat
  /\ RegisteredConditions (Final r) = RegisteredConditions b
  /\ Config (Final r) = Config b
  /\ ScriptCallsThisSecond (Final r) = ScriptCallsThisSecond b
  /\ LastStatsUpdateTime (Final r) = LastStatsUpdateTime b.
Proof.
  unfold RegisterAction, SteamAI.when. cbn.
  unfold UE.TMapContains, UE.TMapFind, UE.TMapUpdate, UE.TMapAdd.
  destruct (RegisteredActions b !! UE.Key AgentId) as [m |] eqn:Hl; cbn.
  - rewrite size_alter. repeat split; lia.
  - rewrite size_alter, map_size_insert_None by exact Hl. repeat split; lia.
Qed.

Lemma RegisterCondition_frame (AgentId ConditionName : string) (Callback : FDelegate)
    (n : nat) (b : USteamAIBridge) :
  let r := run (RegisterCondition AgentId ConditionName Callback) n b in
  RegisteredActions (Final r) = RegisteredActions b
  /\ Config (Final r) = Config b
  /\ ScriptCallsThisSecond (Final r) = ScriptCallsThisSecond b
  /\ LastStatsUpdateTime (Final r) = LastStatsUpdateTime b.
Proof.
  unfold RegisterCondition, SteamAI.when. cbn. destruct (negb _); cbn; easy.
Qed.

(** X5.  [ActiveAgents] is the number of keys of [RegisteredActions]: the
    statistics published after [RegisterAction] count the agent once,
    however many actions it has and however its id is capitalized, and an
    agent for which only conditions are registered is not counted at
    all. *)
Theorem ActiveAgents_counts_the_agents_with_actions
    (AgentId Name : string) (Callback : FDelegate) (DeltaTime : Q)
    (n : nat) (b : USteamAIBridge) :
  bEnablePerformanceMonitoring (Config b) = true ->
  (1 <= LastStatsUpdateTime b + DeltaTime)%Q ->
  ActiveAgents
    (PerformanceStats
       (Final (run (RegisterAction AgentId Name Callback;;
                    UpdatePerformanceStats DeltaTime) n b)))
  = Z.of_nat (size (RegisteredActions b))
    + (if UE.TMapContains (RegisteredActions b) AgentId then 0 else 1)
  /\ ActiveAgents
       (PerformanceStats
          (Final (run (RegisterCondition AgentId Name Callback;;
                       UpdatePerformanceStats DeltaTime) n b)))
     = Z.of_nat (size (RegisteredActions b)).
Proof.
  intros Hm Ht. split.
  - rewrite run_bind. cbn [Final].
    pose proof (RegisterAction_size AgentId Name Callback n b) as (Hs & _ & Hc & _ & Hl).
    cbn zeta in *.
    rewrite UpdatePerformanceStats_publishes by (rewrite ?Hc, ?Hl; assumption).
    unfold set_LastStatsUpdateTime, set_ScriptCallsThisSecond, set_PerformanceStats,
      set_periodic_stats.
    cbn [Final PerformanceStats ActiveAgents].
    rewrite Hs. destruct (UE.TMapContains _ _); lia.
  - rewrite run_bind. cbn [Final].
    pose proof (RegisterCondition_frame AgentId Name Callback n b) as (Hs & Hc & _ & Hl).
    cbn zeta in *.
    rewrite UpdatePerformanceStats_publishes by (rewrite ?Hc, ?Hl; assumption).
    unfold set_LastStatsUpdateTime, set_ScriptCallsThisSecond, set_PerformanceStats,
      set_periodic_stats.
    cbn [Final PerformanceStats ActiveAgents].
    now rewrite Hs.
Qed.

(** **** The end of play *)

Lemma FindAction_empty (b : USteamAIBridge) (AgentId ActionName : string) :
  RegisteredActions b = ∅ -> FindAction b AgentId ActionName = None.
Proof. intros H. unfold FindAction, UE.TMapFind. now rewrite H, lookup_empty. Qed.

Lemma FindCondition_empty (b : USteamAIBridge) (AgentId ConditionName : string) :
  RegisteredConditions b = ∅ -> FindCondition b AgentId ConditionName = None.
Proof. intros H. unfold FindCondition, UE.TMapFind. now rewrite H, lookup_empty. Qed.

(** X6.  [EndPlay] on an initialized component empties both callback tables
    and clears [bIsInitialized], logging two lines; afterwards no callback
    is found for any agent, every script is refused, and a second [EndPlay]
    does nothing.  On a component that is not initialized [EndPlay] does
    nothing at all: what was registered stays registered. *)
Theorem EndPlay_unregisters_every_callback (n : nat) (b : USteamAIBridge) :
  (bIsInitialized b = false -> run EndPlay n b = MkRun tt n b [])
  /\ (bIsInitialized b = true ->
      let b' := set_bIsInitialized false
                  (set_RegisteredConditions ∅ (set_RegisteredActions ∅ b)) in
      run EndPlay n b
      = MkRun tt n b'
          [LogLine UE.Log "Cleaning up Steam AI Bridge...";
           LogLine UE.Log "Steam AI Bridge cleanup complete"]
      /\ (forall AgentId Name AgentData BlackboardData m,
            Returned (run (HandleActionCallback AgentId Name AgentData BlackboardData)
                        m b') = false
            /\ Returned (run (HandleConditionCallback AgentId Name AgentData
                                BlackboardData) m b') = false)
      /\ (forall Script m, Returned (run (ExecuteScript Script) m b') = false)
      /\ (forall m, run EndPlay m b' = MkRun tt m b' [])).
Proof.
  split; [apply CleanupJavaScript_uninitialized |].
  intros Hi. cbn zeta. split; [| split; [| split]].
  - unfold EndPlay, CleanupJavaScript. cbn. rewrite Hi. cbn.
    now destruct (WITH_V8 && bUseV8Engine (Config b)).
  - intros AgentId Name AgentData BlackboardData m. split.
    + rewrite HandleActionCallback_missing; [reflexivity |].
      intros Target. now rewrite FindAction_empty.
    + rewrite HandleConditionCallback_missing; [reflexivity |].
      intros Target. now rewrite FindCondition_empty.
  - intros Script m. now rewrite ExecuteScript_uninitialized.
  - intros m. now apply CleanupJavaScript_uninitialized.
Qed.

(** **** The static instance *)

Lemma run_On {A} (This : nat) (Default : A) (c : Eff.M USteamAIBridge SteamAI.Event A)
    (n : nat) (w : FObjects) (b : USteamAIBridge) :
  Bridges w !! This = Some b ->
  run (On This Default c) n w
  = MkRun (Returned (run c n b)) (Reads (run c n b))
      (MkObjects (<[This := Final (run c n b)]> (Bridges w)) (StaticInstance w))
      (Emitted (run c n b)).
Proof. intros H. unfold On. cbn. now rewrite H. Qed.

Lemma JSCall_without_instance (AgentId Name AgentData BlackboardData : string)
    (n : nat) (w : FObjects) :
  StaticInstance w = None ->
  run (JSCallAction AgentId Name AgentData BlackboardData) n w = MkRun false n w []
  /\ run (JSCallCondition AgentId Name AgentData BlackboardData) n w = MkRun false n w [].
Proof.
  intros H. unfold JSCallAction, JSCallCondition, GetBridgeInstance.
  rewrite !run_bind. cbn [Eff.get run Returned Reads Final Emitted mret M_mret ret].
  now rewrite H.
Qed.

Lemma JSCall_with_instance (AgentId Name AgentData BlackboardData : string)
    (n : nat) (w : FObjects) (This : nat) :
  StaticInstance w = Some This ->
  run (JSCallAction AgentId Name AgentData BlackboardData) n w
  = run (On This false (HandleActionCallback AgentId Name AgentData BlackboardData)) n w
  /\ run (JSCallCondition AgentId Name AgentData BlackboardData) n w
     = run (On This false
              (HandleConditionCallback AgentId Name AgentData BlackboardData)) n w.
Proof.
  intros H. unfold JSCallAction, JSCallCondition, GetBridgeInstance.
  rewrite !run_bind. cbn [Eff.get run Returned Reads Final Emitted mret M_mret ret].
  rewrite H. cbn [app]. now rewrite !run_eta.
Qed.


(** **** The subsystem *)

Lemma PerformSubsystem_keeps (c : SubsystemCall) (n : nat) (g : FGameInstance) :
  GlobalAIBridge (Subsystem g) = None ->
  GlobalAIBridge (Subsystem (Final (run (PerformSubsystem c) n g))) = None.
Proof.
  intros H. destruct c; cbn; try exact H; try reflexivity.
  now rewrite H.
Qed.

(** X8.  Nothing in [Bridge.cpp] gives the subsystem a component:
    [GlobalAIBridge] starts out null and the four functions leave it null.
    So, after any sequence of calls, [GetAIBridge] returns null and
    [InitializeGlobalAI] only logs a line and returns [true]; the
    configuration it is given is not stored and no component is created or
    initialized. *)
Theorem the_subsystem_never_has_a_bridge
    (Calls : list SubsystemCall) (Config : FSteamAIConfig) (n m : nat)
    (g : FGameInstance) :
  GlobalAIBridge (Subsystem g) = None ->
  let g' := Final (run (PerformAllSubsystem Calls) n g) in
  Returned (run GetAIBridge m g') = None
  /\ run (InitializeGlobalAI Config) m g'
     = MkRun true m g' [LogLine UE.Log "Global AI configuration set"]
  /\ Objects g' = Objects g.
Proof.
  intros Hg. cbn zeta.
  assert (H : GlobalAIBridge (Subsystem (Final (run (PerformAllSubsystem Calls) n g))) = None
              /\ Objects (Final (run (PerformAllSubsystem Calls) n g)) = Objects g).
  { revert n g Hg. induction Calls as [| c Calls IH]; intros n g Hg; [now split |].
    change (PerformAllSubsystem (c :: Calls))
      with (PerformSubsystem c ≫= fun _ => PerformAllSubsystem Calls).
    rewrite run_bind. cbn [Final].
    destruct (IH (Reads (run (PerformSubsystem c) n g))
                 (Final (run (PerformSubsystem c) n g))
                 (PerformSubsystem_keeps c n g Hg)) as [H1 H2].
    split; [exact H1 |]. rewrite H2.
    destruct c; cbn; try reflexivity. now rewrite Hg. }
  destruct H as [H1 H2]. split; [| split].
  - unfold GetAIBridge. cbn. exact H1.
  - unfold InitializeGlobalAI. rewrite run_bind.
    cbn [Eff.get run Returned Reads Final Emitted]. rewrite H1. reflexivity.
  - exact H2.
Qed.

End Facts.

(** **** Distances and vectors *)

Section Vectors.
Context {Math : FMath}.

Lemma DistSquared_sym (V1 V2 : FVector) : (DistSquared V1 V2 == DistSquared V2 V1)%Q.
Proof. unfold DistSquared. ring. Qed.


End Vectors.

#[local] Existing Instance Sample.AIEngine.

Lemma ExecuteBehaviorTree_reports_an_empty_status_witness :
  run (ExecuteBehaviorTree "guard-1_default" "guard-1") 0 NewBridge
  = MkRun "" 1%nat NewBridge
      [OfBridge (LogLine UE.Error
                   "Attempting to execute function on uninitialized bridge");
       OnTreeExecuted "guard-1_default" ""].
Proof.
  exact (proj2 (proj2 (proj2
           (ExecuteBehaviorTree_reports_an_empty_status "guard-1_default" "guard-1"
              0 NewBridge))) eq_refl).
Defined.

Lemma bIsInitialized_is_never_set_witness :
  bIsInitialized
    (Final (run (PerformAll [CallBeginPlay; CallInitializeAI;
                             CallExecuteScript "1 + 1";
                             CallTickComponent (MkWorld 31) (1 # 10)]) 0 NewBridge))
  = false
  /\ Returned
       (run InitializeAI 7
          (Final (run (PerformAll [CallBeginPlay; CallInitializeAI;
                                   CallExecuteScript "1 + 1";
                                   CallTickComponent (MkWorld 31) (1 # 10)]) 0
                    NewBridge)))
     = false.
Proof.
  exact (bIsInitialized_is_never_set
           [CallBeginPlay; CallInitializeAI; CallExecuteScript "1 + 1";
            CallTickComponent (MkWorld 31) (1 # 10)] 0 7 NewBridge eq_refl).
Defined.

Lemma script_calls_are_counted_and_published_witness :
  ScriptCallsPerSecond
    (PerformanceStats
       (Final (run (ExecuteScripts ["a();"; "b();"; "c();"];; UpdatePerformanceStats 1)
                 0 Scenario.MonitoredAI)))
  = 3
  /\ ScriptCallsThisSecond
       (Final (run (ExecuteScripts ["a();"; "b();"; "c();"];;
                    UpdatePerformanceStats (1 # 2)) 0 Scenario.MonitoredAI))
     = 3.
Proof.
  pose proof (script_calls_are_counted_and_published ["a();"; "b();"; "c();"] 1 0
                Scenario.MonitoredAI eq_refl eq_refl eq_refl) as (_ & Hpub & _).
  pose proof (script_calls_are_counted_and_published ["a();"; "b();"; "c();"] (1 # 2) 0
                Scenario.MonitoredAI eq_refl eq_refl eq_refl) as (_ & _ & Hacc).
  split.
  - exact (proj1 (Hpub ltac:(vm_compute; discriminate))).
  - exact (proj1 (proj2 (Hacc eq_refl))).
Defined.

Lemma ActiveAgents_counts_the_agents_with_actions_witness :
  ActiveAgents
    (PerformanceStats
       (Final (run (RegisterAction "guard-1" "patrol" (BoundTo "Guard.Patrol");;
                    UpdatePerformanceStats 1) 0 Scenario.MonitoredAI)))
  = 1
  /\ ActiveAgents
       (PerformanceStats
          (Final (run (RegisterCondition "guard-1" "hasTarget" (BoundTo "Guard.Patrol");;
                       UpdatePerformanceStats 1) 0 Scenario.MonitoredAI)))
     = 0.
Proof.
  exact (ActiveAgents_counts_the_agents_with_actions "guard-1" "patrol"
           (BoundTo "Guard.Patrol") 1 0 Scenario.MonitoredAI eq_refl
           ltac:(vm_compute; discriminate)).
Defined.

Lemma EndPlay_unregisters_every_callback_witness :
  run EndPlay 0 Scenario.PatrolAI = MkRun tt 0%nat Scenario.PatrolAI []
  /\ Returned (run (HandleActionCallback "guard-1" "patrol" "{}" "{}") 0
                 Scenario.InitializedPatrolAI) = true
  /\ Returned (run (HandleActionCallback "guard-1" "patrol" "{}" "{}") 0
                 (Final (run EndPlay 0 Scenario.InitializedPatrolAI))) = false.
Proof.
  pose proof (EndPlay_unregisters_every_callback 0 Scenario.PatrolAI) as (Hu & _).
  pose proof (EndPlay_unregisters_every_callback 0 Scenario.InitializedPatrolAI)
    as (_ & Hi).
  destruct (Hi eq_refl) as (Hr & Hc & _).
  split; [exact (Hu eq_refl) | split; [vm_compute; reflexivity |]].
  rewrite Hr. exact (proj1 (Hc "guard-1" "patrol" "{}" "{}" 0%nat)).
Defined.


Lemma the_subsystem_never_has_a_bridge_witness :
  Returned
    (run (InitializeGlobalAI (MkConfig true "steam-ai.js" false 10 64 true)) 0
       (Final (run (PerformAllSubsystem
                      [CallSubsystemInitialize;
                       CallInitializeGlobalAI
                         (MkConfig true "steam-ai.js" false 10 64 true);
                       CallGetAIBridge; CallDeinitialize]) 0 NewGameInstance)))
  = true
  /\ Returned
       (run GetAIBridge 0
          (Final (run (PerformAllSubsystem
                         [CallSubsystemInitialize;
                          CallInitializeGlobalAI
                            (MkConfig true "steam-ai.js" false 10 64 true);
                          CallGetAIBridge; CallDeinitialize]) 0 NewGameInstance)))
     = None.
Proof.
  pose proof (the_subsystem_never_has_a_bridge
                [CallSubsystemInitialize;
                 CallInitializeGlobalAI (MkConfig true "steam-ai.js" false 10 64 true);
                 CallGetAIBridge; CallDeinitialize]
                (MkConfig true "steam-ai.js" false 10 64 true) 0 0 NewGameInstance
                eq_refl) as (Hg & Hi & _).
  split; [now rewrite Hi | exact Hg].
Defined.

#[local] Existing Instance Scenario.WholeMath.


End SteamAIMoreFacts.

(* ===================================================================== *)
(** ** DataVisualizationBridge: facts about the rest of [Bridge.cpp] *)
(* ===================================================================== *)

Module DataVizMoreFacts.
Import Eff EffFacts DataViz DataVizFacts DataVizMore.

Section Facts.
Context {E : Engine}.

(** **** Sequencing *)

Lemma run_bind_known {A B} (c : Eff.M UDataVisualizationBridge Event A)
    (k : A -> Eff.M UDataVisualizationBridge Event B) (n : nat)
    (s : UDataVisualizationBridge) a m s' o a2 m2 s2 o2 :
  run c n s = MkRun a m s' o ->
  run (k a) m s' = MkRun a2 m2 s2 o2 ->
  run (c ≫= k) n s = MkRun a2 m2 s2 (o ++ o2).
Proof. intros H1 H2. rewrite run_bind, H1. cbn [Returned Reads Final Emitted]. now rewrite H2. Qed.

(** **** Record bookkeeping *)

Lemma set_PendingUpdates_id (b : UDataVisualizationBridge) :
  set_PendingUpdates (PendingUpdates b) b = b.
Proof. now destruct b. Qed.

Lemma set_PendingUpdates_twice (l l' : list FBatchUpdateData)
    (b : UDataVisualizationBridge) :
  set_PendingUpdates l' (set_PendingUpdates l b) = set_PendingUpdates l' b.
Proof. reflexivity. Qed.

(** **** Requests, then a flush *)

Lemma Request_batched (r : FUpdateRequest) (n : nat) (b : UDataVisualizationBridge) :
  bIsInitialized b = true -> bEnableBatchUpdates b = true ->
  run (Request r) n b
  = MkRun tt (S n)
      (set_PendingUpdates (PendingUpdates b ++ [RequestedUpdate n r])%list b) [].
Proof.
  intros Hi Hb.
  destruct r as [ChartId Timestamp Value | ChartId Data | ChartId Data].
  - apply (Update_batched n b ChartId Timestamp Value None [] Hi Hb).
  - apply (Update_batched n b ChartId 0 0 Data [] Hi Hb).
  - apply (Update_batched n b ChartId 0 0 None Data Hi Hb).
Qed.

Lemma Requests_batched (l : list FUpdateRequest) :
  forall (n : nat) (b : UDataVisualizationBridge),
  bIsInitialized b = true -> bEnableBatchUpdates b = true ->
  run (Requests l) n b
  = MkRun tt (n + length l)
      (set_PendingUpdates (PendingUpdates b ++ RequestedUpdates n l)%list b) [].
Proof.
  induction l as [| r l IH]; intros n b Hi Hb.
  - cbn. rewrite app_nil_r, set_PendingUpdates_id. f_equal. lia.
  - change (Requests (r :: l)) with (Request r ≫= fun _ => Requests l).
    rewrite run_bind, (Request_batched r n b Hi Hb).
    cbn [Returned Reads Final Emitted].
    rewrite IH by assumption.
    cbn [Returned Reads Final Emitted app RequestedUpdates length PendingUpdates
         set_PendingUpdates].
    rewrite <- app_assoc. cbn [app]. f_equal. lia.
Qed.

Lemma RequestedUpdate_known (n : nat) (r : FUpdateRequest) :
  KnownMethod (RequestedUpdate n r) = true.
Proof. now destruct r. Qed.

Lemma RequestedUpdates_known (l : list FUpdateRequest) :
  forall n, Forall (fun Update => KnownMethod Update = true) (RequestedUpdates n l).
Proof.
  induction l as [| r l IH]; intros n; constructor;
    [apply RequestedUpdate_known | apply IH].
Qed.

Lemma known_scripts (l : list FBatchUpdateData) :
  Forall (fun Update => KnownMethod Update = true) l ->
  map (fun g => BatchScript (fst g) (snd g)) (GroupUpdates l)
  = map (fun Id => Bracketed Id (map (KnownCall Id) (UpdatesFor Id l))) (DistinctIds l).
Proof.
  intros Hknown. rewrite GroupUpdates_spec, map_map.
  apply map_ext. intros Id. cbn [fst snd]. rewrite BatchScript_Bracketed. f_equal.
  apply map_ext_in. intros u Hu. apply BatchCall_known.
  rewrite List.Forall_forall in Hknown. apply Hknown. eapply UpdatesFor_In, Hu.
Qed.

(** X10.  On an initialized component with batching enabled, a sequence of
    calls of [UpdateChart], [UpdateChartMultiData] and [UpdateChartArray]
    emits nothing and appends one entry per call to the queue, in call
    order.  [ProcessPendingUpdates] then sends one script per chart, in the
    order in which the charts first occur in the queue; the script of a
    chart brackets the batch calls of exactly the entries of that chart, in
    call order; and the queue is empty afterwards.  No request is lost and
    none is sent twice. *)
Theorem requests_are_delivered_in_order
    (l : list FUpdateRequest) (n : nat) (b : UDataVisualizationBridge) :
  bIsInitialized b = true -> bEnableBatchUpdates b = true ->
  let Queue := (PendingUpdates b ++ RequestedUpdates n l)%list in
  run (Requests l) n b = MkRun tt (n + length l) (set_PendingUpdates Queue b) []
  /\ (Forall (fun Update => KnownMethod Update = true) (PendingUpdates b) ->
      Queue <> [] ->
      let r := run (Requests l;; ProcessPendingUpdates) n b in
      ScriptsOf (Emitted r)
      = map (fun Id => Bracketed Id (map (KnownCall Id) (UpdatesFor Id Queue)))
          (DistinctIds Queue)
      /\ PendingUpdates (Final r) = []).
Proof.
  intros Hi Hb. cbn zeta. split; [now apply Requests_batched |].
  intros Hknown Hne. rewrite run_bind, Requests_batched by assumption.
  cbn [Returned Reads Final Emitted app]. unfold ProcessPendingUpdates.
  set (b1 := set_PendingUpdates _ b).
  destruct (ProcessBatchedUpdates_run (n + length l) b1 Hne) as (c & o & -> & Hs).
  cbn [Returned Reads Final Emitted]. split; [| reflexivity].
  rewrite Hs. subst b1. cbn [PendingUpdates set_PendingUpdates].
  apply known_scripts, Forall_app. split; [exact Hknown | apply RequestedUpdates_known].
Qed.

(** **** A flush with nothing to run the scripts *)

Lemma Contains_NoContextResult : UE.Contains NoContextResult "ERROR" = true.
Proof. unfold NoContextResult. now destruct WITH_V8. Qed.

Lemma ExecuteJavaScript_no_context (Script : string) (n : nat)
    (b : UDataVisualizationBridge) :
  WITH_V8 = false \/ JavaScriptContext b = None ->
  run (ExecuteJavaScript Script) n b
  = MkRun NoContextResult n b [JavaScript Script NoContextResult].
Proof.
  intros H. unfold ExecuteJavaScript, NoContextResult. rewrite run_bind.
  cbn [Eff.get run Returned Reads Final Emitted].
  destruct WITH_V8.
  - destruct H as [H | H]; [discriminate |]. rewrite H. reflexivity.
  - reflexivity.
Qed.

Lemma ProcessChartUpdates_no_context (ChartUpdates : string * list FBatchUpdateData)
    (n : nat) (b : UDataVisualizationBridge) :
  WITH_V8 = false \/ JavaScriptContext b = None ->
  run (ProcessChartUpdates ChartUpdates) n b
  = MkRun tt n b (FailedFlush NoContextResult ChartUpdates).
Proof.
  intros H. destruct ChartUpdates as [Id Updates]. unfold ProcessChartUpdates.
  rewrite run_bind, ExecuteJavaScript_no_context by exact H.
  cbn [Returned Reads Final Emitted]. rewrite ReportFailure_run.
  cbn [Returned Reads Final Emitted]. now rewrite Contains_NoContextResult.
Qed.

Lemma ForEach_no_context (Grouped : FGroupedUpdates) (n : nat)
    (b : UDataVisualizationBridge) :
  WITH_V8 = false \/ JavaScriptContext b = None ->
  run (ForEach Grouped ProcessChartUpdates) n b
  = MkRun tt n b (flat_map (FailedFlush NoContextResult) Grouped).
Proof.
  intros H. induction Grouped as [| g Grouped IH]; [reflexivity |].
  change (ForEach (g :: Grouped) ProcessChartUpdates)
    with (ProcessChartUpdates g ≫= fun _ => ForEach Grouped ProcessChartUpdates).
  rewrite run_bind, ProcessChartUpdates_no_context by exact H.
  cbn [Returned Reads Final Emitted]. now rewrite IH.
Qed.

(** X11.  [ApplyBatchedUpdates] does not ask whether the component is
    initialized.  When there is nothing to run a script with (the build has
    no V8, or no context has been created, as on a component that was never
    initialized), every chart's script fails, one error line is logged per
    chart, and the queue is emptied all the same: the updates handed in,
    and those that were pending, are discarded. *)
Theorem ApplyBatchedUpdates_without_a_context_discards
    (Updates : list FBatchUpdateData) (n : nat) (b : UDataVisualizationBridge) :
  WITH_V8 = false \/ JavaScriptContext b = None ->
  (PendingUpdates b ++ Updates)%list <> [] ->
  run (ApplyBatchedUpdates Updates) n b
  = MkRun tt n (set_PendingUpdates [] b)
      (flat_map (FailedFlush NoContextResult)
         (GroupUpdates (PendingUpdates b ++ Updates)))
  /\ UE.Contains NoContextResult "ERROR" = true.
Proof.
  intros H Hne. split; [| apply Contains_NoContextResult].
  unfold ApplyBatchedUpdates. rewrite run_bind.
  cbn [Eff.modify run Returned Reads Final Emitted app].
  set (b1 := set_PendingUpdates _ b).
  unfold ProcessBatchedUpdates. rewrite run_bind.
  cbn [Eff.get run Returned Reads Final Emitted app].
  change (PendingUpdates b1) with (PendingUpdates b ++ Updates)%list.
  destruct (PendingUpdates b ++ Updates)%list as [| u q] eqn:Eq; [now destruct Hne |].
  rewrite run_bind, ForEach_no_context by exact H.
  cbn [Eff.modify run Returned Reads Final Emitted]. now rewrite app_nil_r.
Qed.

(** **** Disposal *)

Lemma Dispose_uninitialized (n : nat) (b : UDataVisualizationBridge) :
  bIsInitialized b = false ->
  run Dispose n b
  = MkRun tt n (set_PendingUpdates [] (set_Dashboards ∅ (set_Charts ∅ b))) [].
Proof.
  intros H. unfold Dispose. rewrite run_bind.
  cbn [Eff.get run Returned Reads Final Emitted]. rewrite H. reflexivity.
Qed.

Lemma Dispose_initialized (n : nat) (b : UDataVisualizationBridge) :
  bIsInitialized b = true ->
  exists Context Output,
    run Dispose n b
    = MkRun tt n
        (set_PendingUpdates []
           (set_Dashboards ∅
              (set_Charts ∅
                 (set_bIsInitialized false
                    (if WITH_V8
                     then set_JavaScriptEngine false (set_JavaScriptContext None b)
                     else set_JavaScriptContext Context b)))))
        Output.
Proof.
  intros H. unfold Dispose. rewrite run_bind.
  cbn [Eff.get run Returned Reads Final Emitted]. rewrite H. unfold when.
  destruct (ClearAllCharts_initialized n b H) as (Result & Context & Line & Hc).
  destruct WITH_V8.
  all: cbn [Eff.modify UE_LOG Eff.emit run Returned Reads Final Emitted mbind M_mbind
            bind mret M_mret ret].
  all: rewrite !run_bind, Hc; cbn [run Returned Reads Final Emitted].
  all: destruct (UE.Contains Result "ERROR"); eexists Context, _; reflexivity.
Qed.

Lemma cleared_id (d : UDataVisualizationBridge) :
  Charts d = ∅ -> Dashboards d = ∅ -> PendingUpdates d = [] ->
  set_PendingUpdates [] (set_Dashboards ∅ (set_Charts ∅ d)) = d.
Proof. destruct d. cbn. now intros -> -> ->. Qed.

(** X12.  [Dispose] leaves a component on which nothing more happens: it is
    not initialized, so a second [Dispose] changes nothing and emits
    nothing, and updates, chart creation and dashboard updates are ignored.
    On an initialized component of a build with V8 it releases the script
    context and the engine; on a component that is not initialized it
    empties the three collections and touches nothing else. *)
Theorem Dispose_is_final (n : nat) (b : UDataVisualizationBridge) :
  let d := Final (run Dispose n b) in
  bIsInitialized d = false
  /\ (WITH_V8 = true -> bIsInitialized b = true ->
      JavaScriptContext d = None /\ JavaScriptEngine d = false)
  /\ (bIsInitialized b = false ->
      run Dispose n b
      = MkRun tt n (set_PendingUpdates [] (set_Dashboards ∅ (set_Charts ∅ b))) [])
  /\ (forall m, run Dispose m d = MkRun tt m d [])
  /\ (forall m ChartId Timestamp Value Config Data,
        run (UpdateChart ChartId Timestamp Value) m d = MkRun tt m d []
        /\ run (CreateLineChart ChartId Config) m d = MkRun tt m d []
        /\ run (UpdateDashboard ChartId Data) m d = MkRun tt m d []).
Proof.
  cbn zeta.
  pose proof (Dispose_clears n b) as (Hc & Hd & Hp & Hi). cbn zeta in *.
  split; [exact Hi | split; [| split; [| split]]].
  - intros HV Hb. destruct (Dispose_initialized n b Hb) as (Context & Output & ->).
    rewrite HV. now cbn.
  - apply Dispose_uninitialized.
  - intros m. rewrite Dispose_uninitialized by exact Hi. now rewrite cleared_id.
  - intros m ChartId Timestamp Value Config Data. split; [| split].
    + apply (Update_uninitialized m _ ChartId Timestamp Value None [] Hi).
    + now apply CreateChartWith_uninitialized.
    + unfold UpdateDashboard. rewrite run_bind.
      cbn [Eff.get run Returned Reads Final Emitted]. now rewrite Hi.
Qed.

(** **** An initialization that fails half way *)

Lemma engine_context_id (b : UDataVisualizationBridge) :
  set_JavaScriptEngine (JavaScriptEngine b) (set_JavaScriptContext (JavaScriptContext b) b)
  = b.
Proof. now destruct b. Qed.

Lemma InitializeJavaScriptEngine_shape (n : nat) (b : UDataVisualizationBridge) :
  exists ok eng ctx lines,
    run InitializeJavaScriptEngine n b
    = MkRun ok n (set_JavaScriptEngine eng (set_JavaScriptContext ctx b)) lines
    /\ ScriptsOf lines = []
    /\ (ok = true -> eng = true /\ ctx <> None).
Proof.
  unfold InitializeJavaScriptEngine. destruct WITH_V8.
  - rewrite run_bind. cbn [Eff.modify run Returned Reads Final Emitted].
    destruct V8EngineInitialize; cbn [negb].
    + rewrite run_bind. cbn [Eff.modify run Returned Reads Final Emitted].
      destruct V8CreateContext as [ctx |].
      * destruct (V8ExecuteScript _ UtilityScript) as [[v | what] ctx'];
          eexists _, true, (Some ctx'), _; (split; [reflexivity |]);
          (split; [reflexivity | intros _; split; [reflexivity | discriminate]]).
      * eexists false, true, None, _. split; [reflexivity |].
        split; [reflexivity | discriminate].
    + eexists false, true, (JavaScriptContext b), _.
      rewrite set_JavaScriptContext_id.
      split; [reflexivity | split; [reflexivity | discriminate]].
  - eexists false, (JavaScriptEngine b), (JavaScriptContext b), _.
    rewrite engine_context_id. split; [reflexivity |].
    split; [reflexivity | discriminate].
Qed.

Lemma ExecuteJavaScript_keeps_context (Script : string) (n : nat)
    (b : UDataVisualizationBridge) :
  exists Result Context,
    run (ExecuteJavaScript Script) n b
    = MkRun Result n (set_JavaScriptContext Context b) [JavaScript Script Result]
    /\ (JavaScriptContext b <> None -> Context <> None).
Proof.
  unfold ExecuteJavaScript. rewrite run_bind.
  cbn [Eff.get run Returned Reads Final Emitted].
  destruct WITH_V8.
  - destruct (JavaScriptContext b) as [c |] eqn:Hc.
    + destruct (V8ExecuteScript c Script) as [Outcome c'] eqn:Hx.
      exists (ResultText Outcome), (Some c'). cbn. now split.
    + exists "ERROR: JavaScript context not available", None. cbn. split; [| easy].
      f_equal. rewrite <- Hc. now rewrite set_JavaScriptContext_id.
  - exists "ERROR: V8 not available", (JavaScriptContext b). cbn. split; [| easy].
    now rewrite set_JavaScriptContext_id.
Qed.

Lemma LoadDataVisualizationPackage_shape (n : nat) (b : UDataVisualizationBridge) :
  exists ok ctx out,
    run LoadDataVisualizationPackage n b = MkRun ok n (set_JavaScriptContext ctx b) out
    /\ (JavaScriptContext b <> None -> ctx <> None)
    /\ (ok = true ->
        exists PackageCode,
          LoadFileToString MainFile = Some PackageCode
          /\ ScriptsOf out
             = [PackageCode;
                InitScript (bEnableDebugMode b) (bAutoCleanup b) (MemoryLimit b)
                  (MaxDataPointsPerChart b)]).
Proof.
  unfold LoadDataVisualizationPackage.
  destruct (FileExists MainFile); cbn [negb].
  2: { exists false, (JavaScriptContext b). eexists. rewrite set_JavaScriptContext_id.
       split; [reflexivity |]. split; [easy | discriminate]. }
  destruct (LoadFileToString MainFile) as [PackageCode |].
  2: { exists false, (JavaScriptContext b). eexists. rewrite set_JavaScriptContext_id.
       split; [reflexivity |]. split; [easy | discriminate]. }
  rewrite run_bind.
  destruct (ExecuteJavaScript_keeps_context PackageCode n b) as (R1 & c1 & -> & H1).
  cbn [Returned Reads Final Emitted].
  destruct (UE.Contains R1 "ERROR").
  { exists false, c1. eexists. split; [reflexivity |]. split; [exact H1 | discriminate]. }
  rewrite run_bind. cbn [Eff.get run Returned Reads Final Emitted]. rewrite run_bind.
  destruct (ExecuteJavaScript_keeps_context
              (InitScript (bEnableDebugMode (set_JavaScriptContext c1 b))
                 (bAutoCleanup (set_JavaScriptContext c1 b))
                 (MemoryLimit (set_JavaScriptContext c1 b))
                 (MaxDataPointsPerChart (set_JavaScriptContext c1 b)))
              n (set_JavaScriptContext c1 b)) as (R2 & c2 & -> & H2).
  cbn [Returned Reads Final Emitted]. rewrite set_JavaScriptContext_twice.
  destruct (UE.Contains R2 "ERROR").
  - exists false, c2; eexists; (split; [reflexivity |]).
    split; [| discriminate]. intros Hb. apply H2. cbn. now apply H1.
  - exists true, c2; eexists; (split; [reflexivity |]).
    split; [intros Hb; apply H2; cbn; now apply H1 |].
    intros _. exists PackageCode. split; reflexivity.
Qed.

Lemma InitializeJavaScriptEngine_true (n : nat) (b : UDataVisualizationBridge) :
  Returned (run InitializeJavaScriptEngine n b) = true ->
  JavaScriptEngine (Final (run InitializeJavaScriptEngine n b)) = true
  /\ JavaScriptContext (Final (run InitializeJavaScriptEngine n b)) <> None.
Proof.
  destruct (InitializeJavaScriptEngine_shape n b) as (ok & eng & ctx & lines & -> & _ & Hok).
  cbn [Returned Final]. intros H. destruct (Hok H) as [-> Hc]. now split.
Qed.

Lemma LoadDataVisualizationPackage_keeps (n : nat) (b : UDataVisualizationBridge) :
  JavaScriptContext b <> None ->
  JavaScriptContext (Final (run LoadDataVisualizationPackage n b)) <> None
  /\ JavaScriptEngine (Final (run LoadDataVisualizationPackage n b)) = JavaScriptEngine b.
Proof.
  destruct (LoadDataVisualizationPackage_shape n b) as (ok & ctx & out & -> & Hc & _).
  cbn [Final]. intros H. split; [now apply Hc | reflexivity].
Qed.

Lemma Initialize_unfold (n : nat) (b : UDataVisualizationBridge) :
  bIsInitialized b = false ->
  let r1 := run InitializeJavaScriptEngine n b in
  let r2 := run LoadDataVisualizationPackage (Reads r1) (Final r1) in
  run Initialize n b
  = if Returned r1 then
      if Returned r2 then
        MkRun true (Reads r2) (set_bIsInitialized true (Final r2))
          (LogLine UE.Log "Initializing Data Visualization Bridge..."
             :: Emitted r1 ++ Emitted r2
                ++ [LogLine UE.Log "Data Visualization Bridge initialized successfully"])
      else
        MkRun false (Reads r2) (Final r2)
          (LogLine UE.Log "Initializing Data Visualization Bridge..."
             :: Emitted r1 ++ Emitted r2
                ++ [LogLine UE.Error "Failed to load data visualization package"])
    else
      MkRun false (Reads r1) (Final r1)
        (LogLine UE.Log "Initializing Data Visualization Bridge..."
           :: Emitted r1 ++ [LogLine UE.Error "Failed to initialize JavaScript engine"]).
Proof.
  intros H r1 r2. unfold Initialize. rewrite run_bind.
  cbn [Eff.get run Returned Reads Final Emitted]. rewrite H.
  do 2 (rewrite run_bind; cbn [UE_LOG Eff.emit run Returned Reads Final Emitted]).
  fold r1. destruct (Returned r1); cbn [negb].
  - rewrite run_bind. fold r2. destruct (Returned r2); cbn [negb]; reflexivity.
  - reflexivity.
Qed.

Lemma Initialize_package_failure (n : nat) (b : UDataVisualizationBridge) :
  bIsInitialized b = false ->
  let r1 := run InitializeJavaScriptEngine n b in
  Returned r1 = true ->
  Returned (run LoadDataVisualizationPackage (Reads r1) (Final r1)) = false ->
  Returned (run Initialize n b) = false
  /\ bIsInitialized (Final (run Initialize n b)) = false
  /\ JavaScriptContext (Final (run Initialize n b)) <> None
  /\ JavaScriptEngine (Final (run Initialize n b)) = true.
Proof.
  intros Hi r1 H1 H2.
  destruct (InitializeJavaScriptEngine_true n b H1) as [He Hc]. fold r1 in He, Hc.
  destruct (LoadDataVisualizationPackage_keeps (Reads r1) (Final r1) Hc) as [Hc2 He2].
  pose proof (LoadDataVisualizationPackage_frame (Reads r1) (Final r1)) as Hf2.
  pose proof (InitializeJavaScriptEngine_frame n b) as Hf1. fold r1 in Hf1.
  rewrite (Initialize_unfold n b Hi). cbn zeta. fold r1. rewrite H1, H2.
  cbn [Returned Final].
  split; [reflexivity | split; [congruence | split; [exact Hc2 | congruence]]].
Qed.

(** X13.  An [Initialize] that starts the script engine and then fails to
    load the package returns [false] and leaves the component
    uninitialized, but with the engine and the context it created.
    [Dispose] releases them only on an initialized component, so after
    [Dispose] they are still there. *)
Theorem a_failed_Initialize_keeps_the_script_context
    (n m : nat) (b : UDataVisualizationBridge) :
  bIsInitialized b = false ->
  let r1 := run InitializeJavaScriptEngine n b in
  Returned r1 = true ->
  Returned (run LoadDataVisualizationPackage (Reads r1) (Final r1)) = false ->
  let b' := Final (run Initialize n b) in
  Returned (run Initialize n b) = false
  /\ bIsInitialized b' = false
  /\ JavaScriptContext (Final (run Dispose m b')) <> None
  /\ JavaScriptEngine (Final (run Dispose m b')) = true.
Proof.
  intros Hi r1 H1 H2 b'.
  destruct (Initialize_package_failure n b Hi H1 H2) as (Hr & Hu & Hc & He).
  fold b' in Hu, Hc, He.
  split; [exact Hr | split; [exact Hu |]].
  rewrite (Dispose_uninitialized m b' Hu). cbn [Final].
  split; [exact Hc | exact He].
Qed.

(** **** Configuration *)

Lemma Setter_uninitialized (f : UDataVisualizationBridge -> UDataVisualizationBridge)
    (Script : string) (n : nat) (b : UDataVisualizationBridge) :
  bIsInitialized (f b) = false ->
  run (Eff.modify f;;
       b ← Eff.get;
       when (bIsInitialized b) (ExecuteJavaScript Script;; mret tt)) n b
  = MkRun tt n (f b) [].
Proof.
  intros H. rewrite run_bind. cbn [Eff.modify run Returned Reads Final Emitted].
  rewrite run_bind. cbn [Eff.get run Returned Reads Final Emitted]. now rewrite H.
Qed.

Lemma Configure_uninitialized (bDebug bCleanup : bool) (LimitBytes MaxPoints : Z)
    (n : nat) (b : UDataVisualizationBridge) :
  bIsInitialized b = false ->
  run (Configure bDebug bCleanup LimitBytes MaxPoints) n b
  = MkRun tt n
      (set_MaxDataPointsPerChart MaxPoints
         (set_MemoryLimit LimitBytes
            (set_bAutoCleanup bCleanup (set_bEnableDebugMode bDebug b))))
      [].
Proof.
  intros H. unfold Configure.
  rewrite run_bind. unfold SetDebugMode.
  rewrite (Setter_uninitialized (set_bEnableDebugMode bDebug) _ n b H).
  cbn [Returned Reads Final Emitted].
  rewrite run_bind. unfold EnableAutoCleanup.
  rewrite (Setter_uninitialized (set_bAutoCleanup bCleanup) _ n
             (set_bEnableDebugMode bDebug b) H).
  cbn [Returned Reads Final Emitted].
  rewrite run_bind. unfold SetMemoryLimit.
  rewrite (Setter_uninitialized (set_MemoryLimit LimitBytes) _ n
             (set_bAutoCleanup bCleanup (set_bEnableDebugMode bDebug b)) H).
  reflexivity.
Qed.

Lemma Setter_initialized (f : UDataVisualizationBridge -> UDataVisualizationBridge)
    (Script : string) (n : nat) (b : UDataVisualizationBridge) :
  bIsInitialized (f b) = true ->
  exists Result Context,
    run (Eff.modify f;;
         b ← Eff.get;
         when (bIsInitialized b) (ExecuteJavaScript Script;; mret tt)) n b
    = MkRun tt n (set_JavaScriptContext Context (f b)) [JavaScript Script Result].
Proof.
  intros H. rewrite run_bind. cbn [Eff.modify run Returned Reads Final Emitted].
  rewrite run_bind. cbn [Eff.get run Returned Reads Final Emitted]. rewrite H.
  unfold when. rewrite run_bind.
  destruct (ExecuteJavaScript_run Script n (f b)) as (Result & Context & ->).
  exists Result, Context. reflexivity.
Qed.

Lemma Configure_initialized (bDebug bCleanup : bool) (LimitBytes MaxPoints : Z)
    (n : nat) (b : UDataVisualizationBridge) :
  bIsInitialized b = true ->
  exists c1 c2 c3 R1 R2 R3,
    run (Configure bDebug bCleanup LimitBytes MaxPoints) n b
    = MkRun tt n
        (set_MaxDataPointsPerChart MaxPoints
           (set_JavaScriptContext c3
              (set_MemoryLimit LimitBytes
                 (set_JavaScriptContext c2
                    (set_bAutoCleanup bCleanup
                       (set_JavaScriptContext c1 (set_bEnableDebugMode bDebug b)))))))
        [JavaScript (SetDebugModeScript bDebug) R1;
         JavaScript (EnableAutoCleanupScript bCleanup) R2;
         JavaScript (SetMemoryLimitScript LimitBytes) R3].
Proof.
  intros H.
  destruct (Setter_initialized (set_bEnableDebugMode bDebug) (SetDebugModeScript bDebug)
              n b H) as (R1 & c1 & E1).
  destruct (Setter_initialized (set_bAutoCleanup bCleanup)
              (EnableAutoCleanupScript bCleanup) n
              (set_JavaScriptContext c1 (set_bEnableDebugMode bDebug b)) H)
    as (R2 & c2 & E2).
  destruct (Setter_initialized (set_MemoryLimit LimitBytes)
              (SetMemoryLimitScript LimitBytes) n
              (set_JavaScriptContext c2
                 (set_bAutoCleanup bCleanup
                    (set_JavaScriptContext c1 (set_bEnableDebugMode bDebug b)))) H)
    as (R3 & c3 & E3).
  exists c1, c2, c3, R1, R2, R3. unfold Configure.
  apply (run_bind_known _ _ _ _ _ _ _ _ _ _ _ _ E1).
  apply (run_bind_known _ _ _ _ _ _ _ _ _ _ _ _ E2).
  apply (run_bind_known _ _ _ _ _ _ _ _ _ _ _ _ E3).
  reflexivity.
Qed.

Lemma Initialize_success_scripts (n : nat) (b : UDataVisualizationBridge) :
  bIsInitialized b = false ->
  Returned (run Initialize n b) = true ->
  exists PackageCode,
    LoadFileToString MainFile = Some PackageCode
    /\ ScriptsOf (Emitted (run Initialize n b))
       = [PackageCode;
          InitScript (bEnableDebugMode b) (bAutoCleanup b) (MemoryLimit b)
            (MaxDataPointsPerChart b)].
Proof.
  intros Hi. rewrite (Initialize_unfold n b Hi). cbn zeta.
  destruct (InitializeJavaScriptEngine_shape n b) as (ok & eng & ctx & lines & -> & Hl & _).
  cbn [Returned Reads Final Emitted].
  destruct ok; [| discriminate].
  destruct (LoadDataVisualizationPackage_shape n
              (set_JavaScriptEngine eng (set_JavaScriptContext ctx b)))
    as (ok2 & ctx2 & out & -> & _ & Hs).
  cbn [Returned Reads Final Emitted].
  destruct ok2; [| discriminate]. intros _.
  destruct (Hs eq_refl) as (PackageCode & Hf & Ho). exists PackageCode.
  split; [exact Hf |].
  cbn [ScriptsOf Emitted]. rewrite !ScriptsOf_app, Hl, Ho. reflexivity.
Qed.


(** **** Updates and the tables of charts and dashboards *)

Section Tables.
Variables c d : gmap string FJsonObjectPtr.

Lemma bind_tables {A B} (op : Eff.M UDataVisualizationBridge Event A)
    (k : A -> Eff.M UDataVisualizationBridge Event B) :
  (forall n b, run op n (WithTables c d b) = MapFinal (WithTables c d) (run op n b)) ->
  (forall a n b,
      run (k a) n (WithTables c d b) = MapFinal (WithTables c d) (run (k a) n b)) ->
  forall n b,
    run (op ≫= k) n (WithTables c d b) = MapFinal (WithTables c d) (run (op ≫= k) n b).
Proof.
  intros Hop Hk n b. rewrite !run_bind, Hop. unfold MapFinal.
  cbn [Returned Reads Final Emitted]. rewrite Hk. reflexivity.
Qed.

Lemma ExecuteJavaScript_tables (Script : string) (n : nat) (b : UDataVisualizationBridge) :
  run (ExecuteJavaScript Script) n (WithTables c d b)
  = MapFinal (WithTables c d) (run (ExecuteJavaScript Script) n b).
Proof.
  unfold ExecuteJavaScript, MapFinal.
  cbn [Eff.get Eff.emit Eff.modify run Returned Reads Final Emitted mbind M_mbind bind
       mret M_mret ret].
  change (JavaScriptContext (WithTables c d b)) with (JavaScriptContext b).
  destruct WITH_V8; [| reflexivity].
  destruct (JavaScriptContext b) as [ctx |]; [| reflexivity].
  destruct (V8ExecuteScript ctx Script) as [Outcome ctx']. reflexivity.
Qed.

Lemma Immediate_tables (Script What ChartId : string) (n : nat)
    (b : UDataVisualizationBridge) :
  run (Result ← ExecuteJavaScript Script; ReportFailure What ChartId Result) n
    (WithTables c d b)
  = MapFinal (WithTables c d)
      (run (Result ← ExecuteJavaScript Script; ReportFailure What ChartId Result) n b).
Proof.
  revert n b. apply bind_tables; [apply ExecuteJavaScript_tables |].
  intros Result n b. now rewrite !ReportFailure_run.
Qed.

Lemma ForEach_tables (Grouped : FGroupedUpdates) :
  forall (n : nat) (b : UDataVisualizationBridge),
  run (ForEach Grouped ProcessChartUpdates) n (WithTables c d b)
  = MapFinal (WithTables c d) (run (ForEach Grouped ProcessChartUpdates) n b).
Proof.
  induction Grouped as [| [Id Updates] Grouped IH]; [reflexivity |].
  change (ForEach ((Id, Updates) :: Grouped) ProcessChartUpdates)
    with ((Result ← ExecuteJavaScript (BatchScript Id Updates);
           ReportFailure "process batched updates for" Id Result)
          ≫= fun _ => ForEach Grouped ProcessChartUpdates).
  apply bind_tables; [apply Immediate_tables | intros _; exact IH].
Qed.

Lemma ProcessBatchedUpdates_tables (n : nat) (b : UDataVisualizationBridge) :
  run ProcessBatchedUpdates n (WithTables c d b)
  = MapFinal (WithTables c d) (run ProcessBatchedUpdates n b).
Proof.
  unfold ProcessBatchedUpdates. rewrite !run_bind.
  cbn [Eff.get run Returned Reads Final Emitted].
  change (PendingUpdates (WithTables c d b)) with (PendingUpdates b).
  destruct (PendingUpdates b) as [| u q]; [reflexivity |].
  apply bind_tables; [apply ForEach_tables | reflexivity].
Qed.

End Tables.

(** X15.  No update looks at [Charts] or [Dashboards].  Whatever the two
    tables hold (in particular when the chart or dashboard addressed was
    never created, or was removed), [UpdateChart], [UpdateChartMultiData],
    [UpdateChartArray], [UpdateDashboard] and a flush return, emit and
    queue exactly the same, and leave the two tables as they were. *)
Theorem updates_do_not_consult_the_tables
    (NewCharts NewDashboards : gmap string FJsonObjectPtr)
    (Id : string) (Timestamp : Z) (Value : Q)
    (Data : FJsonObjectPtr) (Array : list (option FJsonValue))
    (n : nat) (b : UDataVisualizationBridge) :
  let Other := WithTables NewCharts NewDashboards in
  run (UpdateChart Id Timestamp Value) n (Other b)
  = MapFinal Other (run (UpdateChart Id Timestamp Value) n b)
  /\ run (UpdateChartMultiData Id Data) n (Other b)
     = MapFinal Other (run (UpdateChartMultiData Id Data) n b)
  /\ run (UpdateChartArray Id Array) n (Other b)
     = MapFinal Other (run (UpdateChartArray Id Array) n b)
  /\ run (UpdateDashboard Id Data) n (Other b)
     = MapFinal Other (run (UpdateDashboard Id Data) n b)
  /\ run ProcessPendingUpdates n (Other b)
     = MapFinal Other (run ProcessPendingUpdates n b).
Proof.
  cbn zeta.
  split; [| split; [| split; [| split; [| apply ProcessBatchedUpdates_tables]]]].
  all: unfold UpdateChart, UpdateChartMultiData, UpdateChartArray, UpdateDashboard.
  all: rewrite !(run_bind Eff.get); cbn [Eff.get run Returned Reads Final Emitted].
  all: change (bIsInitialized (WithTables NewCharts NewDashboards b))
         with (bIsInitialized b).
  all: change (bEnableBatchUpdates (WithTables NewCharts NewDashboards b))
         with (bEnableBatchUpdates b).
  all: destruct (bIsInitialized b); cbn [negb]; [| reflexivity].
  4: { rewrite Immediate_tables. reflexivity. }
  all: destruct (bEnableBatchUpdates b); [reflexivity |].
  all: unfold UpdateChartImmediate, UpdateChartMultiDataImmediate,
         UpdateChartArrayDataImmediate.
  all: rewrite Immediate_tables; reflexivity.
Qed.

End Facts.

#[local] Existing Instance Sample.VizEngine.

Lemma requests_are_delivered_in_order_witness :
  PendingUpdates
    (Final (run (Requests VizScenario.ThreeRequests;; ProcessPendingUpdates) 0
              Sample.InitializedViz)) = []
  /\ ScriptsOf
       (Emitted (run (Requests VizScenario.ThreeRequests;; ProcessPendingUpdates) 0
                   Sample.InitializedViz))
     = map (fun Id =>
              Bracketed Id
                (map (KnownCall Id)
                   (UpdatesFor Id
                      (PendingUpdates Sample.InitializedViz
                       ++ RequestedUpdates 0 VizScenario.ThreeRequests))))
         (DistinctIds
            (PendingUpdates Sample.InitializedViz
             ++ RequestedUpdates 0 VizScenario.ThreeRequests)).
Proof.
  pose proof InitializedViz_flags as (Hi & Hb & Hp).
  pose proof (requests_are_delivered_in_order VizScenario.ThreeRequests 0
                Sample.InitializedViz Hi Hb) as (_ & H).
  assert (Hk : Forall (fun Update => KnownMethod Update = true)
                 (PendingUpdates Sample.InitializedViz))
    by (rewrite Hp; constructor).
  assert (Hne : (PendingUpdates Sample.InitializedViz
                 ++ RequestedUpdates 0 VizScenario.ThreeRequests)%list <> [])
    by (rewrite Hp; discriminate).
  destruct (H Hk Hne) as [Hs Hq]. split; [exact Hq | exact Hs].
Defined.

Lemma ApplyBatchedUpdates_without_a_context_discards_witness :
  run (ApplyBatchedUpdates [VizScenario.OneUpdate]) 0 NewBridge
  = MkRun tt 0%nat (set_PendingUpdates [] NewBridge)
      (flat_map (FailedFlush NoContextResult)
         (GroupUpdates (PendingUpdates NewBridge ++ [VizScenario.OneUpdate]))).
Proof.
  exact (proj1 (ApplyBatchedUpdates_without_a_context_discards [VizScenario.OneUpdate] 0
                  NewBridge (or_intror eq_refl) ltac:(discriminate))).
Defined.

Lemma Dispose_is_final_witness :
  (JavaScriptContext (Final (run Dispose 0 Sample.InitializedViz)) = None
   /\ JavaScriptEngine (Final (run Dispose 0 Sample.InitializedViz)) = false)
  /\ run Dispose 0 NewBridge
     = MkRun tt 0%nat
         (set_PendingUpdates [] (set_Dashboards ∅ (set_Charts ∅ NewBridge))) [].
Proof.
  pose proof (Dispose_is_final 0 Sample.InitializedViz) as (_ & Hv & _).
  pose proof (Dispose_is_final 0 NewBridge) as (_ & _ & Hu & _).
  split; [exact (Hv eq_refl (proj1 InitializedViz_flags)) | exact (Hu eq_refl)].
Defined.


#[local] Remove Hints Sample.VizEngine : typeclass_instances.
#[local] Existing Instance Sample.MissingPackageEngine.

Lemma a_failed_Initialize_keeps_the_script_context_witness :
  Returned (run Initialize 0 NewBridge) = false
  /\ JavaScriptContext (Final (run Dispose 0 (Final (run Initialize 0 NewBridge))))
     <> None
  /\ JavaScriptEngine (Final (run Dispose 0 (Final (run Initialize 0 NewBridge))))
     = true.
Proof.
  pose proof (a_failed_Initialize_keeps_the_script_context 0 0 NewBridge eq_refl)
    as H. cbn zeta in H.
  assert (H1 : Returned (run InitializeJavaScriptEngine 0 NewBridge) = true)
    by (vm_compute; reflexivity).
  assert (H2 : Returned
                 (run LoadDataVisualizationPackage
                    (Reads (run InitializeJavaScriptEngine 0 NewBridge))
                    (Final (run InitializeJavaScriptEngine 0 NewBridge))) = false)
    by (vm_compute; reflexivity).
  destruct (H H1 H2) as (Hr & _ & Hc & He). split; [exact Hr | split; [exact Hc | exact He]].
Defined.

End DataVizMoreFacts.

(* ===================================================================== *)
(** * The example actor's performance gauge *)
(* ===================================================================== *)

Module DataVizExampleFacts.
Import DataVizExample.

Local Open Scope Q_scope.

Lemma Clamp_unit (X : Q) : 0 <= Clamp X 0 1 <= 1.
Proof.
  unfold Clamp. destruct (Qlt_le_dec X 0); [lra |].
  destruct (Qlt_le_dec X 1); lra.
Qed.

Lemma Clamp_top (X : Q) : 1 <= X -> Clamp X 0 1 == 1.
Proof.
  intros H. unfold Clamp. destruct (Qlt_le_dec X 0); [lra |].
  destruct (Qlt_le_dec X 1); lra.
Qed.

Lemma Clamp_bottom (X : Q) : X <= 0 -> Clamp X 0 1 == 0.
Proof.
  intros H. unfold Clamp. destruct (Qlt_le_dec X 0); [lra |].
  destruct (Qlt_le_dec X 1); lra.
Qed.

Lemma Clamp_monotone (X Y : Q) : X <= Y -> Clamp X 0 1 <= Clamp Y 0 1.
Proof.
  intros H. unfold Clamp.
  destruct (Qlt_le_dec X 0), (Qlt_le_dec Y 0); try lra;
    destruct (Qlt_le_dec X 1), (Qlt_le_dec Y 1); lra.
Qed.

Lemma Qdiv_const (X : Q) (p : positive) : X / (Z.pos p # 1) == X * (1 # p).
Proof. unfold Qdiv. reflexivity. Qed.

(** X16.  The score that the example actor sends to its performance gauge
    lies between 0 and 100 for every reading.  It is 100 when the frame
    rate is at least 60 and neither memory nor processor use is positive,
    and 0 when the frame rate is not positive, memory use is at least
    2048 MB and processor use at least 100 percent.  A reading that is no
    worse in any of the three measures never scores lower. *)
Theorem CalculatePerformanceScore_range (Metrics Better : FPerformanceMetrics) :
  0 <= CalculatePerformanceScore Metrics <= 100
  /\ (60 <= FPS Metrics -> MemoryUsageMB Metrics <= 0 ->
      CPUUsagePercent Metrics <= 0 ->
      CalculatePerformanceScore Metrics == 100)
  /\ (FPS Metrics <= 0 -> 2048 <= MemoryUsageMB Metrics ->
      100 <= CPUUsagePercent Metrics ->
      CalculatePerformanceScore Metrics == 0)
  /\ (FPS Metrics <= FPS Better ->
      MemoryUsageMB Better <= MemoryUsageMB Metrics ->
      CPUUsagePercent Better <= CPUUsagePercent Metrics ->
      CalculatePerformanceScore Metrics <= CalculatePerformanceScore Better).
Proof.
  unfold CalculatePerformanceScore. cbv zeta.
  pose proof (Clamp_unit (FPS Metrics / 60)) as Hf.
  pose proof (Clamp_unit (1 - MemoryUsageMB Metrics / 2048)) as Hm.
  pose proof (Clamp_unit (1 - CPUUsagePercent Metrics / 100)) as Hc.
  pose proof (Qdiv_const (FPS Metrics) 60) as Ef.
  pose proof (Qdiv_const (MemoryUsageMB Metrics) 2048) as Em.
  pose proof (Qdiv_const (CPUUsagePercent Metrics) 100) as Ec.
  split; [lra |]. split; [| split].
  - intros H1 H2 H3.
    pose proof (Clamp_top (FPS Metrics / 60) ltac:(lra)).
    pose proof (Clamp_top (1 - MemoryUsageMB Metrics / 2048) ltac:(lra)).
    pose proof (Clamp_top (1 - CPUUsagePercent Metrics / 100) ltac:(lra)).
    lra.
  - intros H1 H2 H3.
    pose proof (Clamp_bottom (FPS Metrics / 60) ltac:(lra)).
    pose proof (Clamp_bottom (1 - MemoryUsageMB Metrics / 2048) ltac:(lra)).
    pose proof (Clamp_bottom (1 - CPUUsagePercent Metrics / 100) ltac:(lra)).
    lra.
  - intros H1 H2 H3.
    pose proof (Qdiv_const (FPS Better) 60) as Ef'.
    pose proof (Qdiv_const (MemoryUsageMB Better) 2048) as Em'.
    pose proof (Qdiv_const (CPUUsagePercent Better) 100) as Ec'.
    pose proof (Clamp_monotone (FPS Metrics / 60) (FPS Better / 60)
                  ltac:(lra)) as Mf.
    pose proof (Clamp_monotone (1 - MemoryUsageMB Metrics / 2048)
                  (1 - MemoryUsageMB Better / 2048) ltac:(lra)) as Mm.
    pose proof (Clamp_monotone (1 - CPUUsagePercent Metrics / 100)
                  (1 - CPUUsagePercent Better / 100) ltac:(lra)) as Mc.
    lra.
Qed.

Lemma CalculatePerformanceScore_range_witness :
  CalculatePerformanceScore (MkMetrics 72 0 0) == 100
  /\ CalculatePerformanceScore (MkMetrics 0 4096 100) == 0
  /\ CalculatePerformanceScore (MkMetrics 30 1024 50)
     <= CalculatePerformanceScore (MkMetrics 45 512 50).
Proof.
  pose proof (CalculatePerformanceScore_range (MkMetrics 72 0 0) (MkMetrics 72 0 0))
    as (_ & Ht & _).
  pose proof (CalculatePerformanceScore_range (MkMetrics 0 4096 100)
                (MkMetrics 0 4096 100)) as (_ & _ & Hb & _).
  pose proof (CalculatePerformanceScore_range (MkMetrics 30 1024 50)
                (MkMetrics 45 512 50)) as (_ & _ & _ & Hm).
  split; [| split].
  - apply Ht; cbn; discriminate.
  - apply Hb; cbn; discriminate.
  - apply Hm; cbn; discriminate.
Defined.

End DataVizExampleFacts.
